(** * DApp-KYC: the verification-proof pipeline

    A shallow embedding of the TypeScript and JavaScript sources of the
    repository, and the properties of its specification that were checked
    against them:

    - [lib/utils/crypto.ts]: [hashData], [generateNullifierHash],
      [createCommitment], [isDocumentValid], [isAdult];
    - [lib/services/zkproof.ts]: the three proof generators and
      [verifyZKProof];
    - [lib/services/iexec.ts] (two revisions): [getNetworkConfig] and the
      confidential-task client;
    - [hooks/use-kyc-verification.ts] (two revisions): the session state
      machine [startVerification] / [reset];
    - the confidential worker ([main] of the iApp).

    Conventions of the embedding.
    - A JavaScript string is a [string]: each character is one code unit, so
      the strings covered are those whose code units are below 256, and
      [String.length] is the [.length] of the source.
    - A JavaScript number that the sources use as an integer (a chain id, a
      minimum age, a calendar field, a time value in milliseconds) is a [Z].
      A number that can be [NaN] is an [option Z], [None] being [NaN].
    - [crypto.subtle.digest('SHA-256', _)] is the function of FIPS 180-4,
      written out below on 32-bit words held in [Z].
    - The clock ([new Date()], [Date.now()]) is an input: the pure functions
      take the reading as an argument, the effectful ones draw it from the
      world they run in. A call of the logger of the browser sources is a
      reading of the clock, for the time stamp of its entry; what becomes
      of the entry is the subject of the module [Logger]. *)

From Stdlib Require Import ZArith List Bool Lia.
From Stdlib Require Import Strings.String Strings.Ascii Strings.Byte.
From Stdlib Require Import DecimalString.
Import ListNotations.

Local Open Scope string_scope.
Local Open Scope Z_scope.

(* ===================================================================== *)
(** * Bytes, hexadecimal digits and UTF-8 *)
(* ===================================================================== *)

(** The byte whose value is [z mod 256]. *)
Definition byte_of_Z (z : Z) : byte :=
  match Byte.of_N (Z.to_N (z mod 256)) with
  | Some b => b
  | None => x00
  end.

Definition Z_of_byte (b : byte) : Z := Z.of_N (Byte.to_N b).

(** One digit of [Number.prototype.toString(16)]. *)
Definition hexDigit (d : Z) : ascii :=
  if d <? 10 then ascii_of_N (Z.to_N (48 + d))
  else ascii_of_N (Z.to_N (87 + d)).

(** [b.toString(16)] for a byte [b]: one digit below 16, two otherwise. *)
Definition toString16 (b : byte) : string :=
  let n := Z_of_byte b in
  if n <? 16 then String (hexDigit n) EmptyString
  else String (hexDigit (n / 16)) (String (hexDigit (n mod 16)) EmptyString).

(** [s.padStart(targetLength, c)] for a one-character pad string. *)
Fixpoint repeatChar (c : ascii) (n : nat) : string :=
  match n with
  | O => EmptyString
  | S k => String c (repeatChar c k)
  end.

Definition padStart (s : string) (targetLength : nat) (c : ascii) : string :=
  repeatChar c (targetLength - String.length s) ++ s.

(** [arr.map(f).join('')]. *)
Fixpoint joinMap {A : Type} (f : A -> string) (l : list A) : string :=
  match l with
  | [] => EmptyString
  | x :: r => f x ++ joinMap f r
  end.

(** [new TextEncoder().encode(s)]: UTF-8 of the code units of [s]. A code
    unit below 128 is one byte, one in 128..255 is two bytes. *)
Definition utf8_unit (c : ascii) : list byte :=
  let n := Z.of_N (N_of_ascii c) in
  if n <? 128 then [byte_of_Z n]
  else [byte_of_Z (Z.lor 192 (Z.shiftr n 6)); byte_of_Z (Z.lor 128 (Z.land n 63))].

Fixpoint textEncode (s : string) : list byte :=
  match s with
  | EmptyString => []
  | String c r => utf8_unit c ++ textEncode r
  end.

(* ===================================================================== *)
(** * SHA-256 (FIPS 180-4), the digest behind [crypto.subtle.digest] *)
(* ===================================================================== *)

Module SHA256.

Definition modulus : Z := 4294967296.

Definition add32 (x y : Z) : Z := (x + y) mod modulus.

Definition rotr (n x : Z) : Z :=
  Z.lor (Z.shiftr x n) ((Z.shiftl x (32 - n)) mod modulus).

Definition not32 (x : Z) : Z := modulus - 1 - x.

Definition ch (x y z : Z) : Z :=
  Z.lxor (Z.land x y) (Z.land (not32 x) z).

Definition maj (x y z : Z) : Z :=
  Z.lxor (Z.lxor (Z.land x y) (Z.land x z)) (Z.land y z).

Definition bigSigma0 (x : Z) : Z :=
  Z.lxor (Z.lxor (rotr 2 x) (rotr 13 x)) (rotr 22 x).

Definition bigSigma1 (x : Z) : Z :=
  Z.lxor (Z.lxor (rotr 6 x) (rotr 11 x)) (rotr 25 x).

Definition smallSigma0 (x : Z) : Z :=
  Z.lxor (Z.lxor (rotr 7 x) (rotr 18 x)) (Z.shiftr x 3).

Definition smallSigma1 (x : Z) : Z :=
  Z.lxor (Z.lxor (rotr 17 x) (rotr 19 x)) (Z.shiftr x 10).

(** The sixty-four round constants. *)
Definition roundConstants : list Z :=
  [ 0x428A2F98; 0x71374491; 0xB5C0FBCF; 0xE9B5DBA5;
    0x3956C25B; 0x59F111F1; 0x923F82A4; 0xAB1C5ED5;
    0xD807AA98; 0x12835B01; 0x243185BE; 0x550C7DC3;
    0x72BE5D74; 0x80DEB1FE; 0x9BDC06A7; 0xC19BF174;
    0xE49B69C1; 0xEFBE4786; 0x0FC19DC6; 0x240CA1CC;
    0x2DE92C6F; 0x4A7484AA; 0x5CB0A9DC; 0x76F988DA;
    0x983E5152; 0xA831C66D; 0xB00327C8; 0xBF597FC7;
    0xC6E00BF3; 0xD5A79147; 0x06CA6351; 0x14292967;
    0x27B70A85; 0x2E1B2138; 0x4D2C6DFC; 0x53380D13;
    0x650A7354; 0x766A0ABB; 0x81C2C92E; 0x92722C85;
    0xA2BFE8A1; 0xA81A664B; 0xC24B8B70; 0xC76C51A3;
    0xD192E819; 0xD6990624; 0xF40E3585; 0x106AA070;
    0x19A4C116; 0x1E376C08; 0x2748774C; 0x34B0BCB5;
    0x391C0CB3; 0x4ED8AA4A; 0x5B9CCA4F; 0x682E6FF3;
    0x748F82EE; 0x78A5636F; 0x84C87814; 0x8CC70208;
    0x90BEFFFA; 0xA4506CEB; 0xBEF9A3F7; 0xC67178F2 ].

(** The eight working words. *)
Record state : Type := mkState {
  wa : Z; wb : Z; wc : Z; wd : Z; we : Z; wf : Z; wg : Z; wh : Z
}.

Definition initialState : state :=
  mkState 0x6A09E667 0xBB67AE85 0x3C6EF372 0xA54FF53A
          0x510E527F 0x9B05688C 0x1F83D9AB 0x5BE0CD19.

(** Padding: the bit 1, zeros up to 56 modulo 64 bytes, then the length in
    bits as a 64-bit big-endian number. *)
Definition bigEndian (width : nat) (v : Z) : list byte :=
  map (fun i => byte_of_Z (Z.shiftr v (8 * Z.of_nat (width - 1 - i))))
      (seq 0 width).

Definition pad (msg : list byte) : list byte :=
  let len := Z.of_nat (List.length msg) in
  let zeros := Z.to_nat ((55 - len) mod 64) in
  msg ++ x80 :: repeat x00 zeros ++ bigEndian 8 (8 * len).

(** Four bytes, big-endian, to one word. *)
Fixpoint toWords (bs : list byte) : list Z :=
  match bs with
  | b0 :: b1 :: b2 :: b3 :: r =>
      (Z_of_byte b0 * 16777216 + Z_of_byte b1 * 65536
       + Z_of_byte b2 * 256 + Z_of_byte b3) :: toWords r
  | _ => []
  end.

(** The message schedule, kept newest word first while it is extended. *)
Fixpoint extend (n : nat) (rev_w : list Z) : list Z :=
  match n with
  | O => rev_w
  | S k =>
      let w := add32 (add32 (add32 (smallSigma1 (nth 1 rev_w 0)) (nth 6 rev_w 0))
                            (smallSigma0 (nth 14 rev_w 0)))
                     (nth 15 rev_w 0) in
      extend k (w :: rev_w)
  end.

Definition schedule (block : list Z) : list Z :=
  rev (extend 48 (rev block)).

Definition round (s : state) (kw : Z * Z) : state :=
  let (k, w) := kw in
  let t1 := add32 (add32 (add32 (add32 (wh s) (bigSigma1 (we s)))
                                (ch (we s) (wf s) (wg s))) k) w in
  let t2 := add32 (bigSigma0 (wa s)) (maj (wa s) (wb s) (wc s)) in
  mkState (add32 t1 t2) (wa s) (wb s) (wc s)
          (add32 (wd s) t1) (we s) (wf s) (wg s).

Definition compress (h : state) (block : list Z) : state :=
  let s := fold_left round (combine roundConstants (schedule block)) h in
  mkState (add32 (wa h) (wa s)) (add32 (wb h) (wb s))
          (add32 (wc h) (wc s)) (add32 (wd h) (wd s))
          (add32 (we h) (we s)) (add32 (wf h) (wf s))
          (add32 (wg h) (wg s)) (add32 (wh h) (wh s)).

(** The padded message, sixteen words at a time. *)
Fixpoint blocks (fuel : nat) (ws : list Z) (h : state) : state :=
  match fuel with
  | O => h
  | S k =>
      match ws with
      | [] => h
      | _ => blocks k (skipn 16 ws) (compress h (firstn 16 ws))
      end
  end.

Definition output (h : state) : list byte :=
  bigEndian 4 (wa h) ++ bigEndian 4 (wb h) ++ bigEndian 4 (wc h)
  ++ bigEndian 4 (wd h) ++ bigEndian 4 (we h) ++ bigEndian 4 (wf h)
  ++ bigEndian 4 (wg h) ++ bigEndian 4 (wh h).

Definition digest (msg : list byte) : list byte :=
  let ws := toWords (pad msg) in
  output (blocks (List.length ws) ws initialState).

End SHA256.

(* ===================================================================== *)
(** * [lib/utils/crypto.ts]: digests, nullifiers, commitments *)
(* ===================================================================== *)

(** [hashArray.map(b => b.toString(16).padStart(2, '0')).join('')]. *)
Definition hexOfBytes (hashArray : list byte) : string :=
  joinMap (fun b => padStart (toString16 b) 2 "0"%char) hashArray.

(** [hashData]: SHA-256 of the UTF-8 encoding, as lowercase hexadecimal,
    two digits per byte. *)
Definition hashData (data : string) : string :=
  let dataBuffer := textEncode data in
  let hashArray := SHA256.digest dataBuffer in
  hexOfBytes hashArray.

(** [generateNullifierHash]. *)
Definition generateNullifierHash (documentHash userAddress : string) : string :=
  let combined := documentHash ++ ":" ++ userAddress ++ ":nullifier" in
  hashData combined.

(* ===================================================================== *)
(** * JavaScript numbers, dates and JSON text *)
(* ===================================================================== *)

(** A number that may be [NaN]. Every comparison with [NaN] is false and
    every arithmetic operation on it gives [NaN]. *)
Definition num : Type := option Z.

Definition num_sub (a b : num) : num :=
  match a, b with
  | Some x, Some y => Some (x - y)
  | _, _ => None
  end.

Definition num_add (a b : num) : num :=
  match a, b with
  | Some x, Some y => Some (x + y)
  | _, _ => None
  end.

Definition num_ltb (a b : num) : bool :=
  match a, b with
  | Some x, Some y => x <? y
  | _, _ => false
  end.

Definition num_gtb (a b : num) : bool := num_ltb b a.

Definition num_geb (a b : num) : bool :=
  match a, b with
  | Some x, Some y => y <=? x
  | _, _ => false
  end.

Definition num_eqb (a b : num) : bool :=
  match a, b with
  | Some x, Some y => x =? y
  | _, _ => false
  end.

(** [Math.floor(a / b)] for an integer [a] and a positive integer [b]. *)
Definition num_floor_div (a : num) (b : Z) : num :=
  match a with
  | Some x => Some (x / b)
  | None => None
  end.

(** [n.toString()] of an integer. *)
Definition intToString (z : Z) : string :=
  NilZero.string_of_int (Z.to_int z).

Definition numToString (n : num) : string :=
  match n with
  | Some z => intToString z
  | None => "NaN"
  end.

(** What the getters of a valid [Date] return: [getTime()] in milliseconds
    since the epoch and, in the local time zone, [getFullYear()],
    [getMonth()] (0 for January) and [getDate()]. *)
Module DateFields.
Record t : Type := mk {
  time : Z;
  fullYear : Z;
  month : Z;
  date : Z
}.
End DateFields.

(** A [Date] object: [None] is the Invalid Date, whose getters give [NaN]. *)
Definition JSDate : Type := option DateFields.t.

Definition getTime (d : JSDate) : num := option_map DateFields.time d.
Definition getFullYear (d : JSDate) : num := option_map DateFields.fullYear d.
Definition getMonth (d : JSDate) : num := option_map DateFields.month d.
Definition getDate (d : JSDate) : num := option_map DateFields.date d.

(** ** [JSON.stringify] of the values the sources serialise *)

Definition dquote : ascii := "034"%char.

Definition jsonEscape (c : ascii) : string :=
  let n := Z.of_N (N_of_ascii c) in
  if n =? 34 then String "\"%char (String dquote EmptyString)
  else if n =? 92 then "\\"
  else if n =? 8 then "\b"
  else if n =? 9 then "\t"
  else if n =? 10 then "\n"
  else if n =? 12 then "\f"
  else if n =? 13 then "\r"
  else if n <? 32 then
    "\u00" ++ String (hexDigit (n / 16)) (String (hexDigit (n mod 16)) EmptyString)
  else String c EmptyString.

Definition jsonString (s : string) : string :=
  String dquote (joinMap jsonEscape (list_ascii_of_string s))
  ++ String dquote EmptyString.

Definition jsonBool (b : bool) : string := if b then "true" else "false".

Definition jsonNum (n : num) : string :=
  match n with
  | Some z => intToString z
  | None => "null"
  end.

(** One [key:value] member, the value already serialised. *)
Definition jsonMember (key value : string) : string :=
  jsonString key ++ ":" ++ value.

Fixpoint jsonMembers (ms : list (string * string)) : string :=
  match ms with
  | [] => EmptyString
  | [(k, v)] => jsonMember k v
  | (k, v) :: r => jsonMember k v ++ "," ++ jsonMembers r
  end.

Definition jsonObject (ms : list (string * string)) : string :=
  "{" ++ jsonMembers ms ++ "}".

(* ===================================================================== *)
(** * [lib/types/kyc.ts] *)
(* ===================================================================== *)

Inductive VerificationStatus : Type :=
  | idle | connecting | encrypting | protecting | computing
  | verifying | submitting | completed | failed.

Inductive DocumentType : Type :=
  | passport | national_id | driving_license | aadhaar | pan_card.

(** The string a [DocumentType] is at run time. *)
Definition documentTypeString (d : DocumentType) : string :=
  match d with
  | passport => "passport"
  | national_id => "national_id"
  | driving_license => "driving_license"
  | aadhaar => "aadhaar"
  | pan_card => "pan_card"
  end.

Module KYCData.
Record t : Type := mk {
  documentType : DocumentType;
  documentNumber : string;
  fullName : string;
  dateOfBirth : string;
  nationality : string;
  expiryDate : string;
  documentHash : option string
}.
End KYCData.

Module ProtectedData.
Record t : Type := mk {
  address : string;
  dataHash : string;
  timestamp : Z;
  encryptedData : option string
}.
End ProtectedData.

Module VerificationResult.
Record attributes_t : Type := mkAttributes {
  isAdult : bool;
  isNotExpired : bool;
  isNotSanctioned : bool
}.
Record t : Type := mk {
  isValid : bool;
  timestamp : Z;
  proofHash : string;
  enclaveSignature : string;
  attributes : attributes_t
}.
End VerificationResult.

Module ZKProof.
Record t : Type := mk {
  proof : string;
  publicSignals : list string;
  nullifierHash : string
}.
End ZKProof.

Module NetworkConfig.
Record t : Type := mk {
  chainId : Z;
  name : string;
  workerpoolAddress : string;
  dataProtectorSubgraph : string;
  ipfsGateway : string;
  ipfsUploadUrl : string;
  isExperimental : bool
}.
End NetworkConfig.

Definition ARBITRUM_SEPOLIA_CONFIG : NetworkConfig.t :=
  NetworkConfig.mk 421614 "arbitrum-sepolia-testnet"
    "0xB967057a21dc6A66A29721d96b8Aa7454B7c383F"
    "https://thegraph.arbitrum-sepolia-testnet.iex.ec/api/subgraphs/id/5YjRPLtjS6GH6bB4yY55Qg4HzwtRGQ8TaHtGf9UBWWd"
    "https://ipfs-gateway.arbitrum-sepolia-testnet.iex.ec"
    "https://ipfs-upload.arbitrum-sepolia-testnet.iex.ec"
    true.

Definition ARBITRUM_MAINNET_CONFIG : NetworkConfig.t :=
  NetworkConfig.mk 42161 "arbitrum-mainnet"
    "0x2C06263943180Cc024dAFfeEe15612DB6e5fD248"
    "https://thegraph.arbitrum.iex.ec/api/subgraphs/id/Ep5zs5zVr4tDiVuQJepUu51e5eWYJpka624X4DMBxe3u"
    "https://ipfs-gateway.arbitrum-mainnet.iex.ec"
    "https://ipfs-upload.arbitrum-mainnet.iex.ec"
    false.

(** The strict equality [a === b] of two strings, and [arr.includes(s)]. *)
Definition strictEq (a b : string) : bool := String.eqb a b.

Definition includes (arr : list string) (s : string) : bool :=
  existsb (fun x => strictEq x s) arr.

(** [b ? '1' : '0']. *)
Definition signal (b : bool) : string := if b then "1" else "0".

(** ** The interfaces of [lib/services/zkproof.ts] *)

Inductive ZKCircuitType : Type :=
  | age_verification | nationality_check | document_validity | full_kyc.

Module ZKVerificationResult.
Record t : Type := mk {
  isValid : bool;
  nullifierHash : string;
  publicOutputs : list string
}.
End ZKVerificationResult.

(** The [options] argument of [generateFullKYCProof]; an absent member is
    [None]. *)
Module Options.
Record t : Type := mk {
  minimumAge : option Z;
  allowedNationalities : option (list string)
}.
End Options.

Section Runtime.

(** [new Date(s)] for a string [s], as the runtime the code runs in parses
    it and as its local time zone reads it. *)
Variable newDate : string -> JSDate.

(* =================================================================== *)
(** ** [lib/utils/crypto.ts], continued *)
(* =================================================================== *)

(** [createCommitment]: the digest of four fields, in this order. *)
Definition createCommitment (kycData : KYCData.t) : string :=
  let dataString := jsonObject
    [ ("documentType",
        jsonString (documentTypeString (KYCData.documentType kycData)));
      ("documentNumber", jsonString (KYCData.documentNumber kycData));
      ("dateOfBirth", jsonString (KYCData.dateOfBirth kycData));
      ("nationality", jsonString (KYCData.nationality kycData)) ] in
  hashData dataString.

(** [isDocumentValid], [now] being the reading of [new Date()]. *)
Definition isDocumentValid (now : DateFields.t) (expiryDate : string) : bool :=
  let expiry := newDate expiryDate in
  let today : JSDate := Some now in
  num_gtb (getTime expiry) (getTime today).

(** [isAdult]; the source's default for [minimumAge] is 18. *)
Definition isAdult (now : DateFields.t) (dateOfBirth : string)
    (minimumAge : Z) : bool :=
  let birthDate := newDate dateOfBirth in
  let today : JSDate := Some now in
  let age := num_sub (getFullYear today) (getFullYear birthDate) in
  let monthDiff := num_sub (getMonth today) (getMonth birthDate) in
  if num_ltb monthDiff (Some 0)
     || (num_eqb monthDiff (Some 0)
         && num_ltb (getDate today) (getDate birthDate))
  then num_geb (num_sub age (Some 1)) (Some minimumAge)
  else num_geb age (Some minimumAge).

(* =================================================================== *)
(** ** [lib/services/zkproof.ts] *)
(* =================================================================== *)

(** The age after the [if (...) age--] of the source. *)
Definition ageAt (today birthDate : JSDate) : num :=
  let age := num_sub (getFullYear today) (getFullYear birthDate) in
  let monthDiff := num_sub (getMonth today) (getMonth birthDate) in
  if num_ltb monthDiff (Some 0)
     || (num_eqb monthDiff (Some 0)
         && num_ltb (getDate today) (getDate birthDate))
  then num_sub age (Some 1)
  else age.

(** [generateAgeVerificationProof], [now] being the reading of
    [new Date()]. *)
Definition generateAgeVerificationProof (now : DateFields.t)
    (dateOfBirth : string) (minimumAge : Z) (userAddress : string)
    : ZKProof.t :=
  let birthDate := newDate dateOfBirth in
  let today : JSDate := Some now in
  let age := ageAt today birthDate in
  let isAboveMinimumAge := num_geb age (Some minimumAge) in
  let proofInput := jsonObject
    [ ("birthYear", jsonNum (getFullYear birthDate));
      ("birthMonth", jsonNum (num_add (getMonth birthDate) (Some 1)));
      ("birthDay", jsonNum (getDate birthDate));
      ("currentYear", jsonNum (getFullYear today));
      ("currentMonth", jsonNum (num_add (getMonth today) (Some 1)));
      ("currentDay", jsonNum (getDate today));
      ("minimumAge", jsonNum (Some minimumAge));
      ("result", jsonBool isAboveMinimumAge) ] in
  let proofHash := hashData proofInput in
  let nullifierHash := generateNullifierHash proofHash userAddress in
  ZKProof.mk proofHash
    [ signal isAboveMinimumAge;
      intToString minimumAge;
      numToString (getFullYear today) ]
    nullifierHash.

(** [generateDocumentValidityProof], [now] being the reading of
    [new Date()]. *)
Definition generateDocumentValidityProof (now : DateFields.t)
    (expiryDate documentType userAddress : string) : ZKProof.t :=
  let expiry := newDate expiryDate in
  let today : JSDate := Some now in
  let isValid := num_gtb (getTime expiry) (getTime today) in
  let daysUntilExpiry :=
    num_floor_div (num_sub (getTime expiry) (getTime today))
                  (1000 * 60 * 60 * 24) in
  let hasMinimumValidity := num_gtb daysUntilExpiry (Some 30) in
  let proofInput := jsonObject
    [ ("documentType", jsonString documentType);
      ("expiryYear", jsonNum (getFullYear expiry));
      ("expiryMonth", jsonNum (num_add (getMonth expiry) (Some 1)));
      ("isValid", jsonBool isValid);
      ("hasMinimumValidity", jsonBool hasMinimumValidity) ] in
  let proofHash := hashData proofInput in
  let nullifierHash := generateNullifierHash proofHash userAddress in
  ZKProof.mk proofHash
    [ signal isValid; signal hasMinimumValidity ]
    nullifierHash.

(** [generateFullKYCProof]. [nowAge] and [nowDoc] are the readings of
    [new Date()] in the two sub-proofs, [nowMs] that of [Date.now()]. *)
Definition generateFullKYCProof (nowAge nowDoc : DateFields.t) (nowMs : Z)
    (kycData : KYCData.t) (userAddress : string) (options : Options.t)
    : ZKProof.t :=
  let minimumAge :=
    match Options.minimumAge options with
    | Some m => m
    | None => 18
    end in
  let allowedNationalities := Options.allowedNationalities options in
  let ageProof :=
    generateAgeVerificationProof nowAge
      (KYCData.dateOfBirth kycData) minimumAge userAddress in
  let docProof :=
    generateDocumentValidityProof nowDoc
      (KYCData.expiryDate kycData)
      (documentTypeString (KYCData.documentType kycData)) userAddress in
  let nationalityValid :=
    match allowedNationalities with
    | Some l =>
        if (0 <? Z.of_nat (List.length l))
        then includes l (KYCData.nationality kycData)
        else true
    | None => true
    end in
  let combinedInput := jsonObject
    [ ("ageProof", jsonString (ZKProof.proof ageProof));
      ("docProof", jsonString (ZKProof.proof docProof));
      ("nationalityValid", jsonBool nationalityValid);
      ("timestamp", jsonNum (Some nowMs)) ] in
  let combinedProofHash := hashData combinedInput in
  let nullifierHash :=
    generateNullifierHash
      (documentTypeString (KYCData.documentType kycData) ++ ":"
       ++ hashData (KYCData.documentNumber kycData))
      userAddress in
  let isAgeValid :=
    match nth_error (ZKProof.publicSignals ageProof) 0 with
    | Some s => strictEq s "1"
    | None => false
    end in
  let isDocValid :=
    match nth_error (ZKProof.publicSignals docProof) 0 with
    | Some s => strictEq s "1"
    | None => false
    end in
  let isFullyValid := isAgeValid && isDocValid && nationalityValid in
  ZKProof.mk combinedProofHash
    [ signal isFullyValid;
      signal isAgeValid;
      signal isDocValid;
      signal nationalityValid;
      intToString minimumAge ]
    nullifierHash.

(** [verifyZKProof]. A string is truthy when it is not empty; the first
    element of an empty array is [undefined], which is not ['1']. *)
Definition verifyZKProof (proof : ZKProof.t) (circuitType : ZKCircuitType)
    : ZKVerificationResult.t :=
  let isValidFormat :=
    negb (strictEq (ZKProof.proof proof) "")
    && (String.length (ZKProof.proof proof) =? 64)%nat
    && (0 <? List.length (ZKProof.publicSignals proof))%nat in
  if negb isValidFormat then
    ZKVerificationResult.mk false (ZKProof.nullifierHash proof) []
  else
    let isProofValid :=
      match nth_error (ZKProof.publicSignals proof) 0 with
      | Some s => strictEq s "1"
      | None => false
      end in
    ZKVerificationResult.mk isProofValid (ZKProof.nullifierHash proof)
      (ZKProof.publicSignals proof).

End Runtime.

(* ===================================================================== *)
(** * Effects: state, exceptions and calls across the service boundary *)
(* ===================================================================== *)

(** A value thrown by JavaScript code: an [Error] object with its message,
    or some other value that is not [null] or [undefined], kept as its
    [String(_)]. *)
Inductive Thrown : Type :=
  | ErrorObject (message : string)
  | OtherValue (text : string).

Inductive Outcome (A : Type) : Type :=
  | Returned (a : A)
  | Threw (e : Thrown).

Arguments Returned {A} a.
Arguments Threw {A} e.

(** A computation over a store [S]: it returns or throws, and the store it
    leaves is kept in both cases. An [await] is sequencing. *)
Definition M (S A : Type) : Type := S -> Outcome A * S.

Definition ret {S A : Type} (a : A) : M S A := fun s => (Returned a, s).

Definition bind {S A B : Type} (c : M S A) (k : A -> M S B) : M S B :=
  fun s =>
    match c s with
    | (Returned a, s') => k a s'
    | (Threw e, s') => (Threw e, s')
    end.

Definition throw {S A : Type} (e : Thrown) : M S A := fun s => (Threw e, s).

(** [throw new Error(message)]. *)
Definition throwError {S A : Type} (message : string) : M S A :=
  throw (ErrorObject message).

(** [try { body } catch (e) { handler e }]. *)
Definition tryCatch {S A : Type} (body : M S A) (handler : Thrown -> M S A)
    : M S A :=
  fun s =>
    match body s with
    | (Returned a, s') => (Returned a, s')
    | (Threw e, s') => handler e s'
    end.

(** [try { body } finally { final }]: [final] runs on both exits; when it
    throws, its exception replaces the outcome of [body]. *)
Definition tryFinally {S A : Type} (body : M S A) (final : M S unit)
    : M S A :=
  fun s =>
    match body s with
    | (r, s') =>
        match final s' with
        | (Returned _, s'') => (r, s'')
        | (Threw e, s'') => (Threw e, s'')
        end
    end.

Definition gets {S A : Type} (f : S -> A) : M S A := fun s => (Returned (f s), s).

Definition modify {S : Type} (f : S -> S) : M S unit :=
  fun s => (Returned tt, f s).

(** Lifting the outcome of an external call. *)
Definition lift {S A : Type} (o : Outcome A) : M S A := fun s => (o, s).

Declare Scope eff_scope.
Delimit Scope eff_scope with eff.
Notation "x <- c ;; k" := (bind c (fun x => k))
  (at level 61, c at next level, right associativity) : eff_scope.
Notation "c ;;; k" := (bind c (fun _ => k))
  (at level 61, right associativity) : eff_scope.

(** [err instanceof Error ? err.message : fallback]. *)
Definition messageOr (fallback : string) (e : Thrown) : string :=
  match e with
  | ErrorObject m => m
  | OtherValue _ => fallback
  end.

(** ** String methods the services use *)

(** [hay.includes(needle)]. *)
Fixpoint strIncludes (needle hay : string) : bool :=
  String.prefix needle hay
  || match hay with
     | String _ r => strIncludes needle r
     | EmptyString => false
     end.

(** [s.slice(0, n)] and [s.slice(-n)]. *)
Definition sliceFirst (n : nat) (s : string) : string := String.substring 0 n s.

Definition sliceLast (n : nat) (s : string) : string :=
  String.substring (String.length s - n) n s.

(** A string is truthy when it is not empty. *)
Definition truthy (s : string) : bool := negb (strictEq s "").

(* ===================================================================== *)
(** * The browser session: store, world and calls *)
(* ===================================================================== *)

Module KYCVerificationState.
Record t : Type := mk {
  status : VerificationStatus;
  currentStep : Z;
  totalSteps : Z;
  protectedData : option ProtectedData.t;
  zkProof : option ZKProof.t;
  verificationResult : option VerificationResult.t;
  transactionHash : option string;
  error : option string
}.
End KYCVerificationState.

(** One member of the object literal given to [updateState]. *)
Inductive Update : Type :=
  | Status (v : VerificationStatus)
  | CurrentStep (v : Z)
  | TotalSteps (v : Z)
  | ProtectedDataIs (v : ProtectedData.t)
  | ZkProofIs (v : ZKProof.t)
  | VerificationResultIs (v : VerificationResult.t)
  | TransactionHashIs (v : string)
  | ErrorIs (v : string).

Definition applyUpdate (prev : KYCVerificationState.t) (u : Update)
    : KYCVerificationState.t :=
  let st := KYCVerificationState.status prev in
  let cs := KYCVerificationState.currentStep prev in
  let ts := KYCVerificationState.totalSteps prev in
  let pd := KYCVerificationState.protectedData prev in
  let zk := KYCVerificationState.zkProof prev in
  let vr := KYCVerificationState.verificationResult prev in
  let tx := KYCVerificationState.transactionHash prev in
  let er := KYCVerificationState.error prev in
  match u with
  | Status v => KYCVerificationState.mk v cs ts pd zk vr tx er
  | CurrentStep v => KYCVerificationState.mk st v ts pd zk vr tx er
  | TotalSteps v => KYCVerificationState.mk st cs v pd zk vr tx er
  | ProtectedDataIs v => KYCVerificationState.mk st cs ts (Some v) zk vr tx er
  | ZkProofIs v => KYCVerificationState.mk st cs ts pd (Some v) vr tx er
  | VerificationResultIs v => KYCVerificationState.mk st cs ts pd zk (Some v) tx er
  | TransactionHashIs v => KYCVerificationState.mk st cs ts pd zk vr (Some v) er
  | ErrorIs v => KYCVerificationState.mk st cs ts pd zk vr tx (Some v)
  end.

(** [{ ...prev, ...updates }]. *)
Definition mergeUpdates (prev : KYCVerificationState.t) (updates : list Update)
    : KYCVerificationState.t :=
  fold_left applyUpdate updates prev.

(** A call that leaves the hook or one of the services. *)
Inductive Call : Type :=
  | Call_encryptForTEE
  | Call_providerRequest
  | Call_initializeDataProtector
  | Call_newIExecDataProtector
  | Call_protectKYCData
  | Call_sdkProtectData (data name : string)
  | Call_grantVerificationAccess
  | Call_sdkGrantAccess (protectedData authorizedApp authorizedUser : string)
  | Call_executeVerificationTask
  | Call_sdkProcessProtectedData (protectedData app workerpool : string)
  | Call_simulateVerification
  | Call_generateMockTransactionHash.

(** The wallet provider object and the SDK instance, by the members the
    code tests. *)
Module Provider.
Record t : Type := mk { hasRequest : bool }.
End Provider.

Module DataProtector.
Record t : Type := mk {
  hasCore : bool;
  hasProtectData : bool
}.
End DataProtector.

(** The store of a session: the React state, every state that [setState]
    produced (oldest first), the calls made so far (oldest first) and the
    number of clock readings taken. *)
Module Browser.
Record t : Type := mk {
  session : KYCVerificationState.t;
  renders : list KYCVerificationState.t;
  calls : list Call;
  ticks : nat
}.
End Browser.

(** What the session does not decide: the clock and the outcomes of the
    calls to the platform, the wallet and the iExec SDK. Each outcome may
    depend on the calls made before it. *)
Module World.
Record t : Type := mk {
  clock : nat -> DateFields.t;
  appAddressEnv : option string;
  encryptForTEE : KYCData.t -> list Call -> Outcome string;
  ethAccounts : list Call -> Outcome (option (list string));
  importDataProtector : list Call -> Outcome unit;
  newIExecDataProtector : list Call -> Outcome DataProtector.t;
  sdkProtectData : string -> string -> list Call -> Outcome string;
  sdkGrantAccess : string -> string -> string -> list Call -> Outcome unit;
  sdkProcessProtectedData :
    string -> string -> string -> list Call -> Outcome string;
  jsonParseResult : string -> Outcome VerificationResult.t;
  getRandomValues : list Call -> list byte
}.
End World.

(** ** Primitives of a session *)

Definition BM (A : Type) : Type := M Browser.t A.

Definition VERIFICATION_STEPS : list string :=
  [ "Connect Wallet"; "Submit Identity"; "Encrypt Data"; "Generate ZK Proof";
    "TEE Verification"; "Submit On-Chain"; "Complete" ].

(** The state [useState] starts from, to which [reset] returns. *)
Definition initialState : KYCVerificationState.t :=
  KYCVerificationState.mk idle 0 (Z.of_nat (List.length VERIFICATION_STEPS))
    None None None None None.

(** The store after [setState(next)], after a call [c] has been made, and
    after a reading of the clock. *)
Definition render (next : KYCVerificationState.t) (b : Browser.t)
    : Browser.t :=
  Browser.mk next (Browser.renders b ++ [next])%list
             (Browser.calls b) (Browser.ticks b).

Definition logCall (c : Call) (b : Browser.t) : Browser.t :=
  Browser.mk (Browser.session b) (Browser.renders b)
             (Browser.calls b ++ [c])%list (Browser.ticks b).

Definition tick (b : Browser.t) : Browser.t :=
  Browser.mk (Browser.session b) (Browser.renders b)
             (Browser.calls b) (S (Browser.ticks b)).

Definition setState (next : KYCVerificationState.t) : BM unit :=
  modify (render next).

(** [updateState]: [setState(prev => ({ ...prev, ...updates }))]. *)
Definition updateState (updates : list Update) : BM unit :=
  fun b => setState (mergeUpdates (Browser.session b) updates) b.

(** [reset]. *)
Definition reset : BM unit :=
  setState (KYCVerificationState.mk idle 0
              (Z.of_nat (List.length VERIFICATION_STEPS))
              None None None None None).

(** Entering a service function. *)
Definition enter (c : Call) : BM unit := modify (logCall c).

(** A call whose outcome the world decides from the calls made so far. *)
Definition external {A : Type} (c : Call) (o : list Call -> Outcome A)
    : BM A :=
  fun b => (o (Browser.calls b), logCall c b).

(** What the world decides from the calls made so far without a call of
    a service: the dynamic [import] of a module. *)
Definition consult {A : Type} (o : list Call -> Outcome A) : BM A :=
  fun b => (o (Browser.calls b), b).

(** A call of [logger.debug], [logger.info], [logger.warn] or
    [logger.error] of [lib/logger.ts]: [Logger.log] reads the clock for
    the time stamp of its entry, and returns. The entry goes to the
    console and to the local storage, which the store of a session does
    not hold. *)
Definition logged : BM unit := modify tick.

Definition zeroAddress : string :=
  "0x0000000000000000000000000000000000000000".

Local Open Scope eff_scope.

Section Services.

Variable newDate : string -> JSDate.
Variable w : World.t.

(** [new Date()] and [Date.now()]. *)
Definition readClock : BM DateFields.t :=
  fun b => (Returned (World.clock w (Browser.ticks b)), tick b).

Definition dateNow : BM Z :=
  now <- readClock ;; ret (DateFields.time now).

(** The address of the iExec application: the environment variable, or the
    zero address when it is unset or empty. *)
Definition IEXEC_KYC_APP_ADDRESS : string :=
  match World.appAddressEnv w with
  | Some a => if truthy a then a else zeroAddress
  | None => zeroAddress
  end.

(** [generateFullKYCProof] with its three readings of the clock, in the
    order the source takes them. *)
Definition generateFullKYCProofM (kycData : KYCData.t)
    (userAddress : string) (options : Options.t) : BM ZKProof.t :=
  nowAge <- readClock ;;
  nowDoc <- readClock ;;
  nowMs <- dateNow ;;
  ret (generateFullKYCProof newDate nowAge nowDoc nowMs
         kycData userAddress options).

(** [simulateVerification] of [lib/services/iexec.ts]; the same in both
    revisions. *)
Definition simulateVerification (kycData : KYCData.t)
    (userAddress : string) : BM VerificationResult.t :=
  enter Call_simulateVerification ;;;
  now1 <- readClock ;;
  let isValidDocument :=
    isDocumentValid newDate now1 (KYCData.expiryDate kycData) in
  now2 <- readClock ;;
  let isUserAdult := isAdult newDate now2 (KYCData.dateOfBirth kycData) 18 in
  let isNotSanctioned := true in
  let isValid := isValidDocument && isUserAdult && isNotSanctioned in
  now3 <- dateNow ;;
  let proofData :=
    (userAddress ++ ":"
     ++ documentTypeString (KYCData.documentType kycData) ++ ":"
     ++ jsonBool isValid ++ ":" ++ intToString now3)%string in
  let proofHash := hashData proofData in
  let enclaveSignature := hashData (proofHash ++ ":enclave:signature") in
  now4 <- dateNow ;;
  ret (VerificationResult.mk isValid now4 proofHash enclaveSignature
         (VerificationResult.mkAttributes
            isUserAdult isValidDocument isNotSanctioned)).

(** [generateMockTransactionHash] of [lib/services/contract.ts]: thirty-two
    random bytes in hexadecimal. *)
Definition generateMockTransactionHash : BM string :=
  randomBytes <- external Call_generateMockTransactionHash
                   (fun log => Returned (World.getRandomValues w log)) ;;
  ret ("0x" ++ hexOfBytes randomBytes)%string.

End Services.

(* ===================================================================== *)
(** * The earlier revision: simulated verification only *)
(* ===================================================================== *)

Module Rev1.

(** [getNetworkConfig] of the earlier [lib/services/iexec.ts]. *)
Definition getNetworkConfig (chainId : Z) : NetworkConfig.t :=
  if chainId =? 42161 then ARBITRUM_MAINNET_CONFIG
  else ARBITRUM_SEPOLIA_CONFIG.

Section Hook.

Variable newDate : string -> JSDate.
Variable w : World.t.

(** [startVerification] of the earlier [hooks/use-kyc-verification.ts].
    [userAddress] is the address the callback closed over; the timers
    and the console are left out. A [return] inside the [try] is the
    branch that does nothing more. *)
Definition startVerification (userAddress : option string)
    (kycData : KYCData.t) : BM unit :=
  match userAddress with
  | None =>
      updateState [ErrorIs "Please connect your wallet first"; Status failed]
  | Some address =>
    if negb (truthy address) then
      updateState [ErrorIs "Please connect your wallet first"; Status failed]
    else
    tryCatch
      (updateState [Status encrypting; CurrentStep 2] ;;;
       encryptedData <- external Call_encryptForTEE
                          (World.encryptForTEE w kycData) ;;
       let dataHash := createCommitment kycData in
       timestamp <- dateNow w ;;
       let protectedData :=
         ProtectedData.mk address dataHash timestamp (Some encryptedData) in
       updateState [ProtectedDataIs protectedData] ;;;
       updateState [Status computing; CurrentStep 3] ;;;
       zkProof <- generateFullKYCProofM newDate w kycData address
                    (Options.mk (Some 18) None) ;;
       let zkVerification := verifyZKProof zkProof full_kyc in
       if negb (ZKVerificationResult.isValid zkVerification) then
         updateState
           [ ErrorIs "ZK proof verification failed. Please check your information.";
             Status failed ]
       else
         updateState [ZkProofIs zkProof] ;;;
         updateState [Status verifying; CurrentStep 4] ;;;
         verificationResult <- simulateVerification newDate w kycData address ;;
         if negb (VerificationResult.isValid verificationResult) then
           updateState
             [ ErrorIs "Identity verification failed. Please ensure your documents are valid.";
               Status failed;
               VerificationResultIs verificationResult ]
         else
           updateState [VerificationResultIs verificationResult] ;;;
           updateState [Status submitting; CurrentStep 5] ;;;
           txHash <- generateMockTransactionHash w ;;
           updateState
             [TransactionHashIs txHash; Status completed; CurrentStep 6])
      (fun err =>
         updateState
           [ ErrorIs (messageOr "Verification failed. Please try again." err);
             Status failed ])
  end.

End Hook.

End Rev1.

(* ===================================================================== *)
(** * The later revision: the confidential-task client and its hook *)
(* ===================================================================== *)

Module Rev2.

(** [getNetworkConfig] of the later [lib/services/iexec.ts]. *)
Definition getNetworkConfig (chainId : Z) : NetworkConfig.t :=
  if chainId =? 421614 then ARBITRUM_MAINNET_CONFIG
  else ARBITRUM_SEPOLIA_CONFIG.

Section Client.

Variable newDate : string -> JSDate.
Variable w : World.t.

(** [provider.request({ method: 'eth_accounts' })]. Without a [request]
    method the call itself throws a [TypeError]. *)
Definition providerRequest (provider : option Provider.t)
    : BM (option (list string)) :=
  match provider with
  | Some p =>
      if Provider.hasRequest p
      then external Call_providerRequest (World.ethAccounts w)
      else throwError "providerObj.request is not a function"
  | None => throwError "Cannot read properties of undefined"
  end.

(** [initializeDataProtector]: every failure inside is turned into
    [null]. Here and below, each call of the logger is a reading of the
    clock, in the place the source has it. *)
Definition initializeDataProtector (provider : option Provider.t)
    (isTestnet : bool) : BM (option DataProtector.t) :=
  enter Call_initializeDataProtector ;;;
  tryCatch
    (logged ;;;
     (match provider with
      | Some p =>
          if negb (Provider.hasRequest p)
          then throwError "Provider does not have request method"
          else ret tt
      | None => ret tt
      end) ;;;
     tryCatch
       (accounts <- providerRequest provider ;;
        logged ;;;
        match accounts with
        | None => throwError "No accounts available - wallet not connected"
        | Some l =>
            if (List.length l =? 0)%nat
            then throwError "No accounts available - wallet not connected"
            else ret tt
        end)
       (fun providerError =>
          logged ;;;
          throwError "Wallet connection is not working properly") ;;;
     consult (World.importDataProtector w) ;;;
     logged ;;;
     dataProtector <- external Call_newIExecDataProtector
                        (World.newIExecDataProtector w) ;;
     logged ;;;
     if negb (DataProtector.hasCore dataProtector) then
       throwError "DataProtector core is not available"
     else if negb (DataProtector.hasProtectData dataProtector) then
       throwError "DataProtector protectData method is not available"
     else
       logged ;;;
       ret (Some dataProtector))
    (fun error => logged ;;; ret None).

(** The object given to [protectData], serialised. *)
Definition dataToProtectJSON (kycData : KYCData.t) (userAddress : string)
    : string :=
  jsonObject
    [ ("type", jsonString "kyc");
      ("user", jsonString userAddress);
      ("doc", jsonString (documentTypeString (KYCData.documentType kycData))) ].

(** [protectKYCData]. The two digests it computes only for the log are
    left out; the four calls of the logger around them are not. *)
Definition protectKYCData (dataProtector : DataProtector.t)
    (kycData : KYCData.t) (userAddress : string) : BM ProtectedData.t :=
  enter Call_protectKYCData ;;;
  tryCatch
    (logged ;;;
     if negb (truthy (documentTypeString (KYCData.documentType kycData)))
        || negb (truthy (KYCData.documentNumber kycData))
        || negb (truthy (KYCData.fullName kycData))
        || negb (truthy (KYCData.dateOfBirth kycData))
        || negb (truthy (KYCData.nationality kycData))
        || negb (truthy (KYCData.expiryDate kycData))
     then throwError "Missing required KYC data fields"
     else
       logged ;;;
       logged ;;;
       logged ;;;
       logged ;;;
       if strictEq userAddress "" then
         throwError "Invalid data for field user: "
       else
         logged ;;;
         let jsonData := dataToProtectJSON kycData userAddress in
         if strIncludes "undefined" jsonData then
           throwError "JSON contains undefined values"
         else
           logged ;;;
           logged ;;;
           address <-
             (if DataProtector.hasCore dataProtector
                 && DataProtector.hasProtectData dataProtector
              then
                let name :=
                  ("KYC Data for " ++ sliceFirst 6 userAddress ++ "..."
                   ++ sliceLast 4 userAddress)%string in
                external (Call_sdkProtectData jsonData name)
                         (World.sdkProtectData w jsonData name)
              else
                throwError "dataProtector.core.protectData is not a function") ;;
           let dataHash := createCommitment kycData in
           timestamp <- dateNow w ;;
           logged ;;;
           ret (ProtectedData.mk address dataHash timestamp None))
    (fun error => logged ;;; throw error).

(** [grantVerificationAccess]: a refusal is [false], not an exception. *)
Definition grantVerificationAccess (dataProtector : DataProtector.t)
    (protectedDataAddress userAddress : string) : BM bool :=
  enter Call_grantVerificationAccess ;;;
  tryCatch
    (external
       (Call_sdkGrantAccess protectedDataAddress
          (IEXEC_KYC_APP_ADDRESS w) userAddress)
       (World.sdkGrantAccess w protectedDataAddress
          (IEXEC_KYC_APP_ADDRESS w) userAddress) ;;;
     logged ;;;
     ret true)
    (fun error => logged ;;; ret false).

(** [executeVerificationTask]; the result is the pair of [taskId] and
    [result]. *)
Definition executeVerificationTask (dataProtector : DataProtector.t)
    (protectedDataAddress : string) (isTestnet : bool)
    : BM (string * VerificationResult.t) :=
  enter Call_executeVerificationTask ;;;
  let networkConfig :=
    if isTestnet then ARBITRUM_SEPOLIA_CONFIG else ARBITRUM_MAINNET_CONFIG in
  tryCatch
    (logged ;;;
     taskResult <-
       external
         (Call_sdkProcessProtectedData protectedDataAddress
            (IEXEC_KYC_APP_ADDRESS w)
            (NetworkConfig.workerpoolAddress networkConfig))
         (World.sdkProcessProtectedData w protectedDataAddress
            (IEXEC_KYC_APP_ADDRESS w)
            (NetworkConfig.workerpoolAddress networkConfig)) ;;
     verificationResult <- lift (World.jsonParseResult w taskResult) ;;
     logged ;;;
     ret (protectedDataAddress, verificationResult))
    (fun error => logged ;;; throw error).

(** The [if (provider) { ... }] branch of [startVerification]: the
    confidential execution on the iExec backend. *)
Definition remoteVerification (provider : Provider.t)
    (chainId : option Z) (kycData : KYCData.t) (userAddress : string)
    : BM VerificationResult.t :=
  let requiredChainId := 421614 in
  if negb (num_eqb chainId (Some requiredChainId)) then
    throwError
      ("Please switch to Arbitrum Sepolia testnet (Chain ID: "
       ++ intToString requiredChainId ++ "). Current chain: "
       ++ match chainId with
          | Some c => intToString c
          | None => "undefined"
          end)%string
  else
    logged ;;;
    tryCatch
      (providerRequest (Some provider) ;;; logged ;;; ret tt)
      (fun providerError =>
         logged ;;;
         throwError
           "Wallet connection is not working properly. Please reconnect your wallet.") ;;;
    initialized <- initializeDataProtector (Some provider) true ;;
    match initialized with
    | None =>
        throwError
          "Failed to initialize iExec DataProtector - check wallet connection and network"
    | Some dataProtector =>
        if negb (DataProtector.hasCore dataProtector)
           || negb (DataProtector.hasProtectData dataProtector)
        then
          throwError
            "iExec DataProtector core not properly initialized - API may have changed"
        else
          logged ;;;
          protectedKYCData <- protectKYCData dataProtector kycData userAddress ;;
          logged ;;;
          accessGranted <-
            grantVerificationAccess dataProtector
              (ProtectedData.address protectedKYCData) userAddress ;;
          if negb accessGranted then
            throwError "Failed to grant access to verification app"
          else
            logged ;;;
            iexecResult <-
              executeVerificationTask dataProtector
                (ProtectedData.address protectedKYCData) true ;;
            logged ;;;
            ret (snd iexecResult)
    end.

(** The statement [if (provider) { ... } else { ... }] of
    [startVerification], which assigns [verificationResult]: the
    confidential execution, or the simulation after a warning of the
    logger. *)
Definition verification (provider : option Provider.t)
    (chainId : option Z) (kycData : KYCData.t) (userAddress : string)
    : BM VerificationResult.t :=
  match provider with
  | Some p => remoteVerification p chainId kycData userAddress
  | None =>
      logged ;;;
      simulateVerification newDate w kycData userAddress
  end.

(** [startVerification] of the later [hooks/use-kyc-verification.ts].
    [userAddress], [provider] and [chainId] are the values the callback
    closed over; the timers are left out. A [return] inside the [try] is
    the branch that does nothing more. *)
Definition startVerification (userAddress : option string)
    (provider : option Provider.t) (chainId : option Z)
    (kycData : KYCData.t) : BM unit :=
  match userAddress with
  | None =>
      updateState [ErrorIs "Please connect your wallet first"; Status failed]
  | Some address =>
    if negb (truthy address) then
      updateState [ErrorIs "Please connect your wallet first"; Status failed]
    else
    tryCatch
      (updateState [Status encrypting; CurrentStep 2] ;;;
       encryptedData <- external Call_encryptForTEE
                          (World.encryptForTEE w kycData) ;;
       let dataHash := createCommitment kycData in
       timestamp <- dateNow w ;;
       let protectedData :=
         ProtectedData.mk address dataHash timestamp (Some encryptedData) in
       updateState [ProtectedDataIs protectedData] ;;;
       updateState [Status computing; CurrentStep 3] ;;;
       zkProof <- generateFullKYCProofM newDate w kycData address
                    (Options.mk (Some 18) None) ;;
       let zkVerification := verifyZKProof zkProof full_kyc in
       if negb (ZKVerificationResult.isValid zkVerification) then
         updateState
           [ ErrorIs "ZK proof verification failed. Please check your information.";
             Status failed ]
       else
         updateState [ZkProofIs zkProof] ;;;
         updateState [Status verifying; CurrentStep 4] ;;;
         verificationResult <-
           verification provider chainId kycData address ;;
         if negb (VerificationResult.isValid verificationResult) then
           updateState
             [ ErrorIs "Identity verification failed. Please ensure your documents are valid.";
               Status failed;
               VerificationResultIs verificationResult ]
         else
           updateState [VerificationResultIs verificationResult] ;;;
           updateState [Status submitting; CurrentStep 5] ;;;
           txHash <- generateMockTransactionHash w ;;
           updateState
             [TransactionHashIs txHash; Status completed; CurrentStep 6])
      (fun err =>
         logged ;;;
         updateState
           [ ErrorIs (messageOr "Verification failed. Please try again." err);
             Status failed ])
  end.

End Client.

End Rev2.

(* ===================================================================== *)
(** * The confidential worker *)
(* ===================================================================== *)

Module Worker.

(** ** Regular expressions of the format validators

    A pattern is a sequence of items, each a character class repeated
    between [min] and [max] times; [test] looks for a match anywhere. *)
Definition Item : Type := ((ascii -> bool) * nat * nat)%type.

Fixpoint matchRep (cls : ascii -> bool) (min max : nat)
    (k : string -> bool) (s : string) {struct s} : bool :=
  match min with
  | O =>
      k s
      || match max, s with
         | S mx, String c r => cls c && matchRep cls O mx k r
         | _, _ => false
         end
  | S m =>
      match s with
      | String c r => cls c && matchRep cls m (Nat.pred max) k r
      | EmptyString => false
      end
  end.

Fixpoint matchSeq (unbounded : nat) (pat : list Item) : string -> bool :=
  match pat with
  | [] => fun _ => true
  | (cls, min, max) :: r =>
      matchRep cls min (if (max =? 0)%nat then unbounded else max)
               (matchSeq unbounded r)
  end.

Fixpoint anywhere (f : string -> bool) (s : string) : bool :=
  f s
  || match s with
     | String _ r => anywhere f r
     | EmptyString => false
     end.

(** [pattern.test(data)]; an item whose [max] is 0 has no upper bound. *)
Definition test (pat : list Item) (data : string) : bool :=
  anywhere (matchSeq (String.length data) pat) data.

Definition inRange (lo hi : Z) (c : ascii) : bool :=
  let n := Z.of_N (N_of_ascii c) in (lo <=? n) && (n <=? hi).

Definition upper : ascii -> bool := inRange 65 90.
Definition lower : ascii -> bool := inRange 97 122.
Definition digit : ascii -> bool := inRange 48 57.
Definition upperOrDigit (c : ascii) : bool := upper c || digit c.
Definition isChar (x : ascii) (c : ascii) : bool := Ascii.eqb x c.

(** [[A-Z][a-z]+ [A-Z][a-z]+]. *)
Definition namePattern : list Item :=
  [ (upper, 1, 1); (lower, 1, 0); (isChar " ", 1, 1);
    (upper, 1, 1); (lower, 1, 0) ]%nat.

(** [validatePassportFormat]: [[A-Z0-9]{6,9}], a name and
    [\d{2}\/\d{2}\/\d{4}]. *)
Definition validatePassportFormat (data : string) : bool :=
  let hasPassportNumber := test [(upperOrDigit, 6, 9)]%nat data in
  let hasName := test namePattern data in
  let hasDate :=
    test [ (digit, 2, 2); (isChar "/", 1, 1); (digit, 2, 2);
           (isChar "/", 1, 1); (digit, 4, 4) ]%nat data in
  hasPassportNumber && hasName && hasDate.

(** [validateIdCardFormat]: [[A-Z0-9]{8,12}] and a name. *)
Definition validateIdCardFormat (data : string) : bool :=
  let hasIdNumber := test [(upperOrDigit, 8, 12)]%nat data in
  let hasName := test namePattern data in
  hasIdNumber && hasName.

Inductive VerificationOutcome : Type := VERIFIED | FAILED | ERROR.

(** The [checks] object, each member as the truth of [check === true]. *)
Module Checks.
Record t : Type := mk {
  hasData : bool;
  validType : bool;
  validUserId : bool;
  dataIntegrity : bool;
  formatValid : bool
}.
End Checks.

(** [performKYCVerification]. Its body cannot throw on strings, so the
    [ERROR] status of its [catch] is never produced. *)
Definition performKYCVerification
    (documentData documentType userId documentHash : string)
    : VerificationOutcome * Checks.t :=
  let hasData := truthy documentData
                 && (0 <? String.length documentData)%nat in
  let validType :=
    includes ["passport"; "id_card"; "drivers_license"; "utility_bill"]
             documentType in
  let validUserId := truthy userId && (0 <? String.length userId)%nat in
  let dataIntegrity := truthy documentHash
                       && (String.length documentHash =? 64)%nat in
  let formatValid :=
    if strictEq documentType "passport" then
      validatePassportFormat documentData
    else if strictEq documentType "id_card" then
      validateIdCardFormat documentData
    else true in
  let checks :=
    Checks.mk hasData validType validUserId dataIntegrity formatValid in
  let allChecksPass :=
    hasData && validType && validUserId && dataIntegrity && formatValid in
  (if allChecksPass then VERIFIED else FAILED, checks).

(** An element of [verificationResults]: the record of a processed
    document, or the record of the error that processing it threw. *)
Inductive Entry : Type :=
  | Processed (userId documentType documentHash : string)
              (verificationStatus : VerificationOutcome)
              (checks : Checks.t) (timestamp : string)
  | Errored (documentIndex : Z) (error : option string)
            (timestamp : string).

Definition hasStatus (v : VerificationOutcome) (r : Entry) : bool :=
  match r, v with
  | Processed _ _ _ VERIFIED _ _, VERIFIED => true
  | Processed _ _ _ FAILED _ _, FAILED => true
  | Processed _ _ _ ERROR _ _, ERROR => true
  | _, _ => false
  end.

Inductive OverallStatus : Type := ALL_VERIFIED | PARTIAL_VERIFICATION.

Module KycReport.
Record t : Type := mk {
  verificationId : string;
  totalDocuments : Z;
  verifiedDocuments : Z;
  failedDocuments : Z;
  documentHashes : list string;
  verificationResults : list Entry;
  overallStatus : OverallStatus;
  processedAt : string
}.
End KycReport.

(** [computedJsonObj]; [{}] has neither member. *)
Module Computed.
Record t : Type := mk {
  deterministicOutputPath : option string;
  errorMessage : option string
}.
End Computed.

(** What a file holds: copied bytes, or the JSON text of an object, kept
    as the object. *)
Inductive FileContent : Type :=
  | CopyOf (source : string)
  | ReportJSON (report : KycReport.t)
  | ComputedJSON (computed : Computed.t).

(** An operation the worker asks of the platform. *)
Inductive Op : Type :=
  | OpDeserialize (index : Z)
  | OpReadFile (path : string)
  | OpCopyFile (source destination : string)
  | OpWriteFile (path : string) (content : FileContent).

(** The store of one invocation: the three mutable locals of [main], the
    operations asked so far, the files written or copied so far (oldest
    first) and the number of readings of the clock that [main] has
    taken. *)
Module Store.
Record t : Type := mk {
  computedJsonObj : Computed.t;
  verificationResults : list Entry;
  documentHashes : list string;
  ops : list Op;
  disk : list (string * FileContent);
  ticks : nat
}.
End Store.

Definition start : Store.t :=
  Store.mk (Computed.mk None None) [] [] [] [] 0.

(** The environment of one invocation: the variables the platform sets,
    unset ones being [None], the protected datasets as their
    deserialisation returns or throws, the file system as it accepts or
    refuses each operation, and the creation of the logger with its file
    transport as it returns or throws. *)
Module Env.
Record t : Type := mk {
  IEXEC_OUT : option string;
  IEXEC_IN : option string;
  IEXEC_BULK_SLICE_SIZE : num;
  IEXEC_INPUT_FILES_NUMBER : num;
  IEXEC_INPUT_FILE_NAME : Z -> option string;
  dataset : Z -> Outcome (string * string * string);
  readFile : string -> Outcome (list byte);
  copyRefused : string -> string -> option Thrown;
  writeRefused : string -> list Op -> option Thrown;
  toISOString : nat -> string;
  randomUUID : string;
  createLogger : option Thrown
}.
End Env.

Definition WM (A : Type) : Type := M Store.t A.

(** A template literal prints an unset variable as [undefined]. *)
Definition orUndefined (v : option string) : string :=
  match v with
  | Some s => s
  | None => "undefined"
  end.

(** [e.message]. *)
Definition messageOf (e : Thrown) : option string :=
  match e with
  | ErrorObject m => Some m
  | OtherValue _ => None
  end.

(** [for (let i = 1; i <= n; i++)]: the values [i] takes. *)
Definition upTo (n : num) : list Z :=
  match n with
  | Some z => map (fun k => Z.of_nat k) (seq 1 (Z.to_nat z))
  | None => []
  end.

Fixpoint forEach {A : Type} (l : list A) (body : A -> WM unit) : WM unit :=
  match l with
  | [] => ret tt
  | x :: r => body x ;;; forEach r body
  end.

Definition record (o : Op) (s : Store.t) : Store.t :=
  Store.mk (Store.computedJsonObj s) (Store.verificationResults s)
           (Store.documentHashes s) (Store.ops s ++ [o])%list
           (Store.disk s) (Store.ticks s).

Definition store (path : string) (c : FileContent) (s : Store.t) : Store.t :=
  Store.mk (Store.computedJsonObj s) (Store.verificationResults s)
           (Store.documentHashes s) (Store.ops s)
           (Store.disk s ++ [(path, c)])%list (Store.ticks s).

Section Main.

Variable env : Env.t.

Definition deserialize (i : Z) : WM (string * string * string) :=
  fun s => (Env.dataset env i, record (OpDeserialize i) s).

Definition readFile (path : string) : WM (list byte) :=
  fun s => (Env.readFile env path, record (OpReadFile path) s).

Definition copyFile (source destination : string) : WM unit :=
  fun s =>
    let s' := record (OpCopyFile source destination) s in
    match Env.copyRefused env source destination with
    | Some e => (Threw e, s')
    | None => (Returned tt, store destination (CopyOf source) s')
    end.

Definition writeFile (path : string) (content : FileContent) : WM unit :=
  fun s =>
    let s' := record (OpWriteFile path content) s in
    match Env.writeRefused env path (Store.ops s) with
    | Some e => (Threw e, s')
    | None => (Returned tt, store path content s')
    end.

(** [new Date().toISOString()]. *)
Definition isoNow : WM string :=
  fun s =>
    (Returned (Env.toISOString env (Store.ticks s)),
     Store.mk (Store.computedJsonObj s) (Store.verificationResults s)
              (Store.documentHashes s) (Store.ops s) (Store.disk s)
              (S (Store.ticks s))).

Definition pushResult (r : Entry) : WM unit :=
  modify (fun s =>
    Store.mk (Store.computedJsonObj s)
             (Store.verificationResults s ++ [r])%list
             (Store.documentHashes s) (Store.ops s) (Store.disk s)
             (Store.ticks s)).

Definition pushHash (h : string) : WM unit :=
  modify (fun s =>
    Store.mk (Store.computedJsonObj s) (Store.verificationResults s)
             (Store.documentHashes s ++ [h])%list (Store.ops s)
             (Store.disk s) (Store.ticks s)).

Definition setComputed (c : Computed.t) : WM unit :=
  modify (fun s =>
    Store.mk c (Store.verificationResults s) (Store.documentHashes s)
             (Store.ops s) (Store.disk s) (Store.ticks s)).

(** The body of the bulk loop for the document of index [i]. *)
Definition processDocument (i : Z) : WM unit :=
  tryCatch
    (item <- deserialize i ;;
     let '(documentData, documentType, userId) := item in
     let docHash := hashData documentData in
     let verification :=
       performKYCVerification documentData documentType userId docHash in
     timestamp <- isoNow ;;
     pushResult (Processed userId documentType docHash
                   (fst verification) (snd verification) timestamp) ;;;
     pushHash docHash)
    (fun e =>
       timestamp <- isoNow ;;
       pushResult (Errored i (messageOf e) timestamp)).

(** The body of the loop over the additional input files. *)
Definition processInputFile (i : Z) : WM unit :=
  let inputFileName := orUndefined (Env.IEXEC_INPUT_FILE_NAME env i) in
  let inputFilePath :=
    (orUndefined (Env.IEXEC_IN env) ++ "/" ++ inputFileName)%string in
  fileData <- readFile inputFilePath ;;
  let fileHash := hexOfBytes (SHA256.digest fileData) in
  copyFile inputFilePath
    (orUndefined (Env.IEXEC_OUT env) ++ "/processed_" ++ inputFileName)%string ;;;
  pushHash fileHash.

Definition countWhere (p : Entry -> bool) (l : list Entry) : Z :=
  Z.of_nat (List.length (filter p l)).

Definition reportPath : string :=
  (orUndefined (Env.IEXEC_OUT env) ++ "/kyc-verification-result.json")%string.

Definition computedPath : string :=
  (orUndefined (Env.IEXEC_OUT env) ++ "/computed.json")%string.

(** What [path.join] throws on an argument that is not a string. *)
Definition pathArgumentError : Thrown :=
  ErrorObject
    ("The " ++ String dquote "path"
     ++ String dquote
          " argument must be of type string. Received undefined")%string.

(** The set-up of [main], before its [try]: [path.join(IEXEC_OUT,
    'app.log')] throws when [IEXEC_OUT] is unset; with it set,
    [winston.createLogger] with its file transport returns or throws, as
    the environment has it. Once created, the logger writes [app.log] and
    the console, which the store does not hold, and its calls return:
    they are left out, here and in the [try], and the time stamps it
    takes are not among the readings of the clock that the store
    counts. *)
Definition setUp : WM unit :=
  match Env.IEXEC_OUT env with
  | None => throw pathArgumentError
  | Some _ =>
      match Env.createLogger env with
      | Some e => throw e
      | None => ret tt
      end
  end.

(** The [try] block of [main]. The two secrets, read only to be logged,
    are left out. *)
Definition mainBody : WM unit :=
  (if num_gtb (Env.IEXEC_BULK_SLICE_SIZE env) (Some 0)
   then forEach (upTo (Env.IEXEC_BULK_SLICE_SIZE env)) processDocument
   else ret tt) ;;;
  forEach (upTo (Env.IEXEC_INPUT_FILES_NUMBER env)) processInputFile ;;;
  verificationResults <- gets Store.verificationResults ;;
  documentHashes <- gets Store.documentHashes ;;
  processedAt <- isoNow ;;
  let kycReport :=
    KycReport.mk (Env.randomUUID env)
      (Z.of_nat (List.length verificationResults))
      (countWhere (hasStatus VERIFIED) verificationResults)
      (countWhere (hasStatus FAILED) verificationResults)
      documentHashes verificationResults
      (if forallb (hasStatus VERIFIED) verificationResults
       then ALL_VERIFIED else PARTIAL_VERIFICATION)
      processedAt in
  writeFile reportPath (ReportJSON kycReport) ;;;
  setComputed (Computed.mk (Some reportPath) None).

(** The [try] statement of [main], with its [catch] and its [finally]. *)
Definition guarded : WM unit :=
  tryFinally
    (tryCatch mainBody
       (fun e =>
          setComputed
            (Computed.mk (Env.IEXEC_OUT env)
                         (Some "Oops something went wrong"))))
    (computedJsonObj <- gets Store.computedJsonObj ;;
     writeFile computedPath (ComputedJSON computedJsonObj)).

(** [main]: the set-up, then the [try] statement. An exception of the
    set-up leaves [main] before the [try] is entered. *)
Definition main : WM unit :=
  setUp ;;;
  guarded.

End Main.

End Worker.

(* ===================================================================== *)
(** * The civil calendar, and a runtime for concrete runs *)
(* ===================================================================== *)

Module Civil.

(** A calendar day: year, month (0 for January, as [getMonth]) and day
    of the month. *)
Definition day : Type := (Z * Z * Z)%type.

Definition isLeapYear (y : Z) : bool :=
  ((y mod 4 =? 0) && negb (y mod 100 =? 0)) || (y mod 400 =? 0).

Definition daysInMonth (y m : Z) : Z :=
  if m =? 1 then (if isLeapYear y then 29 else 28)
  else if (m =? 3) || (m =? 5) || (m =? 8) || (m =? 10) then 30
  else 31.

Definition valid (d : day) : bool :=
  let '(y, m, dd) := d in
  (0 <=? m) && (m <=? 11) && (1 <=? dd) && (dd <=? daysInMonth y m).

(** The day after [d]. *)
Definition nextDay (d : day) : day :=
  let '(y, m, dd) := d in
  if dd <? daysInMonth y m then (y, m, dd + 1)
  else if m <? 11 then (y, m + 1, 1)
  else (y + 1, 0, 1).

(** [a] is strictly earlier in the year than [b], by month and day. *)
Definition earlierInYear (am ad bm bd : Z) : bool :=
  (am <? bm) || ((am =? bm) && (ad <? bd)).

(** Days from 1970-01-01 to the day [d]. *)
Definition daysFromEpoch (d : day) : Z :=
  let '(y, m0, dd) := d in
  let m := m0 + 1 in
  let y' := if m <=? 2 then y - 1 else y in
  let era := y' / 400 in
  let yoe := y' - era * 400 in
  let mp := if 2 <? m then m - 3 else m + 9 in
  let doy := (153 * mp + 2) / 5 + dd - 1 in
  let doe := yoe * 365 + yoe / 4 - yoe / 100 + doy in
  era * 146097 + doe - 719468.

Definition ofDate (d : DateFields.t) : day :=
  (DateFields.fullYear d, DateFields.month d, DateFields.date d).


(** The day before [d], and the day [k] days after [d]. *)
Definition prevDay (d : day) : day :=
  let '(y, m, dd) := d in
  if 1 <? dd then (y, m, dd - 1)
  else if 0 <? m then (y, m - 1, daysInMonth y (m - 1))
  else (y - 1, 11, 31).


End Civil.

(** A runtime whose local time zone is UTC and whose [new Date(s)] reads the
    date-only form [YYYY-MM-DD] of a calendar day; every other string is an
    Invalid Date. It is the runtime of the concrete runs below. *)
Module UTC.

Definition digitValue (c : ascii) : option Z :=
  let n := Z.of_N (N_of_ascii c) in
  if (48 <=? n) && (n <=? 57) then Some (n - 48) else None.

Fixpoint digits (acc : Z) (cs : list ascii) : option Z :=
  match cs with
  | [] => Some acc
  | c :: r =>
      match digitValue c with
      | Some v => digits (10 * acc + v) r
      | None => None
      end
  end.

Definition msPerDay : Z := 86400000.

(** Midnight, UTC, of a calendar day. *)
Definition midnight (d : Civil.day) : DateFields.t :=
  let '(y, m, dd) := d in
  DateFields.mk (Civil.daysFromEpoch d * msPerDay) y m dd.

Definition newDate (s : string) : JSDate :=
  match list_ascii_of_string s with
  | [y1; y2; y3; y4; h1; m1; m2; h2; d1; d2] =>
      if Ascii.eqb h1 "-" && Ascii.eqb h2 "-" then
        match digits 0 [y1; y2; y3; y4], digits 0 [m1; m2], digits 0 [d1; d2] with
        | Some y, Some m, Some d =>
            if Civil.valid (y, m - 1, d)
            then Some (midnight (y, m - 1, d))
            else None
        | _, _, _ => None
        end
      else None
  | _ => None
  end.

(** A reading of the clock: [ms] milliseconds into the calendar day. *)
Definition at_ (d : Civil.day) (ms : Z) : DateFields.t :=
  let '(y, m, dd) := d in
  DateFields.mk (Civil.daysFromEpoch d * msPerDay + ms) y m dd.




End UTC.

(** A runtime whose local time zone is behind UTC, by more than nothing
    and less than a day, as the zones of the Americas are. [new Date(s)]
    reads the date-only form as midnight UTC of the calendar day, as
    ECMAScript has it, and the getters return the local fields, which at
    that instant are those of the day before. *)
Module West.

Definition newDate (s : string) : JSDate :=
  match UTC.newDate s with
  | Some d =>
      let '(y, m, dd) := Civil.prevDay (Civil.ofDate d) in
      Some (DateFields.mk (DateFields.time d) y m dd)
  | None => None
  end.

(** A reading of the clock: [ms] milliseconds into the local calendar
    day, in the zone [offset] milliseconds behind UTC. *)
Definition at_ (offset : Z) (d : Civil.day) (ms : Z) : DateFields.t :=
  let '(y, m, dd) := d in
  DateFields.mk (Civil.daysFromEpoch d * UTC.msPerDay + ms + offset) y m dd.

End West.

(* ===================================================================== *)
(** * Notions the properties are stated with *)
(* ===================================================================== *)

(** Lowercase hexadecimal digits, and strings made of them. *)
Definition isHexChar (c : ascii) : bool :=
  let n := Z.of_N (N_of_ascii c) in
  ((48 <=? n) && (n <=? 57)) || ((97 <=? n) && (n <=? 102)).

Fixpoint isHex (s : string) : bool :=
  match s with
  | EmptyString => true
  | String c r => isHexChar c && isHex r
  end.

Section GeneratorNotions.

Variable newDate : string -> JSDate.

(** The artifacts the three generators can return. *)
Inductive generated : ZKProof.t -> Prop :=
  | generated_age now dateOfBirth minimumAge userAddress :
      generated (generateAgeVerificationProof newDate now dateOfBirth
                   minimumAge userAddress)
  | generated_document now expiryDate documentType userAddress :
      generated (generateDocumentValidityProof newDate now expiryDate
                   documentType userAddress)
  | generated_full nowAge nowDoc nowMs kycData userAddress options :
      generated (generateFullKYCProof newDate nowAge nowDoc nowMs kycData
                   userAddress options).

(** The age check and the document check of the two sub-proofs, and the
    nationality check of the full proof. *)
Definition ageCheck (now : DateFields.t) (dateOfBirth : string)
    (minimumAge : Z) : bool :=
  num_geb (ageAt (Some now) (newDate dateOfBirth)) (Some minimumAge).

Definition documentCheck (now : DateFields.t) (expiryDate : string) : bool :=
  num_gtb (getTime (newDate expiryDate)) (Some (DateFields.time now)).

Definition nationalityCheck (options : Options.t) (kycData : KYCData.t)
    : bool :=
  match Options.allowedNationalities options with
  | Some (n :: l) => includes (n :: l) (KYCData.nationality kycData)
  | Some [] => true
  | None => true
  end.

Definition minimumAgeOf (options : Options.t) : Z :=
  match Options.minimumAge options with
  | Some m => m
  | None => 18
  end.

End GeneratorNotions.

(** The age in whole years by the calendar: the difference of the years,
    less one when today is earlier in the year than the birthday. *)
Definition calendarAge (now birth : DateFields.t) : Z :=
  DateFields.fullYear now - DateFields.fullYear birth
  - (if Civil.earlierInYear (DateFields.month now) (DateFields.date now)
                            (DateFields.month birth) (DateFields.date birth)
     then 1 else 0).


(** The string [generateNullifierHash] digests. *)
Definition nullifierInput (documentHash userAddress : string) : string :=
  documentHash ++ ":" ++ userAddress ++ ":nullifier".

(** What the full proof gives [generateNullifierHash] as its document. *)
Definition documentKey (kycData : KYCData.t) : string :=
  documentTypeString (KYCData.documentType kycData) ++ ":"
  ++ hashData (KYCData.documentNumber kycData).

(** Two different strings with the same digest. *)
Definition collide (x y : string) : Prop := x <> y /\ hashData x = hashData y.

(** ** Sample data for the concrete runs *)

Module Sample.

Definition record : KYCData.t :=
  KYCData.mk passport "X1234567" "Ada Byron" "2000-01-01" "Canada"
    "2026-06-01" None.

Definition german : KYCData.t :=
  KYCData.mk passport "X1234567" "Ada Byron" "2000-01-01" "Germany"
    "2026-06-01" None.

Definition otherDocument : KYCData.t :=
  KYCData.mk passport "X7654321" "Ada Byron" "2000-01-01" "Canada"
    "2026-06-01" None.

(** Noon of 1 June 2024. *)
Definition today : DateFields.t := UTC.at_ (2024, 5, 1) 43200000.


Definition subject : string := "0xabc".

Definition allowList : Options.t :=
  Options.mk (Some 18) (Some ["Canada"; "USA"]).

Definition emptyAllowList : Options.t := Options.mk (Some 18) (Some []).

End Sample.

(** The status and the step index of a session state. *)
Definition phase (s : KYCVerificationState.t) : VerificationStatus * Z :=
  (KYCVerificationState.status s, KYCVerificationState.currentStep s).

(** A sequence without the elements that repeat their predecessor. *)
Fixpoint changes (previous : Z) (l : list Z) : list Z :=
  match l with
  | [] => []
  | x :: r => if x =? previous then changes previous r else x :: changes x r
  end.

(** The proof a run of [startVerification] generates when it starts with
    [t0] clock readings taken: one reading goes to the timestamp of the
    protected data, the next three to the proof. *)
Definition localProof (newDate : string -> JSDate) (w : World.t) (t0 : nat)
    (kycData : KYCData.t) (address : string) : ZKProof.t :=
  generateFullKYCProof newDate
    (World.clock w (S t0)) (World.clock w (S (S t0)))
    (DateFields.time (World.clock w (S (S (S t0)))))
    kycData address (Options.mk (Some 18) None).

(** The store in which the verification step of a run of
    [startVerification] starts, when the run started in [b0] with a wallet
    address, the encryption returned [encrypted] and the local proof
    passed: by then the hook has updated the state five times, called the
    encryption and read the clock four times, once for the timestamp of
    the protected data and three times for the proof. *)
Definition beforeVerification (newDate : string -> JSDate) (w : World.t)
    (b0 : Browser.t) (kycData : KYCData.t) (address encrypted : string)
    : Browser.t :=
  let protectedData :=
    ProtectedData.mk address (createCommitment kycData)
      (DateFields.time (World.clock w (Browser.ticks b0))) (Some encrypted) in
  let zkProof := localProof newDate w (Browser.ticks b0) kycData address in
  let s1 :=
    mergeUpdates (Browser.session b0) [Status encrypting; CurrentStep 2] in
  let s2 := mergeUpdates s1 [ProtectedDataIs protectedData] in
  let s3 := mergeUpdates s2 [Status computing; CurrentStep 3] in
  let s4 := mergeUpdates s3 [ZkProofIs zkProof] in
  let s5 := mergeUpdates s4 [Status verifying; CurrentStep 4] in
  Browser.mk s5 (Browser.renders b0 ++ [s1; s2; s3; s4; s5])
    (Browser.calls b0 ++ [Call_encryptForTEE]) (4 + Browser.ticks b0).

(** A computation is silent when it leaves the React state and the list of
    produced states as they are: it does not call [updateState]. *)
Definition silent {A : Type} (c : BM A) : Prop :=
  forall b,
    Browser.session (snd (c b)) = Browser.session b
    /\ Browser.renders (snd (c b)) = Browser.renders b.

Module SampleRun.

(** A world whose clock stands at noon of 1 June 2024 and whose backend
    answers every call. *)
Definition world : World.t :=
  World.mk (fun _ => Sample.today) None
    (fun _ _ => Returned "ciphertext")
    (fun _ => Returned (Some ["0xabc"]))
    (fun _ => Returned tt)
    (fun _ => Returned (DataProtector.mk true true))
    (fun _ _ _ => Returned "0xprotected")
    (fun _ _ _ _ => Returned tt)
    (fun _ _ _ _ => Returned "{}")
    (fun _ => Threw (ErrorObject "Unexpected end of JSON input"))
    (fun _ => repeat x00 32).

(** Born in 2010: fourteen on 1 June 2024. *)
Definition minor : KYCData.t :=
  KYCData.mk passport "X1234567" "Ada Byron" "2010-01-01" "Canada"
    "2026-06-01" None.

Definition fresh : Browser.t := Browser.mk initialState [] [] 0.

Definition adultRun : Browser.t :=
  snd (Rev2.startVerification UTC.newDate world (Some Sample.subject)
         None None Sample.record fresh).

Definition minorRun : Browser.t :=
  snd (Rev2.startVerification UTC.newDate world (Some Sample.subject)
         None None minor fresh).

End SampleRun.

Module WorkerNotions.

Import Worker.

(** A computation preserves an observation [f] of the store when [f] is
    the same after it, whether it returns or throws. *)
Definition preserves {X A : Type} (f : Store.t -> X) (c : WM A) : Prop :=
  forall s, f (snd (c s)) = f s.

Section Notions.

Variable env : Env.t.

(** The requests to write the completion descriptor among operations,
    and the files at its path on a disk. *)
Definition isDescriptorWrite (o : Op) : bool :=
  match o with
  | OpWriteFile p _ => String.eqb p (computedPath env)
  | _ => false
  end.

Definition isDescriptorFile (file : string * FileContent) : bool :=
  String.eqb (fst file) (computedPath env).

Definition descriptorWrites (s : Store.t) : list Op :=
  filter isDescriptorWrite (Store.ops s).

Definition descriptorFiles (s : Store.t) : list (string * FileContent) :=
  filter isDescriptorFile (Store.disk s).

(** The descriptor [main] writes, by the outcome of its [try] block. *)
Definition descriptorFor (body : Outcome unit) : Computed.t :=
  match body with
  | Returned _ => Computed.mk (Some (reportPath env)) None
  | Threw _ =>
      Computed.mk (Env.IEXEC_OUT env) (Some "Oops something went wrong")
  end.

(** The entry that the document of index [i] leaves in the report. *)
Definition entryOf (i : Z) (entry : Entry) : Prop :=
  match Env.dataset env i with
  | Returned (documentData, documentType, userId) =>
      exists timestamp,
        entry
        = Processed userId documentType (hashData documentData)
            (fst (performKYCVerification documentData documentType
                    userId (hashData documentData)))
            (snd (performKYCVerification documentData documentType
                    userId (hashData documentData)))
            timestamp
  | Threw e => exists timestamp, entry = Errored i (messageOf e) timestamp
  end.

(** A computation is quiet when it neither asks for a write of the
    completion descriptor nor leaves a file at its path. *)
Definition quiet {A : Type} (c : WM A) : Prop :=
  preserves descriptorWrites c /\ preserves descriptorFiles c.

(** The [try] and its [catch]: quiet, and leaving the descriptor that
    [main] is about to write. *)
Definition attempt : WM unit :=
  tryCatch (mainBody env)
    (fun e =>
       setComputed
         (Computed.mk (Env.IEXEC_OUT env)
                      (Some "Oops something went wrong"))).

End Notions.

End WorkerNotions.

Module SampleWorker.

Import Worker.

Definition passportText : string := "P1234567 Ada Byron 01/02/1990".

(** Three documents, the second of which cannot be deserialised. *)
Definition batch : Env.t :=
  Env.mk (Some "/iexec_out") (Some "/iexec_in") (Some 3) (Some 0)
    (fun _ => None)
    (fun i =>
       if i =? 2 then Threw (ErrorObject "Failed to load protected data")
       else Returned (passportText, "passport", "0xabc"))
    (fun _ => Threw (ErrorObject "ENOENT: no such file or directory"))
    (fun _ _ => None)
    (fun _ _ => None)
    (fun _ => "2024-06-01T12:00:00.000Z")
    "00000000-0000-4000-8000-000000000000"
    None.

(** The same batch in an environment where [IEXEC_OUT] is unset. *)
Definition unconfigured : Env.t :=
  Env.mk None (Some "/iexec_in") (Some 3) (Some 0)
    (fun _ => None)
    (fun i =>
       if i =? 2 then Threw (ErrorObject "Failed to load protected data")
       else Returned (passportText, "passport", "0xabc"))
    (fun _ => Threw (ErrorObject "ENOENT: no such file or directory"))
    (fun _ _ => None)
    (fun _ _ => None)
    (fun _ => "2024-06-01T12:00:00.000Z")
    "00000000-0000-4000-8000-000000000000"
    None.

(** One document and one input file that cannot be read. *)
Definition missingInput : Env.t :=
  Env.mk (Some "/iexec_out") (Some "/iexec_in") (Some 1) (Some 1)
    (fun _ => Some "extra.pdf")
    (fun _ => Returned (passportText, "passport", "0xabc"))
    (fun _ => Threw (ErrorObject "ENOENT: no such file or directory"))
    (fun _ _ => None)
    (fun _ _ => None)
    (fun _ => "2024-06-01T12:00:00.000Z")
    "00000000-0000-4000-8000-000000000000"
    None.

Definition outcomes (s : Store.t) : list (option VerificationOutcome) :=
  map (fun entry =>
         match entry with
         | Processed _ _ _ v _ _ => Some v
         | Errored _ _ _ => None
         end)
      (Store.verificationResults s).

End SampleWorker.

(** The string [createCommitment] digests. *)
Definition commitmentInput (kycData : KYCData.t) : string :=
  jsonObject
    [ ("documentType",
        jsonString (documentTypeString (KYCData.documentType kycData)));
      ("documentNumber", jsonString (KYCData.documentNumber kycData));
      ("dateOfBirth", jsonString (KYCData.dateOfBirth kycData));
      ("nationality", jsonString (KYCData.nationality kycData)) ].

(** The value of a lowercase hexadecimal digit. *)
Definition hexValue (c : ascii) : Z :=
  let n := Z.of_N (N_of_ascii c) in
  if n <? 58 then n - 48 else n - 87.

(** Reading one character of a JSON string back: the character and the
    rest of the text, or nothing at the closing quote. *)
Definition jsonUnescape (s : string) : option (ascii * string) :=
  match s with
  | EmptyString => None
  | String c r =>
      let n := Z.of_N (N_of_ascii c) in
      if n =? 34 then None
      else if n =? 92 then
        match r with
        | String e r1 =>
            let m := Z.of_N (N_of_ascii e) in
            if m =? 98 then Some (ascii_of_N 8, r1)
            else if m =? 116 then Some (ascii_of_N 9, r1)
            else if m =? 110 then Some (ascii_of_N 10, r1)
            else if m =? 102 then Some (ascii_of_N 12, r1)
            else if m =? 114 then Some (ascii_of_N 13, r1)
            else if m =? 117 then
              match r1 with
              | String _ (String _ (String h (String l r2))) =>
                  Some (ascii_of_N (Z.to_N (16 * hexValue h + hexValue l)), r2)
              | _ => None
              end
            else Some (e, r1)
        | EmptyString => None
        end
      else Some (c, r)
  end.

(** A calendar day is not after another. *)
Definition notAfter (a b : DateFields.t) : Prop :=
  DateFields.fullYear a < DateFields.fullYear b
  \/ (DateFields.fullYear a = DateFields.fullYear b
      /\ (DateFields.month a < DateFields.month b
          \/ (DateFields.month a = DateFields.month b
              /\ DateFields.date a <= DateFields.date b))).

Module RegexNotions.

(** Every character of a string is in a class. *)
Fixpoint allIn (cls : ascii -> bool) (s : string) : bool :=
  match s with
  | EmptyString => true
  | String c r => cls c && allIn cls r
  end.

(** A string contains [n] consecutive characters of a class. *)
Definition hasRun (cls : ascii -> bool) (n : nat) (data : string) : Prop :=
  exists before run after,
    data = (before ++ run ++ after)%string
    /\ String.length run = n
    /\ allIn cls run = true.

End RegexNotions.

(* ===================================================================== *)
(** * More of [lib/utils/crypto.ts] *)
(* ===================================================================== *)

Section AgeProof.

Variable newDate : string -> JSDate.

(** [generateAgeProof], [now] being the reading of [new Date()]; the
    source's default for [minimumAge] is 18. A template literal prints a
    boolean as [true] or [false]. *)
Definition generateAgeProof (now : DateFields.t) (dateOfBirth : string)
    (minimumAge : Z) : ZKProof.t :=
  let birthDate := newDate dateOfBirth in
  let today : JSDate := Some now in
  let age := num_sub (getFullYear today) (getFullYear birthDate) in
  let proofInput :=
    dateOfBirth ++ ":" ++ intToString minimumAge ++ ":"
    ++ jsonBool (num_geb age (Some minimumAge)) in
  let proofHash := hashData proofInput in
  let nullifierHash := hashData (proofHash ++ ":nullifier") in
  ZKProof.mk proofHash
    [ signal (num_geb age (Some minimumAge));
      intToString minimumAge ]
    nullifierHash.

End AgeProof.

(** [generateSalt]: a buffer of thirty-two bytes, filled by
    [crypto.getRandomValues], in hexadecimal. [random i] is the byte put at
    index [i]. *)
Definition generateSalt (random : nat -> byte) : string :=
  let array := map random (seq 0 32) in
  joinMap (fun b => padStart (toString16 b) 2 "0"%char) array.

(* ===================================================================== *)
(** * [components/kyc/verification-result.tsx]: [truncateHash] *)
(* ===================================================================== *)

(** [s.slice(-n)]: the last [n] characters, and the whole string when [n]
    is 0, since [-0] is 0. *)
Definition sliceFromEnd (n : nat) (s : string) : string :=
  if (n =? 0)%nat then s
  else String.substring (String.length s - n) n s.

(** [truncateHash]; the source's default for [chars] is 8. *)
Definition truncateHash (hash : string) (chars : nat) : string :=
  if (String.length hash <=? chars * 2)%nat then hash
  else sliceFirst chars hash ++ "..." ++ sliceFromEnd chars hash.

(* ===================================================================== *)
(** * [components/kyc/kyc-form.tsx]: the identity form *)
(* ===================================================================== *)

Module Form.

(** [formData], a [Partial<KYCData>]: a member that is [undefined] is
    [None]. The document type is one of the values the select offers. *)
Module Data.
Record t : Type := mk {
  documentType : option DocumentType;
  documentNumber : option string;
  fullName : option string;
  dateOfBirth : option string;
  nationality : option string;
  expiryDate : option string
}.
End Data.

(** [errors] and [newErrors]: the message of each field that has one. *)
Module Errors.
Record t : Type := mk {
  documentType : option string;
  documentNumber : option string;
  fullName : option string;
  dateOfBirth : option string;
  nationality : option string;
  expiryDate : option string
}.
End Errors.

(** [!v] for a member that is a string or [undefined]. *)
Definition absent (v : option string) : bool :=
  match v with
  | Some s => negb (truthy s)
  | None => true
  end.

(** [!v || v.length < n]. *)
Definition shorterThan (n : nat) (v : option string) : bool :=
  match v with
  | Some s => negb (truthy s) || (String.length s <? n)%nat
  | None => true
  end.

(** [Object.keys(newErrors).length]. *)
Definition keys (e : Errors.t) : nat :=
  List.length
    (filter (fun m => match m with Some _ => true | None => false end)
       [ Errors.documentType e; Errors.documentNumber e; Errors.fullName e;
         Errors.dateOfBirth e; Errors.nationality e; Errors.expiryDate e ]).

Section Validation.

Variable newDate : string -> JSDate.

(** [validateForm]: the errors it sets and the boolean it returns.
    [nowBirth] and [nowExpiry] are the readings of [new Date()] in the two
    branches that take one. *)
Definition validateForm (nowBirth nowExpiry : DateFields.t)
    (formData : Data.t) : Errors.t * bool :=
  let documentTypeError :=
    match Data.documentType formData with
    | Some _ => None
    | None => Some "Please select a document type"
    end in
  let documentNumberError :=
    if shorterThan 5 (Data.documentNumber formData)
    then Some "Please enter a valid document number" else None in
  let fullNameError :=
    if shorterThan 2 (Data.fullName formData)
    then Some "Please enter your full name" else None in
  let dateOfBirthError :=
    match Data.dateOfBirth formData with
    | Some dateOfBirth =>
        if negb (truthy dateOfBirth)
        then Some "Please enter your date of birth"
        else
          let birthDate := newDate dateOfBirth in
          let today : JSDate := Some nowBirth in
          let age := num_sub (getFullYear today) (getFullYear birthDate) in
          if num_ltb age (Some 18)
          then Some "You must be at least 18 years old" else None
    | None => Some "Please enter your date of birth"
    end in
  let nationalityError :=
    if absent (Data.nationality formData)
    then Some "Please select your nationality" else None in
  let expiryDateError :=
    match Data.expiryDate formData with
    | Some expiryDate =>
        if negb (truthy expiryDate)
        then Some "Please enter document expiry date"
        else
          let expiry := newDate expiryDate in
          let today : JSDate := Some nowExpiry in
          if num_ltb (getTime expiry) (getTime today)
          then Some "Document has expired" else None
    | None => Some "Please enter document expiry date"
    end in
  let newErrors :=
    Errors.mk documentTypeError documentNumberError fullNameError
      dateOfBirthError nationalityError expiryDateError in
  (newErrors, (keys newErrors =? 0)%nat).

(** [handleSubmit]: the errors it leaves and the object it gives to
    [onSubmit], [None] when [onSubmit] is not called. *)
Definition handleSubmit (nowBirth nowExpiry : DateFields.t)
    (formData : Data.t) : Errors.t * option Data.t :=
  let validation := validateForm nowBirth nowExpiry formData in
  (fst validation, if snd validation then Some formData else None).

End Validation.

End Form.

(* ===================================================================== *)
(** * [decentralized-iapp/src/verify.js] *)
(* ===================================================================== *)

Module Verify.

Section Verify.

Variable newDate : string -> JSDate.

(** [decrypt], which the module calls and does not define: it returns the
    identity or throws. *)
Variable decrypt : string -> Outcome KYCData.t.

(** The exported function, [now] being the reading of [new Date()]. *)
Definition verify (now : DateFields.t) (encryptedData : string)
    : Outcome bool :=
  match decrypt encryptedData with
  | Threw e => Threw e
  | Returned identity =>
      let birthDate := newDate (KYCData.dateOfBirth identity) in
      let today : JSDate := Some now in
      let age := num_sub (getFullYear today) (getFullYear birthDate) in
      if num_ltb age (Some 18) then Returned false
      else
        let expiry := newDate (KYCData.expiryDate identity) in
        if num_ltb (getTime expiry) (getTime today) then Returned false
        else Returned true
  end.

End Verify.

End Verify.

(** ** Notions for the form *)

Module FormNotions.

(** The form that holds a record: every member present. *)
Definition ofKYCData (k : KYCData.t) : Form.Data.t :=
  Form.Data.mk (Some (KYCData.documentType k))
    (Some (KYCData.documentNumber k)) (Some (KYCData.fullName k))
    (Some (KYCData.dateOfBirth k)) (Some (KYCData.nationality k))
    (Some (KYCData.expiryDate k)).

(** The guard of [protectKYCData] on the six required fields. *)
Definition missingRequiredField (k : KYCData.t) : bool :=
  negb (truthy (documentTypeString (KYCData.documentType k)))
  || negb (truthy (KYCData.documentNumber k))
  || negb (truthy (KYCData.fullName k))
  || negb (truthy (KYCData.dateOfBirth k))
  || negb (truthy (KYCData.nationality k))
  || negb (truthy (KYCData.expiryDate k)).

Definition noErrors : Form.Errors.t :=
  Form.Errors.mk None None None None None None.

End FormNotions.

(* ===================================================================== *)
(** * [lib/services/contract.ts]: calls to the verifier contract *)
(* ===================================================================== *)

Module Contract.

(** The [args] of the [submitProof] call. *)
Module SubmitArgs.
Record t : Type := mk {
  user : string;
  result : bool;
  proofHash : string;
  enclaveSignature : string;
  expiryTimestamp : Z
}.
End SubmitArgs.

(** A request to the wallet client or the public client. *)
Inductive Request : Type :=
  | WriteContract (address functionName : string) (args : SubmitArgs.t)
  | WaitForTransactionReceipt (hash : string)
  | ReadContract (address functionName user : string).

(** What [submitVerificationProof] returns. *)
Module Submission.
Record t : Type := mk {
  hash : string;
  success : bool
}.
End Submission.

Module OnChainVerification.
Record t : Type := mk {
  userAddress : string;
  isVerified : bool;
  verificationTimestamp : Z;
  proofHash : string;
  expiryTimestamp : Z
}.
End OnChainVerification.

(** What the functions do not decide: the environment variable, the clock
    and the outcomes of the requests, each of which may depend on the
    requests made before it. *)
Module Chain.
Record t : Type := mk {
  verifierAddressEnv : option string;
  dateNow : nat -> Z;
  writeContract : string -> SubmitArgs.t -> list Request -> Outcome string;
  waitForTransactionReceipt : string -> list Request -> Outcome unit;
  readIsVerified : string -> string -> list Request -> Outcome bool;
  readVerification :
    string -> string -> list Request -> Outcome (bool * Z * string * Z)
}.
End Chain.

(** The store: the requests made so far (oldest first) and the number of
    clock readings. *)
Module Store.
Record t : Type := mk {
  requests : list Request;
  ticks : nat
}.
End Store.

Definition CM (A : Type) : Type := M Store.t A.

Definition request {A : Type} (r : Request) (o : list Request -> Outcome A)
    : CM A :=
  fun s =>
    (o (Store.requests s),
     Store.mk (Store.requests s ++ [r])%list (Store.ticks s)).

(** One year, in seconds. *)
Definition VERIFICATION_VALIDITY_PERIOD : Z := 365 * 24 * 60 * 60.

Section Calls.

Variable chain : Chain.t.

Definition KYC_VERIFIER_ADDRESS : string :=
  match Chain.verifierAddressEnv chain with
  | Some a => if truthy a then a else zeroAddress
  | None => zeroAddress
  end.

(** [Date.now()]. *)
Definition now : CM Z :=
  fun s =>
    (Returned (Chain.dateNow chain (Store.ticks s)),
     Store.mk (Store.requests s) (S (Store.ticks s))).

(** [submitVerificationProof]; the console is left out. *)
Definition submitVerificationProof (userAddress : string)
    (verificationResult : VerificationResult.t) : CM Submission.t :=
  tryCatch
    (let proofHashBytes :=
       ("0x" ++ VerificationResult.proofHash verificationResult)%string in
     let signatureBytes :=
       ("0x" ++ VerificationResult.enclaveSignature verificationResult)%string in
     ms <- now ;;
     let expiryTimestamp := ms / 1000 + VERIFICATION_VALIDITY_PERIOD in
     let args :=
       SubmitArgs.mk userAddress
         (VerificationResult.isValid verificationResult)
         proofHashBytes signatureBytes expiryTimestamp in
     hash <- request (WriteContract KYC_VERIFIER_ADDRESS "submitProof" args)
               (Chain.writeContract chain KYC_VERIFIER_ADDRESS args) ;;
     request (WaitForTransactionReceipt hash)
       (Chain.waitForTransactionReceipt chain hash) ;;;
     ret (Submission.mk hash true))
    (fun error => ret (Submission.mk "" false)).

(** [checkOnChainVerification]. *)
Definition checkOnChainVerification (userAddress : string) : CM bool :=
  tryCatch
    (request (ReadContract KYC_VERIFIER_ADDRESS "isVerified" userAddress)
       (Chain.readIsVerified chain KYC_VERIFIER_ADDRESS userAddress))
    (fun error => ret false).

(** [getVerificationDetails]; [null] is [None]. *)
Definition getVerificationDetails (userAddress : string)
    : CM (option OnChainVerification.t) :=
  tryCatch
    (result <-
       request (ReadContract KYC_VERIFIER_ADDRESS "getVerification" userAddress)
         (Chain.readVerification chain KYC_VERIFIER_ADDRESS userAddress) ;;
     let '(isVerified, verificationTimestamp, proofHash, expiryTimestamp) :=
       result in
     ret (Some (OnChainVerification.mk userAddress isVerified
                  verificationTimestamp proofHash expiryTimestamp)))
    (fun error => ret None).

End Calls.

End Contract.

(* ===================================================================== *)
(** * [lib/logger.ts]: the logger and its stored entries *)
(* ===================================================================== *)

Module Logger.

Inductive LogLevel : Type := debug | info | warn | error.

(** [level.toUpperCase()]. *)
Definition levelUpper (level : LogLevel) : string :=
  match level with
  | debug => "DEBUG"
  | info => "INFO"
  | warn => "WARN"
  | error => "ERROR"
  end.

(** A log entry. Its [data] is kept as the JSON text of the value, [None]
    when the value is [undefined]. *)
Module LogEntry.
Record t : Type := mk {
  level : LogLevel;
  message : string;
  data : option string;
  timestamp : string
}.
End LogEntry.

(** The item of the local storage under the key [app_logs], by what
    [JSON.parse] makes of its text: no item, the empty text, the text of
    an array, whose elements are taken to be entries, the text of a JSON
    value that is not an array, or a text that is not JSON. *)
Inductive Item : Type :=
  | NoItem
  | EmptyText
  | Entries (logs : list LogEntry.t)
  | OtherJSON
  | NotJSON.

Inductive ConsoleMethod : Type :=
  | console_debug | console_warn | console_error | console_log.

(** The page: the stored item, the lines written to the console (oldest
    first) and the number of clock readings. *)
Module Page.
Record t : Type := mk {
  item : Item;
  console : list (ConsoleMethod * string);
  ticks : nat
}.
End Page.

(** What the logger does not decide: the mode, the clock, whether the
    storage can be reached, and whether it takes the text of given
    entries ([JSON.stringify] or [setItem] may throw). *)
Module Env.
Record t : Type := mk {
  isDevelopment : bool;
  toISOString : nat -> string;
  storageError : option Thrown;
  setItemRefused : list LogEntry.t -> option Thrown
}.
End Env.

Definition LM (A : Type) : Type := M Page.t A.

(** What [JSON.parse(localStorage.getItem('app_logs') || '[]')] returns:
    the entries of an array, or another value. *)
Inductive Parsed : Type :=
  | ParsedEntries (logs : list LogEntry.t)
  | ParsedOther.

Section Logger.

Variable env : Env.t.

(** A line written to the console, by its method and its first argument;
    the value that follows it is left out. *)
Definition consoleWrite (method : ConsoleMethod) (text : string) : LM unit :=
  modify (fun p =>
    Page.mk (Page.item p) (Page.console p ++ [(method, text)])%list
            (Page.ticks p)).

(** [new Date().toISOString()]. *)
Definition isoNow : LM string :=
  fun p =>
    (Returned (Env.toISOString env (Page.ticks p)),
     Page.mk (Page.item p) (Page.console p) (S (Page.ticks p))).

(** [JSON.parse(localStorage.getItem('app_logs') || '[]')]. *)
Definition parseItem : LM Parsed :=
  match Env.storageError env with
  | Some e => throw e
  | None =>
      item <- gets Page.item ;;
      match item with
      | NoItem => ret (ParsedEntries [])
      | EmptyText => ret (ParsedEntries [])
      | Entries logs => ret (ParsedEntries logs)
      | OtherJSON => ret ParsedOther
      | NotJSON => throwError "Unexpected token in JSON"
      end
  end.

(** [localStorage.setItem('app_logs', JSON.stringify(logs))]. *)
Definition setItem (logs : list LogEntry.t) : LM unit :=
  match Env.storageError env with
  | Some e => throw e
  | None =>
      match Env.setItemRefused env logs with
      | Some e => throw e
      | None =>
          modify (fun p =>
            Page.mk (Entries logs) (Page.console p) (Page.ticks p))
      end
  end.

(** [persistLog]. On a value that is not an array, [logs.push] throws. *)
Definition persistLog (entry : LogEntry.t) : LM unit :=
  tryCatch
    (parsed <- parseItem ;;
     match parsed with
     | ParsedOther => throwError "logs.push is not a function"
     | ParsedEntries logs =>
         let pushed := (logs ++ [entry])%list in
         let kept :=
           if (100 <? List.length pushed)%nat then tl pushed else pushed in
         setItem kept
     end)
    (fun error => consoleWrite console_error "Failed to persist log:").

(** [log]. *)
Definition log (level : LogLevel) (message : string) (data : option string)
    : LM unit :=
  timestamp <- isoNow ;;
  let entry := LogEntry.mk level message data timestamp in
  (if Env.isDevelopment env then
     let consoleMethod :=
       match level with
       | debug => console_debug
       | warn => console_warn
       | error => console_error
       | info => console_log
       end in
     consoleWrite consoleMethod
       ("[" ++ levelUpper level ++ "] " ++ message)%string
   else ret tt) ;;;
  persistLog entry.

(** [getStoredLogs]. *)
Definition getStoredLogs : LM Parsed :=
  tryCatch parseItem (fun error => ret (ParsedEntries [])).

(** [clearStoredLogs]: [localStorage.removeItem('app_logs')]. *)
Definition clearStoredLogs : LM unit :=
  match Env.storageError env with
  | Some e => throw e
  | None =>
      modify (fun p => Page.mk NoItem (Page.console p) (Page.ticks p))
  end.

End Logger.

End Logger.

(* ===================================================================== *)
(** * [hooks/use-wallet.ts]: the wallet connection *)
(* ===================================================================== *)

(** ** [parseInt(s, 16)] and [n.toString(16)] *)

(** White space and line terminators, among the code units below 256. *)
Definition isWhiteSpace (c : ascii) : bool :=
  let n := Z.of_N (N_of_ascii c) in
  ((9 <=? n) && (n <=? 13)) || (n =? 32) || (n =? 160).

Fixpoint trimStart (s : string) : string :=
  match s with
  | String c r => if isWhiteSpace c then trimStart r else s
  | EmptyString => EmptyString
  end.

(** The value of a hexadecimal digit, of either case. *)
Definition hexDigitValue (c : ascii) : option Z :=
  let n := Z.of_N (N_of_ascii c) in
  if (48 <=? n) && (n <=? 57) then Some (n - 48)
  else if (97 <=? n) && (n <=? 102) then Some (n - 87)
  else if (65 <=? n) && (n <=? 70) then Some (n - 55)
  else None.

(** The number that the longest prefix of hexadecimal digits denotes,
    [acc] being the number read so far, [None] when no digit was read. *)
Fixpoint parseDigits16 (acc : option Z) (s : string) : option Z :=
  match s with
  | String c r =>
      match hexDigitValue c with
      | Some v =>
          parseDigits16
            (Some (16 * match acc with Some a => a | None => 0 end + v)) r
      | None => acc
      end
  | EmptyString => acc
  end.

(** [parseInt(s, 16)]: leading white space, an optional sign and an
    optional [0x] or [0X] are skipped; [NaN] when no digit follows. The
    number is exact, as it is in the range of the safe integers. *)
Definition parseInt16 (s : string) : num :=
  let trimmed := trimStart s in
  let signed :=
    match trimmed with
    | String c r =>
        if Ascii.eqb c "-" then (-1, r)
        else if Ascii.eqb c "+" then (1, r)
        else (1, trimmed)
    | EmptyString => (1, trimmed)
    end in
  let digits :=
    match snd signed with
    | String z (String x r) =>
        if Ascii.eqb z "0" && (Ascii.eqb x "x" || Ascii.eqb x "X")
        then r else snd signed
    | _ => snd signed
    end in
  option_map (Z.mul (fst signed)) (parseDigits16 None digits).

(** [n.toString(16)] of a non-negative integer: its hexadecimal digits,
    most significant first. [fuel] bounds their number. *)
Fixpoint hexDigitsOf (fuel : nat) (n : Z) : string :=
  match fuel with
  | O => EmptyString
  | S k =>
      if n <? 16 then String (hexDigit n) EmptyString
      else hexDigitsOf k (n / 16) ++ String (hexDigit (n mod 16)) EmptyString
  end.

Definition numberToString16 (n : Z) : string :=
  hexDigitsOf (S (Z.to_nat (Z.log2 n))) n.

Module Wallet.

Definition ARBITRUM_SEPOLIA_CHAIN_ID : Z := 421614.
Definition ARBITRUM_MAINNET_CHAIN_ID : Z := 42161.

(** [WalletState]. The chain id is [null], [None], or a number, which is
    [NaN] when the wallet's text has no hexadecimal digit. The provider is
    kept by its presence. *)
Module State.
Record t : Type := mk {
  isConnected : bool;
  address : option string;
  chainId : option num;
  isCorrectNetwork : bool;
  provider : bool
}.
End State.

(** The state of the hook: the wallet state, [isConnecting] and [error],
    with the requests made to the wallet so far (oldest first). *)
Module Hook.
Record t : Type := mk {
  walletState : State.t;
  isConnecting : bool;
  error : option string;
  requests : list string
}.
End Hook.

(** A reply of [ethereum.request]: a value, or a rejection by an error
    object, with its [code] if it has one. *)
Inductive Reply (A : Type) : Type :=
  | Resolved (a : A)
  | Rejected (code : option Z).

Arguments Resolved {A} a.
Arguments Rejected {A} code.

(** [window.ethereum]: absent, or the replies to the requests the hook
    makes. The accounts are [None] when the reply is [null] or
    [undefined]. *)
Module Ethereum.
Record t : Type := mk {
  eth_accounts : Reply (option (list string));
  eth_requestAccounts : Reply (option (list string));
  eth_chainId : Reply string;
  wallet_switchEthereumChain : string -> Reply unit;
  wallet_addEthereumChain : string -> Reply unit
}.
End Ethereum.

Definition disconnected : State.t :=
  State.mk false None None false false.

Definition initial : Hook.t := Hook.mk disconnected false None [].

(** [chainIdNum === ARBITRUM_SEPOLIA_CHAIN_ID || chainIdNum ===
    ARBITRUM_MAINNET_CHAIN_ID]. *)
Definition isArbitrum (chainIdNum : num) : bool :=
  num_eqb chainIdNum (Some ARBITRUM_SEPOLIA_CHAIN_ID)
  || num_eqb chainIdNum (Some ARBITRUM_MAINNET_CHAIN_ID).

Definition asked (method : string) (h : Hook.t) : Hook.t :=
  Hook.mk (Hook.walletState h) (Hook.isConnecting h) (Hook.error h)
          (Hook.requests h ++ [method])%list.

Definition setWalletState (s : State.t) (h : Hook.t) : Hook.t :=
  Hook.mk s (Hook.isConnecting h) (Hook.error h) (Hook.requests h).

Definition setIsConnecting (v : bool) (h : Hook.t) : Hook.t :=
  Hook.mk (Hook.walletState h) v (Hook.error h) (Hook.requests h).

Definition setError (v : option string) (h : Hook.t) : Hook.t :=
  Hook.mk (Hook.walletState h) (Hook.isConnecting h) v (Hook.requests h).

Section Handlers.

(** [getEthereum()]. *)
Variable ethereum : option Ethereum.t.

(** [connect]; the console is left out. With accounts that are [null]
    or [undefined], [accounts[0]] throws an error without a [code]. *)
Definition connect (h : Hook.t) : Hook.t :=
  match ethereum with
  | None =>
      setError
        (Some "MetaMask or compatible wallet not found. Please install MetaMask.")
        h
  | Some eth =>
      let h1 := setError None (setIsConnecting true h) in
      let rejected (code : option Z) (h' : Hook.t) : Hook.t :=
        if num_eqb code (Some 4001)
        then setError
               (Some "Connection rejected. Please approve the connection request.")
               h'
        else setError (Some "Failed to connect wallet. Please try again.") h' in
      let h2 := asked "eth_requestAccounts" h1 in
      let attempted :=
        match Ethereum.eth_requestAccounts eth with
        | Rejected code => rejected code h2
        | Resolved accounts =>
            let h3 := asked "eth_chainId" h2 in
            match Ethereum.eth_chainId eth with
            | Rejected code => rejected code h3
            | Resolved chainId =>
                let chainIdNum := parseInt16 chainId in
                match accounts with
                | None => rejected None h3
                | Some l =>
                    setWalletState
                      (State.mk true (nth_error l 0) (Some chainIdNum)
                         (isArbitrum chainIdNum) true)
                      h3
                end
            end
        end in
      setIsConnecting false attempted
  end.

(** [checkConnection]. *)
Definition checkConnection (h : Hook.t) : Hook.t :=
  match ethereum with
  | None => h
  | Some eth =>
      let h1 := asked "eth_accounts" h in
      match Ethereum.eth_accounts eth with
      | Rejected _ => h1
      | Resolved accounts =>
          let h2 := asked "eth_chainId" h1 in
          match Ethereum.eth_chainId eth with
          | Rejected _ => h2
          | Resolved chainId =>
              let chainIdNum := parseInt16 chainId in
              match accounts with
              | Some (first :: rest) =>
                  setWalletState
                    (State.mk true (Some first) (Some chainIdNum)
                       (isArbitrum chainIdNum) true)
                    h2
              | _ => h2
              end
          end
      end
  end.

(** [disconnect]. *)
Definition disconnect (h : Hook.t) : Hook.t :=
  setWalletState (State.mk false None None false false) h.

(** [handleAccountsChanged]. *)
Definition handleAccountsChanged (accounts : list string) (h : Hook.t)
    : Hook.t :=
  if (List.length accounts =? 0)%nat then disconnect h
  else
    let prev := Hook.walletState h in
    setWalletState
      (State.mk (State.isConnected prev) (nth_error accounts 0)
         (State.chainId prev) (State.isCorrectNetwork prev)
         (State.provider prev))
      h.

(** [handleChainChanged]. *)
Definition handleChainChanged (chainId : string) (h : Hook.t) : Hook.t :=
  let chainIdNum := parseInt16 chainId in
  let prev := Hook.walletState h in
  setWalletState
    (State.mk (State.isConnected prev) (State.address prev)
       (Some chainIdNum) (isArbitrum chainIdNum) (State.provider prev))
    h.

(** The [chainId] parameter of the two requests of
    [switchToArbitrumSepolia]. *)
Definition sepoliaChainIdHex : string :=
  ("0x" ++ numberToString16 ARBITRUM_SEPOLIA_CHAIN_ID)%string.

(** [switchToArbitrumSepolia]; the console is left out. *)
Definition switchToArbitrumSepolia (h : Hook.t) : Hook.t :=
  match ethereum with
  | None => h
  | Some eth =>
      let h1 := asked "wallet_switchEthereumChain" h in
      match Ethereum.wallet_switchEthereumChain eth sepoliaChainIdHex with
      | Resolved _ => h1
      | Rejected code =>
          if num_eqb code (Some 4902) then
            let h2 := asked "wallet_addEthereumChain" h1 in
            match Ethereum.wallet_addEthereumChain eth sepoliaChainIdHex with
            | Resolved _ => h2
            | Rejected _ =>
                setError (Some "Failed to add Arbitrum Sepolia network.") h2
            end
          else setError (Some "Failed to switch to Arbitrum Sepolia.") h1
      end
  end.

(** [clearError]. *)
Definition clearError (h : Hook.t) : Hook.t := setError None h.

End Handlers.

End Wallet.

(** ** Notions for the logger and the wallet *)

Module LoggerNotions.

Import Logger.

(** A sequence of calls of [log]. *)
Fixpoint logAll (env : Env.t)
    (calls : list (LogLevel * string * option string)) : LM unit :=
  match calls with
  | [] => ret tt
  | (level, message, data) :: rest =>
      log env level message data ;;; logAll env rest
  end.

(** The entries an item holds for [persistLog]: none for a missing item
    and for the empty text. *)
Definition entriesOf (item : Item) : option (list LogEntry.t) :=
  match item with
  | NoItem => Some []
  | EmptyText => Some []
  | Entries logs => Some logs
  | OtherJSON => None
  | NotJSON => None
  end.

(** The last [n] elements of a list. *)
Definition lastN {A : Type} (n : nat) (l : list A) : list A :=
  skipn (List.length l - n) l.

(** The entries that a sequence of calls of [log] makes, the first at the
    clock reading [t]. *)
Fixpoint entriesFor (env : Env.t) (t : nat)
    (calls : list (LogLevel * string * option string)) : list LogEntry.t :=
  match calls with
  | [] => []
  | (level, message, data) :: rest =>
      LogEntry.mk level message data (Env.toISOString env t)
      :: entriesFor env (S t) rest
  end.

(** A storage that can be reached and takes every text. *)
Definition storageWorks (env : Env.t) : Prop :=
  Env.storageError env = None /\ forall logs, Env.setItemRefused env logs = None.

(** A production page whose storage works, and a hundred and one calls. *)
Definition sampleEnv : Env.t :=
  Env.mk false (fun _ => "2024-06-01T12:00:00.000Z") None (fun _ => None).

Definition emptyPage : Page.t := Page.mk NoItem [] 0.

Definition sampleCalls : list (LogLevel * string * option string) :=
  repeat (info, "Protecting KYC data with iExec", None) 101.

End LoggerNotions.

Module WalletNotions.

Import Wallet.

(** The network flag says what the chain id is. *)
Definition flagMatchesChain (s : State.t) : Prop :=
  State.isCorrectNetwork s
  = match State.chainId s with
    | Some chainIdNum => isArbitrum chainIdNum
    | None => false
    end.

(** One event of the hook: a call of one of its functions, or one of the
    wallet's notifications. *)
Inductive Event : Type :=
  | Connect
  | CheckConnection
  | Disconnect
  | AccountsChanged (accounts : list string)
  | ChainChanged (chainId : string)
  | SwitchToArbitrumSepolia
  | ClearError.

Definition handle (ethereum : option Ethereum.t) (e : Event) (h : Hook.t)
    : Hook.t :=
  match e with
  | Connect => connect ethereum h
  | CheckConnection => checkConnection ethereum h
  | Disconnect => disconnect h
  | AccountsChanged accounts => handleAccountsChanged accounts h
  | ChainChanged chainId => handleChainChanged chainId h
  | SwitchToArbitrumSepolia => switchToArbitrumSepolia ethereum h
  | ClearError => clearError h
  end.

(** The hook after a sequence of events; the wallet may answer each
    differently. *)
Fixpoint after (events : list (option Ethereum.t * Event)) (h : Hook.t)
    : Hook.t :=
  match events with
  | [] => h
  | (ethereum, e) :: rest => after rest (handle ethereum e h)
  end.

(** A character is a hexadecimal digit of [parseInt]. *)
Definition isHexDigit (c : ascii) : bool :=
  match hexDigitValue c with
  | Some _ => true
  | None => false
  end.

(** A wallet on Arbitrum mainnet that grants one account. *)
Definition mainnetWallet : Ethereum.t :=
  Ethereum.mk (Resolved (Some ["0xabc"])) (Resolved (Some ["0xabc"]))
    (Resolved "0xa4b1") (fun _ => Resolved tt) (fun _ => Resolved tt).

End WalletNotions.

(** ** Notions for the sessions *)

Module SessionNotions.

(** The result [simulateVerification] returns when it starts with [t]
    clock readings taken. *)
Definition simulated (newDate : string -> JSDate) (w : World.t) (t : nat)
    (kycData : KYCData.t) (userAddress : string) : VerificationResult.t :=
  let isValidDocument :=
    isDocumentValid newDate (World.clock w t) (KYCData.expiryDate kycData) in
  let isUserAdult :=
    isAdult newDate (World.clock w (S t)) (KYCData.dateOfBirth kycData) 18 in
  let proofHash :=
    hashData
      (userAddress ++ ":"
       ++ documentTypeString (KYCData.documentType kycData) ++ ":"
       ++ jsonBool (isValidDocument && isUserAdult && true) ++ ":"
       ++ intToString (DateFields.time (World.clock w (S (S t))))) in
  VerificationResult.mk (isValidDocument && isUserAdult && true)
    (DateFields.time (World.clock w (S (S (S t)))))
    proofHash (hashData (proofHash ++ ":enclave:signature"))
    (VerificationResult.mkAttributes isUserAdult isValidDocument true).

(** The calls that belong to the simulated path. *)
Definition isLocalCall (c : Call) : bool :=
  match c with
  | Call_encryptForTEE => true
  | Call_simulateVerification => true
  | Call_generateMockTransactionHash => true
  | _ => false
  end.


Definition wallet : Provider.t := Provider.mk true.

End SessionNotions.

(** ** Notions for the report of the worker *)

Module ReportNotions.

Import Worker.

(** The reports among the writes an invocation asked for, oldest first. *)
Definition reportOf (o : Op) : list KycReport.t :=
  match o with
  | OpWriteFile _ (ReportJSON r) => [r]
  | _ => []
  end.

Definition reportsWritten (s : Store.t) : list KycReport.t :=
  flat_map reportOf (Store.ops s).

(** The entries that record an error. *)
Definition isErrored (entry : Entry) : bool :=
  match entry with
  | Errored _ _ _ => true
  | Processed _ _ _ _ _ _ => false
  end.

(** A report whose counters and overall status are computed from its own
    entries, as [main] computes them. *)
Definition countedFromEntries (r : KycReport.t) : Prop :=
  KycReport.totalDocuments r
  = Z.of_nat (List.length (KycReport.verificationResults r))
  /\ KycReport.verifiedDocuments r
     = countWhere (hasStatus VERIFIED) (KycReport.verificationResults r)
  /\ KycReport.failedDocuments r
     = countWhere (hasStatus FAILED) (KycReport.verificationResults r)
  /\ KycReport.overallStatus r
     = if forallb (hasStatus VERIFIED) (KycReport.verificationResults r)
       then ALL_VERIFIED else PARTIAL_VERIFICATION.

Section Inputs.

Variable env : Env.t.

(** The path [processInputFile] reads the input file of index [i] from,
    and the path it copies it to. *)
Definition inputFilePath (i : Z) : string :=
  orUndefined (Env.IEXEC_IN env) ++ "/"
  ++ orUndefined (Env.IEXEC_INPUT_FILE_NAME env i).

Definition processedFilePath (i : Z) : string :=
  orUndefined (Env.IEXEC_OUT env) ++ "/processed_"
  ++ orUndefined (Env.IEXEC_INPUT_FILE_NAME env i).

(** The input file of index [i] cannot be read, or cannot be copied. *)
Definition inputRefused (i : Z) : bool :=
  match Env.readFile env (inputFilePath i) with
  | Threw _ => true
  | Returned _ =>
      match Env.copyRefused env (inputFilePath i) (processedFilePath i) with
      | Some _ => true
      | None => false
      end
  end.

End Inputs.

(** The report of the sample batch. *)
Definition sampleReport : KycReport.t :=
  hd (KycReport.mk "" 0 0 0 [] [] ALL_VERIFIED "")
     (reportsWritten (snd (main SampleWorker.batch start))).

End ReportNotions.

(* ===================================================================== *)
(** * Properties *)
(* ===================================================================== *)

(** ** Strings and digests *)

Lemma length_append (a b : string) :
  String.length (a ++ b) = (String.length a + String.length b)%nat.
Proof.
  induction a as [|c a IH]; simpl; [reflexivity|]. now rewrite IH.
Qed.

Lemma append_assoc (a b c : string) : ((a ++ b) ++ c = a ++ (b ++ c))%string.
Proof.
  induction a as [|x a IH]; simpl; [reflexivity|]. now rewrite IH.
Qed.

Lemma append_inv_head (a b c : string) : (a ++ b = a ++ c)%string -> b = c.
Proof.
  induction a as [|x a IH]; simpl; intros H; [exact H|].
  injection H as H. auto.
Qed.

Lemma append_inv_tail (a b c : string) : (a ++ c = b ++ c)%string -> a = b.
Proof.
  revert b. induction a as [|x a IH]; intros [|y b] H; simpl in H.
  - reflexivity.
  - exfalso. apply (f_equal String.length) in H. simpl in H.
    rewrite length_append in H. lia.
  - exfalso. apply (f_equal String.length) in H. simpl in H.
    rewrite length_append in H. lia.
  - injection H as Hx H. subst. f_equal. auto.
Qed.

Lemma isHex_append (a b : string) :
  isHex (a ++ b) = isHex a && isHex b.
Proof.
  induction a as [|c a IH]; simpl; [reflexivity|].
  now rewrite IH, andb_assoc.
Qed.

Lemma hex_pair_length (b : byte) :
  String.length (padStart (toString16 b) 2 "0"%char) = 2%nat.
Proof. destruct b; reflexivity. Qed.

Lemma hex_pair_isHex (b : byte) :
  isHex (padStart (toString16 b) 2 "0"%char) = true.
Proof. destruct b; reflexivity. Qed.

Lemma hexOfBytes_length (bs : list byte) :
  String.length (hexOfBytes bs) = (2 * List.length bs)%nat.
Proof.
  unfold hexOfBytes. induction bs as [|b bs IH]; [reflexivity|].
  cbn [joinMap List.length]. rewrite length_append, hex_pair_length, IH. lia.
Qed.

Lemma hexOfBytes_isHex (bs : list byte) : isHex (hexOfBytes bs) = true.
Proof.
  unfold hexOfBytes. induction bs as [|b bs IH]; [reflexivity|].
  cbn [joinMap]. now rewrite isHex_append, hex_pair_isHex, IH.
Qed.

Lemma bigEndian_length (width : nat) (v : Z) :
  List.length (SHA256.bigEndian width v) = width.
Proof. unfold SHA256.bigEndian. now rewrite length_map, length_seq. Qed.

(** A SHA-256 digest is thirty-two bytes, whatever the message. *)
Lemma digest_length (msg : list byte) :
  List.length (SHA256.digest msg) = 32%nat.
Proof.
  unfold SHA256.digest, SHA256.output.
  repeat rewrite length_app. repeat rewrite bigEndian_length. reflexivity.
Qed.

Lemma hashData_length (data : string) : String.length (hashData data) = 64%nat.
Proof.
  unfold hashData. now rewrite hexOfBytes_length, digest_length.
Qed.

Lemma hashData_isHex (data : string) : isHex (hashData data) = true.
Proof. unfold hashData. apply hexOfBytes_isHex. Qed.

Lemma hashData_truthy (data : string) : strictEq (hashData data) "" = false.
Proof.
  unfold strictEq. apply String.eqb_neq. intros H.
  pose proof (hashData_length data) as L. rewrite H in L. discriminate.
Qed.

(** The digest on the test vectors of FIPS 180-4: one block, the empty
    message, and a message that pads to two blocks. *)
Example hashData_abc :
  hashData "abc"
  = "ba7816bf8f01cfea414140de5dae2223b00361a396177a9cb410ff61f20015ad".
Proof. vm_compute. reflexivity. Qed.

Example hashData_empty :
  hashData ""
  = "e3b0c44298fc1c149afbf4c8996fb92427ae41e4649b934ca495991b7852b855".
Proof. vm_compute. reflexivity. Qed.

Example hashData_two_blocks :
  hashData "abcdbcdecdefdefgefghfghighijhijkijkljklmklmnlmnomnopnopq"
  = "248d6a61d20638b8e5c026930c3e6039a33ce45964ff2167f6ecedd419db06c1".
Proof. vm_compute. reflexivity. Qed.

Example jsonObject_example :
  jsonObject [("minimumAge", jsonNum (Some 18)); ("result", jsonBool true)]
  = String "{"%char (String dquote ("minimumAge" ++ String dquote
      (":18," ++ String dquote ("result" ++ String dquote ":true}")))).
Proof. reflexivity. Qed.

Lemma signal_is_one (b : bool) : strictEq (signal b) "1" = b.
Proof. destruct b; reflexivity. Qed.

Lemma signal_eq_one (b : bool) : signal b = "1" <-> b = true.
Proof. destruct b; simpl; split; intros H; try reflexivity; discriminate. Qed.

(** ** The verifier *)

Lemma verifyZKProof_nullifier (proof : ZKProof.t) (circuitType : ZKCircuitType) :
  ZKVerificationResult.nullifierHash (verifyZKProof proof circuitType)
  = ZKProof.nullifierHash proof.
Proof. unfold verifyZKProof. destruct (negb _); reflexivity. Qed.

Lemma verifyZKProof_malformed (proof : ZKProof.t) (circuitType : ZKCircuitType) :
  ZKProof.proof proof = ""
  \/ String.length (ZKProof.proof proof) <> 64%nat
  \/ ZKProof.publicSignals proof = [] ->
  verifyZKProof proof circuitType
  = ZKVerificationResult.mk false (ZKProof.nullifierHash proof) [].
Proof.
  destruct proof as [pf sigs nh]. unfold verifyZKProof.
  cbn [ZKProof.proof ZKProof.publicSignals ZKProof.nullifierHash].
  intros [H | [H | H]].
  - subst pf. reflexivity.
  - apply Nat.eqb_neq in H. rewrite H.
    now rewrite andb_false_r.
  - subst sigs. cbn. now rewrite andb_false_r.
Qed.

Lemma verifyZKProof_wellformed (proof : ZKProof.t) (circuitType : ZKCircuitType) :
  String.length (ZKProof.proof proof) = 64%nat ->
  ZKProof.publicSignals proof <> [] ->
  (ZKVerificationResult.isValid (verifyZKProof proof circuitType) = true
   <-> nth_error (ZKProof.publicSignals proof) 0 = Some "1")
  /\ ZKVerificationResult.publicOutputs (verifyZKProof proof circuitType)
     = ZKProof.publicSignals proof.
Proof.
  destruct proof as [pf sigs nh]. unfold verifyZKProof.
  cbn [ZKProof.proof ZKProof.publicSignals ZKProof.nullifierHash].
  intros HL HS.
  assert (Hne : strictEq pf "" = false).
  { unfold strictEq. apply String.eqb_neq. intros ->. discriminate. }
  rewrite Hne, HL. destruct sigs as [|s sigs]; [contradiction|].
  cbn. split; [|reflexivity].
  unfold strictEq. rewrite String.eqb_eq. split.
  - now intros ->.
  - now intros [= ->].
Qed.

(** C5. [verifyZKProof] is a total function: it has no exit by exception.
    Its result always carries the nullifier of the artifact. When the
    digest is empty or not 64 characters wide, or when there is no public
    signal, the result is invalid with no public outputs; otherwise it is
    valid exactly when the first public signal is the string "1", and the
    public outputs are the public signals. *)
Theorem verifyZKProof_checks_shape
    (proof : ZKProof.t) (circuitType : ZKCircuitType) :
  let r := verifyZKProof proof circuitType in
  ZKVerificationResult.nullifierHash r = ZKProof.nullifierHash proof
  /\ ((ZKProof.proof proof = ""
       \/ String.length (ZKProof.proof proof) <> 64%nat
       \/ ZKProof.publicSignals proof = [])
      -> ZKVerificationResult.isValid r = false
         /\ ZKVerificationResult.publicOutputs r = [])
  /\ ((String.length (ZKProof.proof proof) = 64%nat
       /\ ZKProof.publicSignals proof <> [])
      -> (ZKVerificationResult.isValid r = true
          <-> nth_error (ZKProof.publicSignals proof) 0 = Some "1")
         /\ ZKVerificationResult.publicOutputs r
            = ZKProof.publicSignals proof).
Proof.
  cbv zeta. split; [apply verifyZKProof_nullifier|]. split.
  - intros H. rewrite (verifyZKProof_malformed _ _ H). split; reflexivity.
  - intros [HL HS]. now apply verifyZKProof_wellformed.
Qed.

Lemma verifyZKProof_checks_shape_witness :
  (ZKVerificationResult.isValid
     (verifyZKProof (ZKProof.mk "" ["1"] "n") full_kyc) = false
   /\ ZKVerificationResult.publicOutputs
        (verifyZKProof (ZKProof.mk "" ["1"] "n") full_kyc) = [])
  /\ ZKVerificationResult.publicOutputs
       (verifyZKProof (ZKProof.mk (hashData "abc") ["1"; "18"] "n")
          age_verification)
     = ["1"; "18"].
Proof.
  split.
  - apply (verifyZKProof_checks_shape (ZKProof.mk "" ["1"] "n") full_kyc).
    left. reflexivity.
  - apply (verifyZKProof_checks_shape
             (ZKProof.mk (hashData "abc") ["1"; "18"] "n") age_verification).
    split; [vm_compute; reflexivity | discriminate].
Defined.

(** ** The generators *)

Section GeneratorFacts.

Variable newDate : string -> JSDate.

Lemma generated_proof_is_digest (p : ZKProof.t) :
  generated newDate p -> exists input, ZKProof.proof p = hashData input.
Proof. intros []; eexists; reflexivity. Qed.

Lemma generated_signals_nonempty (p : ZKProof.t) :
  generated newDate p -> ZKProof.publicSignals p <> [].
Proof. intros []; discriminate. Qed.

Lemma age_first_signal now dateOfBirth minimumAge userAddress :
  ZKProof.publicSignals
    (generateAgeVerificationProof newDate now dateOfBirth minimumAge
       userAddress)
  = [ signal (ageCheck newDate now dateOfBirth minimumAge);
      intToString minimumAge;
      intToString (DateFields.fullYear now) ].
Proof. reflexivity. Qed.

Lemma document_signals now expiryDate documentType userAddress :
  ZKProof.publicSignals
    (generateDocumentValidityProof newDate now expiryDate documentType
       userAddress)
  = [ signal (documentCheck newDate now expiryDate);
      signal (num_gtb
                (num_floor_div
                   (num_sub (getTime (newDate expiryDate))
                            (Some (DateFields.time now)))
                   86400000)
                (Some 30)) ].
Proof. reflexivity. Qed.

(** C1, as the code has it. The public signals of the full proof are, in
    this order, the overall validity, the age check, the document check,
    the nationality check and the minimum age. The nationality check is
    membership in [allowedNationalities] when that list is given and not
    empty, and true when it is absent or empty. The overall validity is
    "1" exactly when the three checks are "1". *)
Theorem generateFullKYCProof_publicSignals
    (nowAge nowDoc : DateFields.t) (nowMs : Z) (kycData : KYCData.t)
    (userAddress : string) (options : Options.t) :
  let signals :=
    ZKProof.publicSignals
      (generateFullKYCProof newDate nowAge nowDoc nowMs kycData
         userAddress options) in
  let isAgeValid :=
    ageCheck newDate nowAge (KYCData.dateOfBirth kycData) (minimumAgeOf options) in
  let isDocValid := documentCheck newDate nowDoc (KYCData.expiryDate kycData) in
  let isNationalityValid := nationalityCheck options kycData in
  signals
  = [ signal (isAgeValid && isDocValid && isNationalityValid);
      signal isAgeValid;
      signal isDocValid;
      signal isNationalityValid;
      intToString (minimumAgeOf options) ]
  /\ (nth_error signals 0 = Some "1"
      <-> nth_error signals 1 = Some "1"
          /\ nth_error signals 2 = Some "1"
          /\ nth_error signals 3 = Some "1").
Proof.
  cbv zeta.
  assert (E :
    ZKProof.publicSignals
      (generateFullKYCProof newDate nowAge nowDoc nowMs kycData
         userAddress options)
    = [ signal (ageCheck newDate nowAge (KYCData.dateOfBirth kycData)
                  (minimumAgeOf options)
                && documentCheck newDate nowDoc (KYCData.expiryDate kycData)
                && nationalityCheck options kycData);
        signal (ageCheck newDate nowAge (KYCData.dateOfBirth kycData)
                  (minimumAgeOf options));
        signal (documentCheck newDate nowDoc (KYCData.expiryDate kycData));
        signal (nationalityCheck options kycData);
        intToString (minimumAgeOf options) ]).
  { unfold generateFullKYCProof. cbv zeta.
    rewrite age_first_signal, document_signals.
    cbn [nth_error ZKProof.publicSignals]. rewrite !signal_is_one.
    unfold nationalityCheck, minimumAgeOf.
    destruct (Options.allowedNationalities options) as [[|n l]|];
      reflexivity. }
  rewrite E. split; [reflexivity|].
  cbn [nth_error].
  destruct (ageCheck _ _ _ _), (documentCheck _ _ _), (nationalityCheck _ _);
    cbn; split; intros H; repeat split;
    try reflexivity; try discriminate;
    destruct H as [? [? ?]]; discriminate.
Qed.

(** C10. Every artifact a generator returns has a 64-character lowercase
    hexadecimal digest as its proof and at least one public signal; so
    verifying it, for any circuit type, returns its public signals and its
    nullifier, and is valid exactly when its first public signal is
    "1". *)
Theorem generated_proofs_pass_format
    (p : ZKProof.t) (circuitType : ZKCircuitType) :
  generated newDate p ->
  String.length (ZKProof.proof p) = 64%nat
  /\ isHex (ZKProof.proof p) = true
  /\ ZKProof.publicSignals p <> []
  /\ ZKVerificationResult.publicOutputs (verifyZKProof p circuitType)
     = ZKProof.publicSignals p
  /\ ZKVerificationResult.nullifierHash (verifyZKProof p circuitType)
     = ZKProof.nullifierHash p
  /\ (ZKVerificationResult.isValid (verifyZKProof p circuitType) = true
      <-> nth_error (ZKProof.publicSignals p) 0 = Some "1").
Proof.
  intros G.
  destruct (generated_proof_is_digest p G) as [input E].
  pose proof (generated_signals_nonempty p G) as NE.
  assert (L : String.length (ZKProof.proof p) = 64%nat)
    by (rewrite E; apply hashData_length).
  destruct (verifyZKProof_wellformed p circuitType L NE) as [Hv Ho].
  pose proof (verifyZKProof_nullifier p circuitType) as Hn.
  repeat split; try assumption; try (apply Hv).
  rewrite E. apply hashData_isHex.
Qed.

End GeneratorFacts.

(** ** Age and document validity *)

Lemma ageAt_calendarAge (now birth : DateFields.t) :
  ageAt (Some now) (Some birth) = Some (calendarAge now birth).
Proof.
  unfold ageAt, calendarAge, Civil.earlierInYear. cbn.
  replace (DateFields.month now - DateFields.month birth <? 0)
    with (DateFields.month now <? DateFields.month birth)
    by (destruct (Z.ltb_spec (DateFields.month now) (DateFields.month birth));
        symmetry; [apply Z.ltb_lt | apply Z.ltb_ge]; lia).
  replace (DateFields.month now - DateFields.month birth =? 0)
    with (DateFields.month now =? DateFields.month birth)
    by (destruct (Z.eqb_spec (DateFields.month now) (DateFields.month birth));
        symmetry; [apply Z.eqb_eq | apply Z.eqb_neq]; lia).
  destruct (_ || _); cbn; f_equal; lia.
Qed.






Example nextDay_examples :
  Civil.nextDay (2024, 1, 28) = (2024, 1, 29)
  /\ Civil.nextDay (2023, 1, 28) = (2023, 2, 1)
  /\ Civil.nextDay (2023, 11, 31) = (2024, 0, 1)
  /\ UTC.newDate "2024-02-29" = Some (UTC.midnight (2024, 1, 29))
  /\ UTC.newDate "2023-02-29" = None
  /\ UTC.newDate "2024-06-01"
     = Some (DateFields.mk 1717200000000 2024 5 1).
Proof. repeat split. Qed.











Section DateFacts.

Variable newDate : string -> JSDate.



End DateFacts.



(** ** The nullifier of the full proof *)

Lemma append_split_by_length (a b c d : string) :
  (a ++ b = c ++ d)%string -> String.length a = String.length c ->
  a = c /\ b = d.
Proof.
  revert c. induction a as [|x a IH]; intros [|y c] H L; simpl in *;
    try discriminate.
  - auto.
  - injection H as Hx H. injection L as L.
    destruct (IH c H L) as [-> ->]. subst. auto.
Qed.

Lemma nullifierInput_injective (dt h1 h2 a1 a2 : string) :
  String.length h1 = String.length h2 ->
  nullifierInput (dt ++ ":" ++ h1) a1 = nullifierInput (dt ++ ":" ++ h2) a2 ->
  h1 = h2 /\ a1 = a2.
Proof.
  unfold nullifierInput. intros L H.
  rewrite !append_assoc in H. apply append_inv_head in H.
  change (":" ++ ?x)%string with (String ":"%char x) in H.
  injection H as H.
  apply append_split_by_length in H; [|exact L].
  destruct H as [-> H]. split; [reflexivity|].
  injection H as H. now apply append_inv_tail in H.
Qed.

(** C2. The nullifier of the full proof is [generateNullifierHash] of the
    document type, a colon and the digest of the document number, with the
    subject. It is therefore the same for two generations from the same
    document type, document number and subject, whatever the clock, the
    other fields and the options. And a different document number or a
    different subject gives a different nullifier, unless SHA-256 collides
    on the two document numbers or on the two strings digested. *)
Theorem fullKYC_nullifier_is_stable_and_binding
    (newDate newDate' : string -> JSDate)
    (nowAge nowDoc nowAge' nowDoc' : DateFields.t) (nowMs nowMs' : Z)
    (kycData kycData' : KYCData.t) (userAddress userAddress' : string)
    (options options' : Options.t) :
  let nullifier :=
    ZKProof.nullifierHash
      (generateFullKYCProof newDate nowAge nowDoc nowMs kycData
         userAddress options) in
  let nullifier' :=
    ZKProof.nullifierHash
      (generateFullKYCProof newDate' nowAge' nowDoc' nowMs' kycData'
         userAddress' options') in
  nullifier = generateNullifierHash (documentKey kycData) userAddress
  /\ (KYCData.documentType kycData = KYCData.documentType kycData' ->
      KYCData.documentNumber kycData = KYCData.documentNumber kycData' ->
      userAddress = userAddress' ->
      nullifier = nullifier')
  /\ (KYCData.documentType kycData = KYCData.documentType kycData' ->
      KYCData.documentNumber kycData <> KYCData.documentNumber kycData'
      \/ userAddress <> userAddress' ->
      ~ collide (KYCData.documentNumber kycData)
                (KYCData.documentNumber kycData') ->
      ~ collide (nullifierInput (documentKey kycData) userAddress)
                (nullifierInput (documentKey kycData') userAddress') ->
      nullifier <> nullifier').
Proof.
  cbv zeta. unfold generateFullKYCProof. cbn [ZKProof.nullifierHash].
  fold (documentKey kycData). fold (documentKey kycData').
  split; [reflexivity|]. split.
  - intros Ht Hn Ha. unfold documentKey. now rewrite Ht, Hn, Ha.
  - intros Ht Hd NC1 NC2 E.
    unfold generateNullifierHash in E.
    fold (nullifierInput (documentKey kycData) userAddress) in E.
    fold (nullifierInput (documentKey kycData') userAddress') in E.
    destruct (string_dec (nullifierInput (documentKey kycData) userAddress)
                (nullifierInput (documentKey kycData') userAddress'))
      as [I | I]; [|apply NC2; split; assumption].
    unfold documentKey in I. rewrite <- Ht in I.
    apply nullifierInput_injective in I;
      [|now rewrite !hashData_length].
    destruct I as [Hh Ha].
    destruct (string_dec (KYCData.documentNumber kycData)
                (KYCData.documentNumber kycData')) as [N | N].
    + destruct Hd as [Hd | Hd]; contradiction.
    + apply NC1. split; assumption.
Qed.

(** ** Concrete runs, in the UTC runtime *)


(** The end-to-end scenario of the specification. *)
Example scenario_canada :
  ZKProof.publicSignals
    (generateFullKYCProof UTC.newDate Sample.today Sample.today
       (DateFields.time Sample.today) Sample.record Sample.subject
       Sample.allowList)
  = ["1"; "1"; "1"; "1"; "18"].
Proof. vm_compute. reflexivity. Qed.

Example scenario_germany :
  ZKProof.publicSignals
    (generateFullKYCProof UTC.newDate Sample.today Sample.today
       (DateFields.time Sample.today) Sample.german Sample.subject
       Sample.allowList)
  = ["0"; "1"; "1"; "0"; "18"].
Proof. vm_compute. reflexivity. Qed.

(** With an empty allow-list the nationality signal is "1", though the
    nationality is not a member of the list. *)
Lemma empty_allow_list_is_no_restriction :
  nth_error
    (ZKProof.publicSignals
       (generateFullKYCProof UTC.newDate Sample.today Sample.today
          (DateFields.time Sample.today) Sample.german Sample.subject
          Sample.emptyAllowList)) 3
  <> Some (signal (includes [] (KYCData.nationality Sample.german))).
Proof. vm_compute. discriminate. Qed.

Lemma fullKYC_nullifier_is_stable_and_binding_witness :
  ZKProof.nullifierHash
    (generateFullKYCProof UTC.newDate Sample.today Sample.today 0
       Sample.record Sample.subject Sample.allowList)
  = ZKProof.nullifierHash
      (generateFullKYCProof UTC.newDate (UTC.at_ (2025, 0, 15) 0)
         (UTC.at_ (2025, 0, 15) 7) 99 Sample.german Sample.subject
         Sample.emptyAllowList)
  /\ ZKProof.nullifierHash
       (generateFullKYCProof UTC.newDate Sample.today Sample.today 0
          Sample.record Sample.subject Sample.allowList)
     <> ZKProof.nullifierHash
          (generateFullKYCProof UTC.newDate Sample.today Sample.today 0
             Sample.otherDocument Sample.subject Sample.allowList).
Proof.
  split.
  - apply (fullKYC_nullifier_is_stable_and_binding UTC.newDate UTC.newDate
             Sample.today Sample.today
             (UTC.at_ (2025, 0, 15) 0) (UTC.at_ (2025, 0, 15) 7) 0 99
             Sample.record Sample.german Sample.subject Sample.subject
             Sample.allowList Sample.emptyAllowList); reflexivity.
  - apply (fullKYC_nullifier_is_stable_and_binding UTC.newDate UTC.newDate
             Sample.today Sample.today Sample.today Sample.today 0 0
             Sample.record Sample.otherDocument Sample.subject Sample.subject
             Sample.allowList Sample.allowList).
    + reflexivity.
    + left. discriminate.
    + intros [_ H]. vm_compute in H. discriminate.
    + intros [_ H]. vm_compute in H. discriminate.
Defined.

Lemma generated_proofs_pass_format_witness :
  ZKVerificationResult.publicOutputs
    (verifyZKProof
       (generateFullKYCProof UTC.newDate Sample.today Sample.today 0
          Sample.record Sample.subject Sample.allowList) full_kyc)
  = ZKProof.publicSignals
      (generateFullKYCProof UTC.newDate Sample.today Sample.today 0
         Sample.record Sample.subject Sample.allowList).
Proof.
  apply (generated_proofs_pass_format UTC.newDate
           (generateFullKYCProof UTC.newDate Sample.today Sample.today 0
              Sample.record Sample.subject Sample.allowList) full_kyc).
  apply generated_full.
Defined.





(** ** Network profiles *)

(** The earlier [getNetworkConfig] returns, for each of the two chain ids
    that have a profile, the profile of that chain id, and the Sepolia
    profile for any other. *)
Lemma Rev1_getNetworkConfig_by_chainId (chainId : Z) :
  (chainId = 42161 \/ chainId = 421614 ->
   NetworkConfig.chainId (Rev1.getNetworkConfig chainId) = chainId)
  /\ (chainId <> 42161 -> chainId <> 421614 ->
      Rev1.getNetworkConfig chainId = ARBITRUM_SEPOLIA_CONFIG).
Proof.
  unfold Rev1.getNetworkConfig. split.
  - intros [-> | ->]; reflexivity.
  - intros H _. apply Z.eqb_neq in H. now rewrite H.
Qed.

(** C9, on the later [getNetworkConfig]: the two chain ids are exchanged.
    The Arbitrum Sepolia chain id gets the mainnet profile, and the
    Arbitrum mainnet chain id falls to the default, the Sepolia profile; in
    both cases the profile's chain id is not the argument. *)
Theorem Rev2_getNetworkConfig_exchanges_profiles :
  Rev2.getNetworkConfig 421614 = ARBITRUM_MAINNET_CONFIG
  /\ NetworkConfig.chainId (Rev2.getNetworkConfig 421614) <> 421614
  /\ Rev2.getNetworkConfig 42161 = ARBITRUM_SEPOLIA_CONFIG
  /\ NetworkConfig.chainId (Rev2.getNetworkConfig 42161) <> 42161.
Proof. repeat split; discriminate. Qed.

(** ** The session state machine *)

#[local] Arguments hashData : simpl never.
#[local] Arguments generateFullKYCProof : simpl never.
#[local] Arguments verifyZKProof : simpl never.
#[local] Arguments createCommitment : simpl never.
#[local] Arguments intToString : simpl never.
#[local] Arguments hexOfBytes : simpl never.
#[local] Arguments truthy : simpl never.
#[local] Arguments strictEq : simpl never.
#[local] Arguments strIncludes : simpl never.
#[local] Arguments sliceFirst : simpl never.
#[local] Arguments sliceLast : simpl never.
#[local] Arguments documentTypeString : simpl never.
#[local] Arguments isDocumentValid : simpl never.
#[local] Arguments isAdult : simpl never.
#[local] Arguments Rev2.dataToProtectJSON : simpl never.
#[local] Arguments IEXEC_KYC_APP_ADDRESS : simpl never.
#[local] Arguments String.append : simpl never.

#[local] Arguments simulateVerification : simpl never.
#[local] Arguments Rev2.remoteVerification : simpl never.

Lemma silent_ret {A : Type} (a : A) : silent (ret a).
Proof. intros b. split; reflexivity. Qed.

Lemma silent_throw {A : Type} (e : Thrown) : silent (@throw Browser.t A e).
Proof. intros b. split; reflexivity. Qed.

Lemma silent_throwError {A : Type} (m : string) :
  silent (@throwError Browser.t A m).
Proof. apply silent_throw. Qed.

Lemma silent_lift {A : Type} (o : Outcome A) : silent (@lift Browser.t A o).
Proof. intros b. split; reflexivity. Qed.

Lemma silent_bind {A B : Type} (c : BM A) (k : A -> BM B) :
  silent c -> (forall a, silent (k a)) -> silent (bind c k).
Proof.
  intros Hc Hk b. unfold bind. specialize (Hc b).
  destruct (c b) as [[a | e] b']; cbn [snd] in *.
  - destruct Hc as [H3 H4]. destruct (Hk a b') as [H1 H2].
    split; congruence.
  - exact Hc.
Qed.

Lemma silent_tryCatch {A : Type} (c : BM A) (h : Thrown -> BM A) :
  silent c -> (forall e, silent (h e)) -> silent (tryCatch c h).
Proof.
  intros Hc Hh b. unfold tryCatch. specialize (Hc b).
  destruct (c b) as [[a | e] b']; cbn [snd] in *.
  - exact Hc.
  - destruct Hc as [H3 H4]. destruct (Hh e b') as [H1 H2].
    split; congruence.
Qed.

Lemma silent_enter (c : Call) : silent (enter c).
Proof. intros b. split; reflexivity. Qed.

Lemma silent_external {A : Type} (c : Call) (o : list Call -> Outcome A) :
  silent (external c o).
Proof. intros b. split; reflexivity. Qed.

Lemma silent_consult {A : Type} (o : list Call -> Outcome A) :
  silent (consult o).
Proof. intros b. split; reflexivity. Qed.

Lemma silent_logged : silent logged.
Proof. intros b. split; reflexivity. Qed.

Lemma silent_readClock (w : World.t) : silent (readClock w).
Proof. intros b. split; reflexivity. Qed.

Lemma silent_dateNow (w : World.t) : silent (dateNow w).
Proof.
  apply silent_bind; [apply silent_readClock | intros; apply silent_ret].
Qed.

Create HintDb silent.
#[local] Hint Resolve silent_ret silent_throw silent_throwError silent_lift
  silent_enter silent_external silent_consult silent_logged silent_readClock
  silent_dateNow : silent.

(** Silence of a composed computation, by its structure. *)
Ltac silence :=
  repeat first
    [ progress intros
    | progress cbv beta zeta
    | solve [auto with silent]
    | match goal with
      | |- silent (bind _ _) => apply silent_bind
      | |- silent (tryCatch _ _) => apply silent_tryCatch
      | |- silent (if ?c then _ else _) => destruct c
      | |- silent (match ?x with _ => _ end) => destruct x
      end ].

Lemma silent_generateFullKYCProofM newDate w kycData userAddress options :
  silent (generateFullKYCProofM newDate w kycData userAddress options).
Proof. unfold generateFullKYCProofM. silence. Qed.

Lemma silent_simulateVerification newDate w kycData userAddress :
  silent (simulateVerification newDate w kycData userAddress).
Proof. unfold simulateVerification. silence. Qed.

Lemma silent_generateMockTransactionHash w :
  silent (generateMockTransactionHash w).
Proof. unfold generateMockTransactionHash. silence. Qed.

Lemma silent_providerRequest w provider :
  silent (Rev2.providerRequest w provider).
Proof. unfold Rev2.providerRequest. silence. Qed.

Lemma silent_initializeDataProtector w provider isTestnet :
  silent (Rev2.initializeDataProtector w provider isTestnet).
Proof.
  unfold Rev2.initializeDataProtector.
  pose proof (silent_providerRequest w provider). silence.
Qed.

Lemma silent_protectKYCData w dataProtector kycData userAddress :
  silent (Rev2.protectKYCData w dataProtector kycData userAddress).
Proof. unfold Rev2.protectKYCData. silence. Qed.

Lemma silent_grantVerificationAccess w dataProtector protectedData userAddress :
  silent (Rev2.grantVerificationAccess w dataProtector protectedData
            userAddress).
Proof. unfold Rev2.grantVerificationAccess. silence. Qed.

Lemma silent_executeVerificationTask w dataProtector protectedData isTestnet :
  silent (Rev2.executeVerificationTask w dataProtector protectedData
            isTestnet).
Proof. unfold Rev2.executeVerificationTask. silence. Qed.

#[local] Hint Resolve silent_providerRequest silent_initializeDataProtector
  silent_protectKYCData silent_grantVerificationAccess
  silent_executeVerificationTask silent_simulateVerification
  silent_generateMockTransactionHash silent_generateFullKYCProofM : silent.

Lemma silent_remoteVerification w provider chainId kycData userAddress :
  silent (Rev2.remoteVerification w provider chainId kycData userAddress).
Proof. unfold Rev2.remoteVerification. silence. Qed.

(** The verification step of the later hook, remote or simulated. *)
Lemma silent_verification newDate w provider chainId kycData address :
  silent (Rev2.verification newDate w provider chainId kycData address).
Proof.
  unfold Rev2.verification.
  destruct provider; [apply silent_remoteVerification | silence].
Qed.

(** ** The store, field by field *)

Lemma session_render n b : Browser.session (render n b) = n.
Proof. reflexivity. Qed.
Lemma renders_render n b :
  Browser.renders (render n b) = (Browser.renders b ++ [n])%list.
Proof. reflexivity. Qed.
Lemma calls_render n b : Browser.calls (render n b) = Browser.calls b.
Proof. reflexivity. Qed.
Lemma ticks_render n b : Browser.ticks (render n b) = Browser.ticks b.
Proof. reflexivity. Qed.
Lemma session_logCall c b : Browser.session (logCall c b) = Browser.session b.
Proof. reflexivity. Qed.
Lemma renders_logCall c b : Browser.renders (logCall c b) = Browser.renders b.
Proof. reflexivity. Qed.
Lemma calls_logCall c b :
  Browser.calls (logCall c b) = (Browser.calls b ++ [c])%list.
Proof. reflexivity. Qed.
Lemma ticks_logCall c b : Browser.ticks (logCall c b) = Browser.ticks b.
Proof. reflexivity. Qed.
Lemma session_tick b : Browser.session (tick b) = Browser.session b.
Proof. reflexivity. Qed.
Lemma renders_tick b : Browser.renders (tick b) = Browser.renders b.
Proof. reflexivity. Qed.
Lemma calls_tick b : Browser.calls (tick b) = Browser.calls b.
Proof. reflexivity. Qed.
Lemma ticks_tick b : Browser.ticks (tick b) = S (Browser.ticks b).
Proof. reflexivity. Qed.

Create Rewrite HintDb store.
#[local] Hint Rewrite session_render renders_render calls_render ticks_render
  session_logCall renders_logCall calls_logCall ticks_logCall
  session_tick renders_tick calls_tick ticks_tick : store.

#[local] Arguments render : simpl never.
#[local] Arguments logCall : simpl never.
#[local] Arguments tick : simpl never.
#[local] Arguments mergeUpdates : simpl never.

(** Following a run of the hook: unfold it, then split on the next outcome
    the world or the data decides; the verification step is taken whole,
    with what its silence says of the store it leaves. *)
Ltac unfold_hook :=
  unfold Rev1.startVerification, Rev2.startVerification, Rev2.verification,
    generateMockTransactionHash, generateFullKYCProofM, dateNow, readClock,
    tryCatch, bind, external, logged, ret, updateState, setState, modify.

Ltac split_path :=
  match goal with
  | |- context [match ?x with _ => _ end] =>
      lazymatch x with
      | context [match _ with _ => _ end] => fail
      | _ => destruct x eqn:?
      end
  end.

Ltac frame_by S H :=
  rewrite H in S; cbn [snd] in S; autorewrite with store in S;
  let Hs := fresh "Hs" in
  let Hr := fresh "Hr" in
  destruct S as [Hs Hr]; clear H.

Ltac use_silence :=
  repeat match goal with
  | H : Rev2.remoteVerification ?w ?p ?c ?k ?a ?s = (_, _) |- _ =>
      let S := fresh "S" in
      pose proof (silent_remoteVerification w p c k a s) as S;
      frame_by S H
  | H : simulateVerification ?n ?w ?k ?a ?s = (_, _) |- _ =>
      let S := fresh "S" in
      pose proof (silent_simulateVerification n w k a s) as S;
      frame_by S H
  end.

Ltac framed :=
  repeat match goal with
  | H : Browser.session ?b = _ |- context [Browser.session ?b] => rewrite H
  | H : Browser.renders ?b = _ |- context [Browser.renders ?b] => rewrite H
  end.

Ltac follow :=
  unfold_hook;
  repeat (cbn; autorewrite with store; split_path; use_silence; framed).

Ltac pick_before :=
  match goal with
  | |- exists before, (_ ++ ?l)%list = _ /\ _ =>
      exists (removelast l); cbn [removelast]; split; [reflexivity|]
  end.

(** At the end of a path: the result of the run, field by field. *)
Ltac conclude :=
  let R := fresh "R" in
  intros R; injection R as <- <-;
  repeat (autorewrite with store; framed);
  unfold mergeUpdates; cbn;
  repeat rewrite <- app_assoc; cbn [app].

(** Every run of the later [startVerification] returns, and leaves the
    session either completed, after the eight updates of the successful
    path, or failed, by an update that leaves the step index as it was. *)
Lemma Rev2_startVerification_runs
    (newDate : string -> JSDate) (w : World.t) (b0 : Browser.t)
    (userAddress : option string) (provider : option Provider.t)
    (chainId : option Z) (kycData : KYCData.t)
    (o : Outcome unit) (b1 : Browser.t) :
  Rev2.startVerification newDate w userAddress provider chainId kycData b0
  = (o, b1) ->
  o = Returned tt
  /\ exists before,
       Browser.renders b1
       = (Browser.renders b0 ++ before ++ [Browser.session b1])%list
       /\ Forall (fun s => KYCVerificationState.totalSteps s
                          = KYCVerificationState.totalSteps (Browser.session b0))
                 (before ++ [Browser.session b1])
       /\ ((KYCVerificationState.status (Browser.session b1) = completed
            /\ map phase (before ++ [Browser.session b1])
               = [ (encrypting, 2); (encrypting, 2); (computing, 3);
                   (computing, 3); (verifying, 4); (verifying, 4);
                   (submitting, 5); (completed, 6) ])
           \/ (KYCVerificationState.status (Browser.session b1) = failed
               /\ KYCVerificationState.currentStep (Browser.session b1)
                  = KYCVerificationState.currentStep
                      (last before (Browser.session b0))
               /\ (before = []
                   \/ In (phase (last before (Browser.session b0)))
                         [(encrypting, 2); (computing, 3); (verifying, 4)]))).
Proof.
  follow.
  all: conclude.
  all: split; [reflexivity|].
  all: pick_before.
  all: split; [repeat constructor|].
  all: first [ left; split; reflexivity
             | right; cbn; split; [reflexivity|]; split; [reflexivity|];
               first [ left; reflexivity | right; cbn; tauto ] ].
Qed.

#[local] Arguments Rev2.verification : simpl never.

(** The outcome of a run of the later [startVerification] with a wallet
    address, by the step that fails. *)
Lemma Rev2_startVerification_by_step
    (newDate : string -> JSDate) (w : World.t) (b0 : Browser.t)
    (address : string) (provider : option Provider.t) (chainId : option Z)
    (kycData : KYCData.t) :
  truthy address = true ->
  let b1 :=
    snd (Rev2.startVerification newDate w (Some address) provider chainId
           kycData b0) in
  match World.encryptForTEE w kycData (Browser.calls b0) with
  | Threw e => phase (Browser.session b1) = (failed, 2)
  | Returned encrypted =>
      if ZKVerificationResult.isValid
           (verifyZKProof
              (localProof newDate w (Browser.ticks b0) kycData address)
              full_kyc)
      then
        match
          fst (Rev2.verification newDate w provider chainId kycData address
                 (beforeVerification newDate w b0 kycData address encrypted))
        with
        | Threw e => phase (Browser.session b1) = (failed, 4)
        | Returned result =>
            if VerificationResult.isValid result
            then phase (Browser.session b1) = (completed, 6)
            else phase (Browser.session b1) = (failed, 4)
        end
      else phase (Browser.session b1) = (failed, 3)
  end.
Proof.
  intros T. cbv zeta.
  unfold Rev2.startVerification, generateMockTransactionHash,
    generateFullKYCProofM, dateNow, readClock, tryCatch, bind, external,
    logged, ret, updateState, setState, modify.
  rewrite T. cbn. autorewrite with store.
  destruct (World.encryptForTEE w kycData (Browser.calls b0))
    as [encrypted | e] eqn:E; cbn; autorewrite with store.
  2:{ unfold mergeUpdates. cbn. reflexivity. }
  fold (localProof newDate w (Browser.ticks b0) kycData address).
  destruct (ZKVerificationResult.isValid _) eqn:V; cbn; autorewrite with store.
  2:{ unfold mergeUpdates. cbn. reflexivity. }
  repeat match goal with
  | |- context [Rev2.verification _ _ _ _ _ _ ?s] =>
      lazymatch s with
      | beforeVerification _ _ _ _ _ _ => fail
      | _ =>
          replace s
            with (beforeVerification newDate w b0 kycData address encrypted)
            by (unfold beforeVerification, mergeUpdates, render, tick, logCall;
                cbn; repeat rewrite <- app_assoc; reflexivity)
      end
  end.
  pose proof (silent_verification newDate w provider chainId kycData address
                (beforeVerification newDate w b0 kycData address encrypted))
    as [Ss _].
  destruct (Rev2.verification newDate w provider chainId kycData address
              (beforeVerification newDate w b0 kycData address encrypted))
    as [[result | e] bv]; cbn [fst snd] in *.
  - destruct (VerificationResult.isValid result); cbn;
      autorewrite with store; rewrite ?Ss; unfold mergeUpdates; cbn;
      reflexivity.
  - cbn. autorewrite with store. rewrite Ss. unfold mergeUpdates. cbn.
    reflexivity.
Qed.

Lemma reset_gives_initialState (b : Browser.t) :
  fst (reset b) = Returned tt
  /\ Browser.session (snd (reset b)) = initialState.
Proof. split; reflexivity. Qed.

(** C7. In a run of [startVerification] that starts from the idle state
    and completes, the states produced have the step indices 2, 2, 3, 3, 4,
    4, 5, 6 with the statuses encrypting, computing, verifying, submitting
    and completed: the index visits 2, 3, 4, 5, 6 in this order, each below
    the 7 steps of the step list. In a run that fails, from any state, the
    failing update leaves the step index as the state before it had it.
    Every run ends completed or failed. And [reset] returns the session to
    idle, step 0, with every artifact and the error null. A step that fails
    makes the session failed at the index of that step: with a wallet
    address, the run ends failed at 2 when the encryption throws, failed
    at 3 when the local proof does not pass its verification, failed at 4
    when the verification step throws or returns a result that is not
    valid, and completed at 6 otherwise; without a wallet address it ends
    failed at the index it started from. *)
Theorem session_steps_advance_and_freeze
    (newDate : string -> JSDate) (w : World.t) (b0 : Browser.t)
    (userAddress : option string) (provider : option Provider.t)
    (chainId : option Z) (kycData : KYCData.t) :
  let b1 :=
    snd (Rev2.startVerification newDate w userAddress provider chainId
           kycData b0) in
  (Browser.session b0 = initialState ->
   KYCVerificationState.status (Browser.session b1) = completed ->
   exists produced,
     Browser.renders b1 = (Browser.renders b0 ++ produced)%list
     /\ map phase produced
        = [ (encrypting, 2); (encrypting, 2); (computing, 3); (computing, 3);
            (verifying, 4); (verifying, 4); (submitting, 5); (completed, 6) ]
     /\ changes 0 (map KYCVerificationState.currentStep produced)
        = [2; 3; 4; 5; 6]
     /\ Forall (fun s =>
                  KYCVerificationState.totalSteps s
                  = Z.of_nat (List.length VERIFICATION_STEPS)
                  /\ KYCVerificationState.totalSteps s = 7
                  /\ 0 <= KYCVerificationState.currentStep s
                     < KYCVerificationState.totalSteps s) produced)
  /\ (KYCVerificationState.status (Browser.session b1) = failed ->
      exists before,
        Browser.renders b1
        = (Browser.renders b0 ++ before ++ [Browser.session b1])%list
        /\ KYCVerificationState.currentStep (Browser.session b1)
           = KYCVerificationState.currentStep
               (last before (Browser.session b0)))
  /\ (KYCVerificationState.status (Browser.session b1) = completed
      \/ KYCVerificationState.status (Browser.session b1) = failed)
  /\ (let s := Browser.session (snd (reset b1)) in
      KYCVerificationState.status s = idle
      /\ KYCVerificationState.currentStep s = 0
      /\ KYCVerificationState.protectedData s = None
      /\ KYCVerificationState.zkProof s = None
      /\ KYCVerificationState.verificationResult s = None
      /\ KYCVerificationState.transactionHash s = None
      /\ KYCVerificationState.error s = None)
  /\ (forall address,
        userAddress = Some address -> truthy address = true ->
        match World.encryptForTEE w kycData (Browser.calls b0) with
        | Threw e => phase (Browser.session b1) = (failed, 2)
        | Returned encrypted =>
            if ZKVerificationResult.isValid
                 (verifyZKProof
                    (localProof newDate w (Browser.ticks b0) kycData address)
                    full_kyc)
            then
              match
                fst (Rev2.verification newDate w provider chainId kycData
                       address
                       (beforeVerification newDate w b0 kycData address
                          encrypted))
              with
              | Threw e => phase (Browser.session b1) = (failed, 4)
              | Returned result =>
                  if VerificationResult.isValid result
                  then phase (Browser.session b1) = (completed, 6)
                  else phase (Browser.session b1) = (failed, 4)
              end
            else phase (Browser.session b1) = (failed, 3)
        end)
  /\ (userAddress = None \/ userAddress = Some "" ->
      phase (Browser.session b1)
      = (failed, KYCVerificationState.currentStep (Browser.session b0))).
Proof.
  cbv zeta.
  pose proof (Rev2_startVerification_by_step newDate w b0) as Steps.
  cbv zeta in Steps.
  destruct (Rev2.startVerification newDate w userAddress provider chainId
              kycData b0) as [o b1] eqn:Run.
  destruct (Rev2_startVerification_runs _ _ _ _ _ _ _ _ _ Run)
    as [_ [before [R [T H]]]].
  cbn [snd].
  split; [|split; [|split; [|split; [|split]]]].
  5:{ intros address -> Ta.
      specialize (Steps address provider chainId kycData Ta).
      rewrite Run in Steps. exact Steps. }
  5:{ intros U. clear Steps.
      assert (E : (o, b1)
                  = updateState
                      [ErrorIs "Please connect your wallet first";
                       Status failed] b0).
      { rewrite <- Run. destruct U as [-> | ->]; reflexivity. }
      injection E as _ ->. reflexivity. }
  - intros I C. destruct H as [[_ P] | [F _]]; [|congruence].
    exists (before ++ [Browser.session b1])%list.
    split; [exact R|]. split; [exact P|]. split.
    + assert (E : map KYCVerificationState.currentStep
                    (before ++ [Browser.session b1])
                  = map snd [ (encrypting, 2); (encrypting, 2);
                              (computing, 3); (computing, 3); (verifying, 4);
                              (verifying, 4); (submitting, 5); (completed, 6) ]).
      { rewrite <- P, map_map. reflexivity. }
      rewrite E. reflexivity.
    + rewrite I in T. cbn in T.
      assert (S : Forall (fun s => In (phase s)
                    [ (encrypting, 2); (encrypting, 2); (computing, 3);
                      (computing, 3); (verifying, 4); (verifying, 4);
                      (submitting, 5); (completed, 6) ])
                    (before ++ [Browser.session b1])).
      { rewrite <- P. apply Forall_forall. intros s Hs.
        now apply in_map. }
      rewrite Forall_forall in T, S. apply Forall_forall. intros s Hs.
      specialize (T s Hs). specialize (S s Hs). rewrite T.
      split; [reflexivity|]. split; [reflexivity|].
      unfold phase in S. cbn in S.
      repeat (destruct S as [S | S]; [injection S as _ S; lia|]).
      contradiction.
  - intros F. destruct H as [[C _] | [_ [S _]]]; [congruence|].
    exists before. split; assumption.
  - destruct H as [[C _] | [F _]]; auto.
  - repeat split.
Qed.

(** C6. In a run of [startVerification], of either revision, that reaches
    the generation of the proof and whose proof fails the local
    verification, the run returns with the session failed at step 3 with
    the error message of the local check; the verification result, the
    transaction hash and the proof of the session are what they were
    before the run, null from the initial state; and the only call made is
    the encryption: nothing of the iExec client, and not the simulation, is
    called. *)
Theorem local_failure_stops_before_remote
    (newDate : string -> JSDate) (w : World.t) (b0 : Browser.t)
    (address : string) (provider : option Provider.t) (chainId : option Z)
    (kycData : KYCData.t) (encrypted : string) :
  truthy address = true ->
  World.encryptForTEE w kycData (Browser.calls b0) = Returned encrypted ->
  ZKVerificationResult.isValid
    (verifyZKProof
       (localProof newDate w (Browser.ticks b0) kycData address) full_kyc)
  = false ->
  forall r,
    r = Rev2.startVerification newDate w (Some address) provider chainId
          kycData b0
    \/ r = Rev1.startVerification newDate w (Some address) kycData b0 ->
    fst r = Returned tt
    /\ phase (Browser.session (snd r)) = (failed, 3)
    /\ KYCVerificationState.error (Browser.session (snd r))
       = Some "ZK proof verification failed. Please check your information."
    /\ KYCVerificationState.verificationResult (Browser.session (snd r))
       = KYCVerificationState.verificationResult (Browser.session b0)
    /\ KYCVerificationState.transactionHash (Browser.session (snd r))
       = KYCVerificationState.transactionHash (Browser.session b0)
    /\ KYCVerificationState.zkProof (Browser.session (snd r))
       = KYCVerificationState.zkProof (Browser.session b0)
    /\ Browser.calls (snd r)
       = (Browser.calls b0 ++ [Call_encryptForTEE])%list.
Proof.
  intros T E V r Hr. unfold localProof in V.
  assert (G : r = (Returned tt,
    render
      (mergeUpdates
         (mergeUpdates
            (mergeUpdates
               (mergeUpdates (Browser.session b0)
                  [Status encrypting; CurrentStep 2])
               [ProtectedDataIs
                  (ProtectedData.mk address (createCommitment kycData)
                     (DateFields.time (World.clock w (Browser.ticks b0)))
                     (Some encrypted))])
            [Status computing; CurrentStep 3])
         [ErrorIs "ZK proof verification failed. Please check your information.";
          Status failed])
      (tick (tick (tick
        (render
           (mergeUpdates
              (mergeUpdates
                 (mergeUpdates (Browser.session b0)
                    [Status encrypting; CurrentStep 2])
                 [ProtectedDataIs
                    (ProtectedData.mk address (createCommitment kycData)
                       (DateFields.time (World.clock w (Browser.ticks b0)))
                       (Some encrypted))])
              [Status computing; CurrentStep 3])
           (render
              (mergeUpdates
                 (mergeUpdates (Browser.session b0)
                    [Status encrypting; CurrentStep 2])
                 [ProtectedDataIs
                    (ProtectedData.mk address (createCommitment kycData)
                       (DateFields.time (World.clock w (Browser.ticks b0)))
                       (Some encrypted))])
              (tick
                 (logCall Call_encryptForTEE
                    (render
                       (mergeUpdates (Browser.session b0)
                          [Status encrypting; CurrentStep 2])
                       b0)))))))))).
  { destruct Hr as [-> | ->]; unfold_hook; rewrite T; cbn;
      autorewrite with store; rewrite E; cbn; autorewrite with store;
      rewrite V; reflexivity. }
  rewrite G. cbn [fst snd]. autorewrite with store.
  unfold mergeUpdates. cbn. repeat split.
Qed.

(** ** Concrete sessions *)


Example adult_session_completes :
  map phase (Browser.renders SampleRun.adultRun)
  = [ (encrypting, 2); (encrypting, 2); (computing, 3); (computing, 3);
      (verifying, 4); (verifying, 4); (submitting, 5); (completed, 6) ]
  /\ Browser.calls SampleRun.adultRun
     = [ Call_encryptForTEE; Call_simulateVerification;
         Call_generateMockTransactionHash ].
Proof. vm_compute. split; reflexivity. Qed.

Lemma session_steps_advance_and_freeze_witness :
  (exists produced,
     Browser.renders SampleRun.adultRun
     = (Browser.renders SampleRun.fresh ++ produced)%list
     /\ map phase produced
        = [ (encrypting, 2); (encrypting, 2); (computing, 3); (computing, 3);
            (verifying, 4); (verifying, 4); (submitting, 5); (completed, 6) ]
     /\ changes 0 (map KYCVerificationState.currentStep produced)
        = [2; 3; 4; 5; 6]
     /\ Forall (fun s =>
                  KYCVerificationState.totalSteps s
                  = Z.of_nat (List.length VERIFICATION_STEPS)
                  /\ KYCVerificationState.totalSteps s = 7
                  /\ 0 <= KYCVerificationState.currentStep s
                     < KYCVerificationState.totalSteps s) produced)
  /\ (exists before,
        Browser.renders SampleRun.minorRun
        = (Browser.renders SampleRun.fresh ++ before
           ++ [Browser.session SampleRun.minorRun])%list
        /\ KYCVerificationState.currentStep
             (Browser.session SampleRun.minorRun)
           = KYCVerificationState.currentStep
               (last before (Browser.session SampleRun.fresh)))
  /\ phase
       (Browser.session
          (snd (Rev2.startVerification UTC.newDate SampleRun.world
                  (Some Sample.subject) (Some SessionNotions.wallet)
                  (Some 42161) Sample.record SampleRun.fresh)))
     = (failed, 4).
Proof.
  split; [|split].
  - pose proof (session_steps_advance_and_freeze UTC.newDate SampleRun.world
                  SampleRun.fresh (Some Sample.subject) None None
                  Sample.record) as S.
    cbv zeta in S. destruct S as [S _]. apply S.
    + reflexivity.
    + vm_compute. reflexivity.
  - pose proof (session_steps_advance_and_freeze UTC.newDate SampleRun.world
                  SampleRun.fresh (Some Sample.subject) None None
                  SampleRun.minor) as S.
    cbv zeta in S. destruct S as [_ [S _]]. apply S.
    vm_compute. reflexivity.
  - pose proof (session_steps_advance_and_freeze UTC.newDate SampleRun.world
                  SampleRun.fresh (Some Sample.subject)
                  (Some SessionNotions.wallet) (Some 42161) Sample.record)
      as S.
    cbv zeta in S. destruct S as [_ [_ [_ [_ [S _]]]]].
    specialize (S Sample.subject eq_refl eq_refl).
    vm_compute in S. vm_compute. exact S.
Defined.

Lemma local_failure_stops_before_remote_witness :
  phase (Browser.session SampleRun.minorRun) = (failed, 3)
  /\ Browser.calls SampleRun.minorRun = [Call_encryptForTEE]
  /\ KYCVerificationState.zkProof (Browser.session SampleRun.minorRun) = None.
Proof.
  destruct (local_failure_stops_before_remote UTC.newDate SampleRun.world
              SampleRun.fresh Sample.subject None None SampleRun.minor
              "ciphertext")
    with (r := Rev2.startVerification UTC.newDate SampleRun.world
                 (Some Sample.subject) None None SampleRun.minor
                 SampleRun.fresh)
    as [_ [P [_ [_ [_ [Z C]]]]]].
  - reflexivity.
  - reflexivity.
  - vm_compute. reflexivity.
  - left. reflexivity.
  - split; [exact P|]. split; [exact C | exact Z].
Defined.

(** ** The worker *)

Module WorkerFacts.

Import Worker WorkerNotions.

Section Preservation.

Context {X : Type} (f : Store.t -> X).

Lemma preserves_ret {A : Type} (a : A) : preserves f (ret a).
Proof. intros s. reflexivity. Qed.

Lemma preserves_gets {A : Type} (g : Store.t -> A) : preserves f (gets g).
Proof. intros s. reflexivity. Qed.

Lemma preserves_bind {A B : Type} (c : WM A) (k : A -> WM B) :
  preserves f c -> (forall a, preserves f (k a)) -> preserves f (bind c k).
Proof.
  intros Hc Hk s. unfold bind. specialize (Hc s).
  destruct (c s) as [[a | e] s']; cbn [snd] in *.
  - now rewrite Hk.
  - exact Hc.
Qed.

Lemma preserves_tryCatch {A : Type} (c : WM A) (h : Thrown -> WM A) :
  preserves f c -> (forall e, preserves f (h e)) ->
  preserves f (tryCatch c h).
Proof.
  intros Hc Hh s. unfold tryCatch. specialize (Hc s).
  destruct (c s) as [[a | e] s']; cbn [snd] in *.
  - exact Hc.
  - now rewrite Hh.
Qed.

Lemma preserves_tryFinally {A : Type} (c : WM A) (final : WM unit) :
  preserves f c -> preserves f final -> preserves f (tryFinally c final).
Proof.
  intros Hc Hf s. unfold tryFinally. specialize (Hc s).
  destruct (c s) as [r s']. specialize (Hf s').
  destruct (final s') as [[u | e] s'']; cbn [snd] in *; congruence.
Qed.

Lemma preserves_forEach {A : Type} (l : list A) (body : A -> WM unit) :
  (forall a, preserves f (body a)) -> preserves f (forEach l body).
Proof.
  intros Hb. induction l as [|x l IH]; cbn [forEach].
  - apply preserves_ret.
  - apply preserves_bind; [apply Hb | intros _; exact IH].
Qed.

(** What follows a computation does not change the observation. *)
Lemma preserved_after_bind {A B : Type} (c : WM A) (k : A -> WM B) s :
  (forall a, preserves f (k a)) -> f (snd (bind c k s)) = f (snd (c s)).
Proof.
  intros Hk. unfold bind.
  destruct (c s) as [[a | e] s']; cbn [snd]; [apply Hk | reflexivity].
Qed.

Lemma preserved_after_tryCatch {A : Type} (c : WM A) (h : Thrown -> WM A) s :
  (forall e, preserves f (h e)) -> f (snd (tryCatch c h s)) = f (snd (c s)).
Proof.
  intros Hh. unfold tryCatch.
  destruct (c s) as [[a | e] s']; cbn [snd]; [reflexivity | apply Hh].
Qed.

Lemma preserved_after_tryFinally {A : Type} (c : WM A) (final : WM unit) s :
  preserves f final -> f (snd (tryFinally c final s)) = f (snd (c s)).
Proof.
  intros Hf. unfold tryFinally. destruct (c s) as [r s'].
  specialize (Hf s').
  destruct (final s') as [[u | e] s'']; cbn [snd] in *; exact Hf.
Qed.

End Preservation.

Section Facts.

Variable env : Env.t.

Lemma reportPath_is_not_descriptor : reportPath env <> computedPath env.
Proof.
  unfold reportPath, computedPath. intros H.
  apply append_inv_head in H. discriminate.
Qed.

Lemma processed_is_not_descriptor (name : string) :
  (orUndefined (Env.IEXEC_OUT env) ++ "/processed_" ++ name)%string
  <> computedPath env.
Proof.
  unfold computedPath. intros H.
  apply append_inv_head in H. discriminate.
Qed.

Lemma descriptorWrites_record o s :
  descriptorWrites env (record o s)
  = (descriptorWrites env s ++ if isDescriptorWrite env o then [o] else [])%list.
Proof.
  unfold descriptorWrites, record. cbn [Store.ops].
  rewrite filter_app. cbn [filter].
  destruct (isDescriptorWrite env o); reflexivity.
Qed.

Lemma descriptorWrites_store p c s :
  descriptorWrites env (store p c s) = descriptorWrites env s.
Proof. reflexivity. Qed.

Lemma descriptorFiles_record o s :
  descriptorFiles env (record o s) = descriptorFiles env s.
Proof. reflexivity. Qed.

Lemma descriptorFiles_store p c s :
  descriptorFiles env (store p c s)
  = (descriptorFiles env s
     ++ if String.eqb p (computedPath env) then [(p, c)] else [])%list.
Proof.
  unfold descriptorFiles, store. cbn [Store.disk].
  rewrite filter_app. cbn [filter]. unfold isDescriptorFile at 2.
  cbn [fst]. destruct (String.eqb p _); reflexivity.
Qed.

Lemma quiet_deserialize i : quiet env (deserialize env i).
Proof.
  split; intros s; unfold deserialize; cbn [snd].
  - rewrite descriptorWrites_record. apply app_nil_r.
  - apply descriptorFiles_record.
Qed.

Lemma quiet_readFile p : quiet env (readFile env p).
Proof.
  split; intros s; unfold readFile; cbn [snd].
  - rewrite descriptorWrites_record. apply app_nil_r.
  - apply descriptorFiles_record.
Qed.

Lemma quiet_copyFile source destination :
  destination <> computedPath env ->
  quiet env (copyFile env source destination).
Proof.
  intros N. apply String.eqb_neq in N.
  split; intros s; unfold copyFile;
    destruct (Env.copyRefused env source destination); cbn [snd];
    rewrite ?descriptorWrites_store, ?descriptorFiles_store,
      ?descriptorWrites_record, ?descriptorFiles_record, ?N;
    cbn [isDescriptorWrite]; rewrite ?app_nil_r; reflexivity.
Qed.

Lemma quiet_writeFile p c :
  p <> computedPath env -> quiet env (writeFile env p c).
Proof.
  intros N. apply String.eqb_neq in N.
  split; intros s; unfold writeFile;
    destruct (Env.writeRefused env p (Store.ops s)); cbn [snd];
    rewrite ?descriptorWrites_store, ?descriptorFiles_store,
      ?descriptorWrites_record, ?descriptorFiles_record;
    cbn [isDescriptorWrite]; rewrite ?N, ?app_nil_r; reflexivity.
Qed.

Lemma quiet_bind {A B : Type} (c : WM A) (k : A -> WM B) :
  quiet env c -> (forall a, quiet env (k a)) -> quiet env (bind c k).
Proof.
  intros [H1 H2] Hk.
  split; apply preserves_bind; try assumption; intros a; apply Hk.
Qed.

Lemma quiet_tryCatch {A : Type} (c : WM A) (h : Thrown -> WM A) :
  quiet env c -> (forall e, quiet env (h e)) -> quiet env (tryCatch c h).
Proof.
  intros [H1 H2] Hh.
  split; apply preserves_tryCatch; try assumption; intros e; apply Hh.
Qed.

Lemma quiet_forEach {A : Type} (l : list A) (body : A -> WM unit) :
  (forall a, quiet env (body a)) -> quiet env (forEach l body).
Proof.
  intros Hb. split; apply preserves_forEach; intros a; apply Hb.
Qed.

Lemma quiet_pure {A : Type} (c : WM A) :
  (forall s, Store.ops (snd (c s)) = Store.ops s) ->
  (forall s, Store.disk (snd (c s)) = Store.disk s) ->
  quiet env c.
Proof.
  intros Ho Hd. split; intros s.
  - unfold descriptorWrites. now rewrite Ho.
  - unfold descriptorFiles. now rewrite Hd.
Qed.

Lemma quiet_ret {A : Type} (a : A) : quiet env (@ret Store.t A a).
Proof. apply quiet_pure; reflexivity. Qed.
Lemma quiet_gets {A : Type} (g : Store.t -> A) : quiet env (gets g).
Proof. apply quiet_pure; reflexivity. Qed.
Lemma quiet_isoNow : quiet env (isoNow env).
Proof. apply quiet_pure; reflexivity. Qed.
Lemma quiet_pushResult r : quiet env (pushResult r).
Proof. apply quiet_pure; reflexivity. Qed.
Lemma quiet_pushHash h : quiet env (pushHash h).
Proof. apply quiet_pure; reflexivity. Qed.
Lemma quiet_setComputed c : quiet env (setComputed c).
Proof. apply quiet_pure; reflexivity. Qed.

Lemma quiet_processDocument i : quiet env (processDocument env i).
Proof.
  unfold processDocument. apply quiet_tryCatch.
  - apply quiet_bind; [apply quiet_deserialize|].
    intros [[documentData documentType] userId].
    apply quiet_bind; [apply quiet_isoNow|]. intros timestamp.
    apply quiet_bind; [apply quiet_pushResult|]. intros _.
    apply quiet_pushHash.
  - intros e. apply quiet_bind; [apply quiet_isoNow|].
    intros timestamp. apply quiet_pushResult.
Qed.

Lemma quiet_processInputFile i : quiet env (processInputFile env i).
Proof.
  unfold processInputFile. cbv zeta.
  apply quiet_bind; [apply quiet_readFile|]. intros fileData.
  apply quiet_bind;
    [apply quiet_copyFile, processed_is_not_descriptor|].
  intros _. apply quiet_pushHash.
Qed.

Lemma quiet_mainBody : quiet env (mainBody env).
Proof.
  unfold mainBody.
  apply quiet_bind.
  { destruct (num_gtb _ _);
      [apply quiet_forEach, quiet_processDocument | apply quiet_ret]. }
  intros _. apply quiet_bind;
    [apply quiet_forEach, quiet_processInputFile|].
  intros _. apply quiet_bind; [apply quiet_gets|]. intros results.
  apply quiet_bind; [apply quiet_gets|]. intros hashes.
  apply quiet_bind; [apply quiet_isoNow|]. intros processedAt.
  apply quiet_bind;
    [apply quiet_writeFile, reportPath_is_not_descriptor|].
  intros _. apply quiet_setComputed.
Qed.

Lemma quiet_attempt : quiet env (attempt env).
Proof.
  apply quiet_tryCatch; [apply quiet_mainBody|].
  intros e. apply quiet_setComputed.
Qed.

Lemma bind_returned {A B : Type} (c : WM A) (k : A -> WM B) s b s' :
  bind c k s = (Returned b, s') ->
  exists a s0, c s = (Returned a, s0) /\ k a s0 = (Returned b, s').
Proof.
  unfold bind. destruct (c s) as [[a | e] s0]; intros H.
  - exists a, s0. auto.
  - discriminate.
Qed.

Lemma mainBody_sets_descriptor s u s' :
  mainBody env s = (Returned u, s') ->
  Store.computedJsonObj s' = Computed.mk (Some (reportPath env)) None.
Proof.
  unfold mainBody. intros H.
  repeat (apply bind_returned in H; destruct H as (? & ? & _ & H)).
  unfold setComputed, modify in H. injection H as _ <-. reflexivity.
Qed.

Lemma attempt_returns s :
  fst (attempt env s) = Returned tt
  /\ Store.computedJsonObj (snd (attempt env s))
     = descriptorFor env (fst (mainBody env s)).
Proof.
  unfold attempt, tryCatch.
  destruct (mainBody env s) as [[[] | e] s'] eqn:B; cbn [fst snd].
  - split; [reflexivity|]. apply (mainBody_sets_descriptor _ _ _ B).
  - split; reflexivity.
Qed.

(** ** One document's error does not stop the batch *)

Lemma processDocument_returns i s :
  exists entry,
    entryOf env i entry
    /\ fst (processDocument env i s) = Returned tt
    /\ Store.verificationResults (snd (processDocument env i s))
       = (Store.verificationResults s ++ [entry])%list.
Proof.
  unfold processDocument, entryOf, tryCatch, bind, deserialize.
  destruct (Env.dataset env i) as [[[documentData documentType] userId] | e];
    cbn; eexists; (split; [eexists; reflexivity|]); split; reflexivity.
Qed.

Lemma bulk_loop_returns (l : list Z) s :
  exists entries,
    Forall2 (entryOf env) l entries
    /\ fst (forEach l (processDocument env) s) = Returned tt
    /\ Store.verificationResults (snd (forEach l (processDocument env) s))
       = (Store.verificationResults s ++ entries)%list.
Proof.
  revert s. induction l as [|i l IH]; intros s.
  - exists []. cbn. rewrite app_nil_r. repeat split. constructor.
  - destruct (processDocument_returns i s) as [entry [He [Hr Hv]]].
    cbn [forEach]. unfold bind.
    destruct (processDocument env i s) as [[[] | e] s1];
      cbn [fst snd] in *; [|discriminate].
    destruct (IH s1) as [entries [Hes [Hrs Hvs]]].
    exists (entry :: entries). split; [constructor; assumption|].
    split; [exact Hrs|]. rewrite Hvs, Hv, <- app_assoc. reflexivity.
Qed.

Lemma no_documents (n : num) : num_gtb n (Some 0) = false -> upTo n = [].
Proof.
  destruct n as [z|]; [|reflexivity]. cbn. intros H.
  apply Z.ltb_ge in H. destruct z; try reflexivity. lia.
Qed.

Lemma keeps_results_processInputFile i :
  preserves Store.verificationResults (processInputFile env i).
Proof.
  intros s. unfold processInputFile, bind, readFile, copyFile. cbv zeta.
  destruct (Env.readFile env _); cbn; [|reflexivity].
  destruct (Env.copyRefused env _ _); reflexivity.
Qed.

Lemma keeps_results_writeFile p c :
  preserves Store.verificationResults (writeFile env p c).
Proof.
  intros s. unfold writeFile.
  destruct (Env.writeRefused env p _); reflexivity.
Qed.

(** The entries of the report after the [try] statement: one for each
    document of the batch, in order, an error entry where the document
    threw. *)
Lemma guarded_keeps_every_document s :
  exists entries,
    Forall2 (entryOf env) (upTo (Env.IEXEC_BULK_SLICE_SIZE env)) entries
    /\ Store.verificationResults (snd (guarded env s))
       = (Store.verificationResults s ++ entries)%list.
Proof.
  destruct (bulk_loop_returns (upTo (Env.IEXEC_BULK_SLICE_SIZE env)) s)
    as [entries [He [Hr Hv]]].
  exists entries. split; [exact He|].
  unfold guarded.
  rewrite preserved_after_tryFinally.
  2:{ apply preserves_bind; [apply preserves_gets|].
      intros c. apply keeps_results_writeFile. }
  rewrite preserved_after_tryCatch by (intros e s0; reflexivity).
  unfold mainBody. rewrite preserved_after_bind.
  2:{ intros _.
      apply preserves_bind;
        [apply preserves_forEach, keeps_results_processInputFile|].
      intros _. apply preserves_bind; [apply preserves_gets|].
      intros results. apply preserves_bind; [apply preserves_gets|].
      intros hashes. apply preserves_bind; [intros s0; reflexivity|].
      intros processedAt.
      apply preserves_bind; [apply keeps_results_writeFile|].
      intros _ s0. reflexivity. }
  destruct (num_gtb (Env.IEXEC_BULK_SLICE_SIZE env) (Some 0)) eqn:G.
  - exact Hv.
  - rewrite (no_documents _ G) in He. inversion He. subst.
    cbn. now rewrite app_nil_r.
Qed.

(** The [finally] block: one request to write the descriptor, carried
    out unless the file system refuses it. *)
Lemma guarded_unfolds s :
  let sa := snd (attempt env s) in
  let descriptor := ComputedJSON (Store.computedJsonObj sa) in
  guarded env s
  = match Env.writeRefused env (computedPath env) (Store.ops sa) with
    | Some e =>
        (Threw e, record (OpWriteFile (computedPath env) descriptor) sa)
    | None =>
        (fst (attempt env s),
         store (computedPath env) descriptor
           (record (OpWriteFile (computedPath env) descriptor) sa))
    end.
Proof.
  cbv zeta. unfold guarded. fold (attempt env). unfold tryFinally.
  destruct (attempt env s) as [r sa]. cbn [fst snd].
  unfold bind, gets, writeFile. cbn.
  destruct (Env.writeRefused env (computedPath env) (Store.ops sa));
    reflexivity.
Qed.

(** The set-up returns exactly when [IEXEC_OUT] is set and the logger is
    created; it leaves the store as it was, and so does [main] when the
    set-up throws. *)
Lemma setUp_returns s :
  fst (setUp env s) = Returned tt
  <-> (exists out, Env.IEXEC_OUT env = Some out)
      /\ Env.createLogger env = None.
Proof.
  unfold setUp.
  destruct (Env.IEXEC_OUT env) as [out|]; [destruct (Env.createLogger env)|];
    cbn; split.
  - intros D. discriminate D.
  - intros [_ D]. discriminate D.
  - intros _. split; [now exists out | reflexivity].
  - reflexivity.
  - intros D. discriminate D.
  - intros [[out D] _]. discriminate D.
Qed.

Lemma main_after_setUp s :
  fst (setUp env s) = Returned tt -> main env s = guarded env s.
Proof.
  unfold main, bind, setUp.
  destruct (Env.IEXEC_OUT env); [destruct (Env.createLogger env)|];
    cbn; intros D; first [discriminate D | reflexivity].
Qed.

Lemma main_without_setUp s e :
  fst (setUp env s) = Threw e -> main env s = (Threw e, s).
Proof.
  unfold main, bind, setUp.
  destruct (Env.IEXEC_OUT env); [destruct (Env.createLogger env)|];
    cbn; intros D; first [discriminate D | now injection D as <-].
Qed.

End Facts.

(** C8. An invocation of the worker whose set-up returns, which is when
    [IEXEC_OUT] is set and the logger is created, asks for the completion
    descriptor [computed.json] to be written exactly once, as its last
    operation, on every path: when the [try] block returns the descriptor
    holds the path of the report, when it throws it holds the output
    directory and the error message. When the file system carries the
    write out, the invocation returns and exactly one file is at the
    descriptor's path, holding that descriptor. And the report keeps one
    entry for each document of the batch, in order, the entry of a
    document whose processing threw being the record of its error: the
    documents after it are processed all the same. An invocation whose
    set-up throws throws what the set-up threw, before the [try] is
    entered: it asks for no operation and no descriptor is written. *)
Theorem worker_writes_one_descriptor (env : Env.t) :
  (fst (setUp env start) = Returned tt ->
   let s1 := snd (main env start) in
   let descriptor := descriptorFor env (fst (mainBody env start)) in
   let before := Store.ops (snd (attempt env start)) in
   Store.ops s1
   = (before ++ [OpWriteFile (computedPath env) (ComputedJSON descriptor)])%list
   /\ descriptorWrites env s1
      = [OpWriteFile (computedPath env) (ComputedJSON descriptor)]
   /\ (Env.writeRefused env (computedPath env) before = None ->
       fst (main env start) = Returned tt
       /\ descriptorFiles env s1
          = [(computedPath env, ComputedJSON descriptor)])
   /\ Computed.deterministicOutputPath descriptor <> None
   /\ (Computed.errorMessage descriptor <> None
       <-> exists e, fst (mainBody env start) = Threw e)
   /\ exists entries,
        Forall2 (entryOf env) (upTo (Env.IEXEC_BULK_SLICE_SIZE env)) entries
        /\ Store.verificationResults s1 = entries)
  /\ (forall e,
        fst (setUp env start) = Threw e ->
        main env start = (Threw e, start)
        /\ descriptorWrites env (snd (main env start)) = []
        /\ descriptorFiles env (snd (main env start)) = [])
  /\ (fst (setUp env start) = Returned tt
      <-> (exists out, Env.IEXEC_OUT env = Some out)
          /\ Env.createLogger env = None).
Proof.
  split; [|split].
  2:{ intros e U. rewrite (main_without_setUp env start e U).
      repeat split. }
  2:{ apply setUp_returns. }
  intros U. cbv zeta. rewrite (main_after_setUp env start U).
  apply setUp_returns in U. destruct U as [[out Out] _].
  destruct (attempt_returns env start) as [Hr Hc].
  destruct (quiet_attempt env) as [Qw Qf].
  specialize (Qw start). specialize (Qf start).
  pose proof (guarded_unfolds env start) as M. cbv zeta in M.
  rewrite Hc in M.
  split; [|split; [|split; [|split; [|split]]]].
  - rewrite M. destruct (Env.writeRefused env _ _); reflexivity.
  - rewrite M.
    destruct (Env.writeRefused env _ _); cbn [snd];
      rewrite ?descriptorWrites_store, descriptorWrites_record, Qw;
      cbn [isDescriptorWrite]; rewrite String.eqb_refl; reflexivity.
  - intros A. rewrite M, A. cbn [fst snd]. split; [exact Hr|].
    rewrite descriptorFiles_store, descriptorFiles_record, Qf.
    rewrite String.eqb_refl. reflexivity.
  - destruct (fst (mainBody env start)); cbn; [|rewrite Out]; discriminate.
  - destruct (fst (mainBody env start)) as [u | e]; cbn; split.
    + intros H. now contradiction H.
    + intros [e E]. discriminate.
    + intros _. now exists e.
    + intros _. discriminate.
  - destruct (guarded_keeps_every_document env start) as [entries [He Hv]].
    exists entries. split; [exact He|]. exact Hv.
Qed.

End WorkerFacts.

(** ** Concrete invocations of the worker *)


Example batch_with_one_error :
  SampleWorker.outcomes (snd (Worker.main SampleWorker.batch Worker.start))
  = [Some Worker.VERIFIED; None; Some Worker.VERIFIED]
  /\ Worker.Store.computedJsonObj
       (snd (Worker.main SampleWorker.batch Worker.start))
     = Worker.Computed.mk (Some "/iexec_out/kyc-verification-result.json") None
  /\ map fst (Worker.Store.disk
                (snd (Worker.main SampleWorker.batch Worker.start)))
     = ["/iexec_out/kyc-verification-result.json"; "/iexec_out/computed.json"].
Proof. vm_compute. repeat split. Qed.

Example unreadable_input_file :
  Worker.Store.disk
    (snd (Worker.main SampleWorker.missingInput Worker.start))
  = [ ("/iexec_out/computed.json",
       Worker.ComputedJSON
         (Worker.Computed.mk (Some "/iexec_out")
            (Some "Oops something went wrong"))) ].
Proof. vm_compute. reflexivity. Qed.

(** Without [IEXEC_OUT] the worker throws before its [try] statement:
    nothing is asked of the platform and no descriptor is written. *)
Lemma unset_output_directory_writes_no_descriptor :
  Worker.main SampleWorker.unconfigured Worker.start
  = (Threw Worker.pathArgumentError, Worker.start)
  /\ Worker.Store.ops
       (snd (Worker.main SampleWorker.unconfigured Worker.start)) = []
  /\ Worker.Store.disk
       (snd (Worker.main SampleWorker.unconfigured Worker.start)) = [].
Proof. repeat split. Qed.

Lemma worker_writes_one_descriptor_witness :
  fst (Worker.main SampleWorker.missingInput Worker.start) = Returned tt
  /\ WorkerNotions.descriptorFiles SampleWorker.missingInput
       (snd (Worker.main SampleWorker.missingInput Worker.start))
     = [ (Worker.computedPath SampleWorker.missingInput,
          Worker.ComputedJSON
            (WorkerNotions.descriptorFor SampleWorker.missingInput
               (fst (Worker.mainBody SampleWorker.missingInput
                       Worker.start)))) ].
Proof.
  pose proof (WorkerFacts.worker_writes_one_descriptor
                SampleWorker.missingInput) as [W _].
  specialize (W eq_refl). cbv zeta in W.
  destruct W as [_ [_ [W _]]]. apply W. reflexivity.
Defined.

(* ===================================================================== *)
(** * Further properties of the code *)
(* ===================================================================== *)

(** ** Digests, nullifiers and commitments *)

#[local] Arguments String.append : simpl nomatch.
#[local] Arguments strIncludes : simpl nomatch.
#[local] Arguments truthy : simpl nomatch.
#[local] Arguments strictEq : simpl nomatch.
#[local] Arguments documentTypeString : simpl nomatch.
#[local] Arguments isAdult : simpl nomatch.
#[local] Arguments isDocumentValid : simpl nomatch.

Lemma prefix_append (n q : string) : String.prefix n (n ++ q) = true.
Proof.
  induction n as [|c n IH]; cbn; [now destruct q|].
  destruct (ascii_dec c c); [exact IH | contradiction].
Qed.

Lemma strIncludes_middle (n p q : string) : strIncludes n (p ++ n ++ q) = true.
Proof.
  induction p as [|c p IH].
  - cbn [String.append]. destruct (n ++ q) eqn:E; cbn [strIncludes];
      rewrite <- E, prefix_append; reflexivity.
  - cbn [String.append strIncludes]. rewrite IH. apply orb_true_r.
Qed.

Lemma split_at_colon (d1 d2 a1 a2 : string) :
  strIncludes ":" a1 = false -> strIncludes ":" a2 = false ->
  (d1 ++ ":" ++ a1 = d2 ++ ":" ++ a2)%string -> d1 = d2 /\ a1 = a2.
Proof.
  intros N1 N2. revert d2.
  induction d1 as [|c d1 IH]; intros [|c2 d2] H; cbn [String.append] in H.
  - injection H as H. auto.
  - injection H as _ H. subst a1.
    change (String ":" a2) with (":" ++ a2)%string in N1.
    rewrite strIncludes_middle in N1. discriminate.
  - injection H as _ H. subst a2.
    change (String ":" a1) with (":" ++ a1)%string in N2.
    rewrite strIncludes_middle in N2. discriminate.
  - injection H as -> H. destruct (IH d2 H) as [-> ->]. auto.
Qed.

(** X1. [generateNullifierHash] binds both of its arguments:
    for addresses that hold no colon, as wallet addresses do, two calls
    give the same nullifier only for the same document hash and the same
    address, unless the two digested texts are a collision of SHA-256.
    The colon that separates the two parts cannot be moved, because the
    address holds none. *)
Theorem generateNullifierHash_binds_its_arguments
    (d1 d2 a1 a2 : string) :
  strIncludes ":" a1 = false ->
  strIncludes ":" a2 = false ->
  generateNullifierHash d1 a1 = generateNullifierHash d2 a2 ->
  (d1 = d2 /\ a1 = a2)
  \/ collide (nullifierInput d1 a1) (nullifierInput d2 a2).
Proof.
  intros N1 N2 E. unfold generateNullifierHash in E.
  fold (nullifierInput d1 a1) in E. fold (nullifierInput d2 a2) in E.
  destruct (string_dec (nullifierInput d1 a1) (nullifierInput d2 a2)) as [I | I].
  - left. unfold nullifierInput in I.
    assert (J : (d1 ++ ":" ++ a1 = d2 ++ ":" ++ a2)%string).
    { apply (append_inv_tail _ _ ":nullifier").
      now rewrite !append_assoc. }
    now apply split_at_colon.
  - right. split; assumption.
Qed.

Lemma generateNullifierHash_binds_its_arguments_witness :
  ("doc" = "doc" /\ "0xabc" = "0xabc")
  \/ collide (nullifierInput "doc" "0xabc") (nullifierInput "doc" "0xabc").
Proof.
  apply (generateNullifierHash_binds_its_arguments "doc" "doc" "0xabc" "0xabc");
    reflexivity.
Defined.

Lemma jsonUnescape_jsonEscape (c : ascii) (rest : string) :
  jsonUnescape (jsonEscape c ++ rest) = Some (c, rest).
Proof.
  destruct c as [b0 b1 b2 b3 b4 b5 b6 b7].
  destruct b0, b1, b2, b3, b4, b5, b6, b7; reflexivity.
Qed.

Lemma jsonUnescape_quote (rest : string) :
  jsonUnescape (String dquote rest) = None.
Proof. reflexivity. Qed.

(** The text of a JSON string ends at its closing quote: two texts that
    start with the serialisations of two strings are equal only when the
    strings are, and then what follows them is equal too. *)
Lemma jsonChars_delimited (a b : list ascii) (x y : string) :
  (joinMap jsonEscape a ++ String dquote x
   = joinMap jsonEscape b ++ String dquote y)%string ->
  a = b /\ x = y.
Proof.
  revert b. induction a as [|c a IH]; intros [|c2 b] H; cbn [joinMap] in H.
  - cbn [String.append] in H. injection H as H. auto.
  - exfalso. apply (f_equal jsonUnescape) in H.
    rewrite append_assoc, jsonUnescape_jsonEscape in H.
    cbn [String.append] in H. rewrite jsonUnescape_quote in H. discriminate.
  - exfalso. apply (f_equal jsonUnescape) in H.
    rewrite append_assoc, jsonUnescape_jsonEscape in H.
    cbn [String.append] in H. rewrite jsonUnescape_quote in H. discriminate.
  - apply (f_equal jsonUnescape) in H.
    rewrite !append_assoc, !jsonUnescape_jsonEscape in H.
    injection H as -> H. destruct (IH b H) as [-> ->]. auto.
Qed.

Lemma list_ascii_of_string_inj (a b : string) :
  list_ascii_of_string a = list_ascii_of_string b -> a = b.
Proof.
  intros H. rewrite <- (string_of_list_ascii_of_string a),
    <- (string_of_list_ascii_of_string b). now rewrite H.
Qed.

Lemma jsonString_delimited (a b x y : string) :
  (jsonString a ++ x = jsonString b ++ y)%string -> a = b /\ x = y.
Proof.
  unfold jsonString. rewrite !append_assoc. cbn [String.append].
  intros H. injection H as H.
  apply jsonChars_delimited in H. destruct H as [H ->].
  split; [now apply list_ascii_of_string_inj | reflexivity].
Qed.

Lemma documentTypeString_inj (a b : DocumentType) :
  documentTypeString a = documentTypeString b -> a = b.
Proof. destruct a, b; intros H; try reflexivity; discriminate. Qed.

Lemma commitmentInput_inj (k1 k2 : KYCData.t) :
  commitmentInput k1 = commitmentInput k2 ->
  KYCData.documentType k1 = KYCData.documentType k2
  /\ KYCData.documentNumber k1 = KYCData.documentNumber k2
  /\ KYCData.dateOfBirth k1 = KYCData.dateOfBirth k2
  /\ KYCData.nationality k1 = KYCData.nationality k2.
Proof.
  unfold commitmentInput, jsonObject, jsonMembers, jsonMember.
  intros H.
  repeat rewrite append_assoc in H.
  do 3 apply append_inv_head in H.
  apply jsonString_delimited in H. destruct H as [E1 H].
  do 3 apply append_inv_head in H.
  apply jsonString_delimited in H. destruct H as [E2 H].
  do 3 apply append_inv_head in H.
  apply jsonString_delimited in H. destruct H as [E3 H].
  do 3 apply append_inv_head in H.
  apply jsonString_delimited in H. destruct H as [E4 _].
  apply documentTypeString_inj in E1. auto.
Qed.

(** X2. [createCommitment] binds the document type, the
    document number, the date of birth and the nationality, and nothing
    else: two records that agree on these four have the same commitment,
    whatever their names, expiry dates and document hashes; and two
    records with the same commitment agree on the four, unless the two
    digested texts are a collision of SHA-256. The JSON text that is
    digested can be read back field by field, escapes included. *)
Theorem createCommitment_binds_four_fields (k1 k2 : KYCData.t) :
  (KYCData.documentType k1 = KYCData.documentType k2 ->
   KYCData.documentNumber k1 = KYCData.documentNumber k2 ->
   KYCData.dateOfBirth k1 = KYCData.dateOfBirth k2 ->
   KYCData.nationality k1 = KYCData.nationality k2 ->
   createCommitment k1 = createCommitment k2)
  /\ (createCommitment k1 = createCommitment k2 ->
      (KYCData.documentType k1 = KYCData.documentType k2
       /\ KYCData.documentNumber k1 = KYCData.documentNumber k2
       /\ KYCData.dateOfBirth k1 = KYCData.dateOfBirth k2
       /\ KYCData.nationality k1 = KYCData.nationality k2)
      \/ collide (commitmentInput k1) (commitmentInput k2)).
Proof.
  unfold createCommitment. fold (commitmentInput k1) (commitmentInput k2).
  split.
  - intros E1 E2 E3 E4. unfold commitmentInput.
    now rewrite E1, E2, E3, E4.
  - intros E.
    destruct (string_dec (commitmentInput k1) (commitmentInput k2)) as [I | I].
    + left. now apply commitmentInput_inj.
    + right. split; assumption.
Qed.

Lemma createCommitment_binds_four_fields_witness :
  createCommitment Sample.record
  = createCommitment
      (KYCData.mk passport "X1234567" "Somebody Else" "2000-01-01" "Canada"
         "2031-12-31" (Some "digest")).
Proof.
  apply (createCommitment_binds_four_fields Sample.record
           (KYCData.mk passport "X1234567" "Somebody Else" "2000-01-01"
              "Canada" "2031-12-31" (Some "digest"))); reflexivity.
Defined.

Section MoreGeneratorFacts.

Variable newDate : string -> JSDate.

(** X3. The two signals of [generateDocumentValidityProof]
    are consistent: a document with the minimum validity, more than 30
    whole days left, is valid, so the signals are never "0" and "1"; an
    expiry date that does not parse gives "0" and "0". *)
Theorem minimum_validity_implies_validity
    (now : DateFields.t) (expiryDate documentType userAddress : string) :
  let signals :=
    ZKProof.publicSignals
      (generateDocumentValidityProof newDate now expiryDate documentType
         userAddress) in
  List.length signals = 2%nat
  /\ (nth_error signals 1 = Some "1" -> nth_error signals 0 = Some "1")
  /\ signals <> ["0"; "1"]
  /\ (newDate expiryDate = None -> signals = ["0"; "0"]).
Proof.
  cbv zeta. rewrite document_signals. unfold documentCheck.
  assert (G :
    num_gtb
      (num_floor_div
         (num_sub (getTime (newDate expiryDate)) (Some (DateFields.time now)))
         86400000) (Some 30) = true ->
    num_gtb (getTime (newDate expiryDate)) (Some (DateFields.time now)) = true).
  { destruct (newDate expiryDate) as [expiry|]; cbn; [|discriminate].
    intros H. apply Z.ltb_lt in H. apply Z.ltb_lt.
    Z.to_euclidean_division_equations. lia. }
  split; [reflexivity|]. cbn [nth_error].
  assert (N : newDate expiryDate = None ->
              [ signal (num_gtb (getTime (newDate expiryDate))
                          (Some (DateFields.time now)));
                signal (num_gtb
                          (num_floor_div
                             (num_sub (getTime (newDate expiryDate))
                                (Some (DateFields.time now))) 86400000)
                          (Some 30)) ] = ["0"; "0"]).
  { intros E. rewrite E. reflexivity. }
  destruct (num_gtb (num_floor_div _ _) _).
  - rewrite (G eq_refl). split; [reflexivity|]. split; [discriminate|].
    intros E. specialize (N E). rewrite (G eq_refl) in N. exact N.
  - split; [discriminate|]. split; [discriminate | exact N].
Qed.

(** [isAdult] of [lib/utils/crypto.ts] computes the age as the age proof
    does. *)
Lemma isAdult_is_ageCheck (now : DateFields.t) (dateOfBirth : string)
    (minimumAge : Z) :
  isAdult newDate now dateOfBirth minimumAge
  = ageCheck newDate now dateOfBirth minimumAge.
Proof.
  unfold isAdult, ageCheck, ageAt. cbv zeta.
  destruct (_ || _); reflexivity.
Qed.

(** X4. The helpers of [lib/utils/crypto.ts] and the proof
    generator of [lib/services/zkproof.ts] decide alike: at one and the
    same reading of the clock and with no allow-list, the age signal of
    [generateFullKYCProof] is [isAdult], its document signal is
    [isDocumentValid], and its first signal is "1" exactly when the
    verdict [isValidDocument && isUserAdult && isNotSanctioned] of
    [simulateVerification] is true. *)
Theorem local_proof_agrees_with_simulation
    (now : DateFields.t) (nowMs : Z) (kycData : KYCData.t)
    (userAddress : string) (minimumAge : Z) :
  let signals :=
    ZKProof.publicSignals
      (generateFullKYCProof newDate now now nowMs kycData userAddress
         (Options.mk (Some minimumAge) None)) in
  nth_error signals 1
  = Some (signal (isAdult newDate now (KYCData.dateOfBirth kycData)
                    minimumAge))
  /\ nth_error signals 2
     = Some (signal (isDocumentValid newDate now
                       (KYCData.expiryDate kycData)))
  /\ (nth_error signals 0 = Some "1"
      <-> isDocumentValid newDate now (KYCData.expiryDate kycData)
          && isAdult newDate now (KYCData.dateOfBirth kycData) minimumAge
          && true = true).
Proof.
  cbv zeta. unfold generateFullKYCProof. cbv zeta.
  rewrite age_first_signal, document_signals.
  cbn [nth_error ZKProof.publicSignals Options.minimumAge
       Options.allowedNationalities].
  rewrite !signal_is_one, isAdult_is_ageCheck.
  unfold isDocumentValid, documentCheck. cbn [getTime option_map].
  split; [reflexivity|]. split; [reflexivity|].
  destruct (ageCheck _ _ _ _), (num_gtb _ _); cbn; split;
    intros H; try reflexivity; discriminate.
Qed.

(** X5. As time passes, adulthood is kept and validity is
    lost, never the reverse: between two readings of the clock, the later
    on the same calendar day or after, who [isAdult] accepts at the
    earlier it accepts at the later, for the same minimum age or a lower
    one; and a document that [isDocumentValid] accepts at the later
    reading it accepts at the earlier. *)
Theorem checks_as_time_passes
    (now later : DateFields.t) (dateOfBirth expiryDate : string)
    (minimumAge lowerAge : Z) :
  notAfter now later ->
  DateFields.time now <= DateFields.time later ->
  lowerAge <= minimumAge ->
  (isAdult newDate now dateOfBirth minimumAge = true ->
   isAdult newDate later dateOfBirth lowerAge = true)
  /\ (isDocumentValid newDate later expiryDate = true ->
      isDocumentValid newDate now expiryDate = true).
Proof.
  intros C T M. split.
  - rewrite !isAdult_is_ageCheck. unfold ageCheck.
    destruct (newDate dateOfBirth) as [birth|]; [|discriminate].
    rewrite !ageAt_calendarAge. cbn [num_geb].
    intros H. apply Z.leb_le in H. apply Z.leb_le.
    unfold calendarAge, Civil.earlierInYear in *. unfold notAfter in C.
    repeat match goal with
    | |- context [?a <? ?b] => destruct (Z.ltb_spec a b)
    | |- context [?a =? ?b] => destruct (Z.eqb_spec a b)
    | H : context [?a <? ?b] |- _ => destruct (Z.ltb_spec a b)
    | H : context [?a =? ?b] |- _ => destruct (Z.eqb_spec a b)
    end; cbn [orb andb] in *; lia.
  - unfold isDocumentValid. cbn [getTime option_map].
    destruct (newDate expiryDate) as [expiry|]; cbn; [|discriminate].
    intros H. apply Z.ltb_lt in H. apply Z.ltb_lt. lia.
Qed.

Lemma fullKYC_signals
    (nowAge nowDoc : DateFields.t) (nowMs : Z) (kycData : KYCData.t)
    (userAddress : string) (options : Options.t) :
  ZKProof.publicSignals
    (generateFullKYCProof newDate nowAge nowDoc nowMs kycData userAddress
       options)
  = [ signal (ageCheck newDate nowAge (KYCData.dateOfBirth kycData)
                (minimumAgeOf options)
              && documentCheck newDate nowDoc (KYCData.expiryDate kycData)
              && nationalityCheck options kycData);
      signal (ageCheck newDate nowAge (KYCData.dateOfBirth kycData)
                (minimumAgeOf options));
      signal (documentCheck newDate nowDoc (KYCData.expiryDate kycData));
      signal (nationalityCheck options kycData);
      intToString (minimumAgeOf options) ].
Proof.
  unfold generateFullKYCProof. cbv zeta.
  rewrite age_first_signal, document_signals.
  cbn [nth_error ZKProof.publicSignals]. rewrite !signal_is_one.
  unfold nationalityCheck, minimumAgeOf.
  destruct (Options.allowedNationalities options) as [[|n l]|]; reflexivity.
Qed.

(** X6. Verifying what was just generated: for every record,
    subject and options, and whatever circuit type is named,
    [verifyZKProof] of the artifact of [generateFullKYCProof] is valid
    exactly when the age check, the document check and the nationality
    check all pass; its outputs are the five public signals of the
    artifact, in their order: the conjunction of the three checks, the
    age check, the document check, the nationality check and the
    minimum age; and its nullifier is that of the document and the
    subject. *)
Theorem full_proof_verifies_iff_checks_pass
    (nowAge nowDoc : DateFields.t) (nowMs : Z) (kycData : KYCData.t)
    (userAddress : string) (options : Options.t)
    (circuitType : ZKCircuitType) :
  let r :=
    verifyZKProof
      (generateFullKYCProof newDate nowAge nowDoc nowMs kycData userAddress
         options) circuitType in
  ZKVerificationResult.isValid r
  = ageCheck newDate nowAge (KYCData.dateOfBirth kycData)
      (minimumAgeOf options)
    && documentCheck newDate nowDoc (KYCData.expiryDate kycData)
    && nationalityCheck options kycData
  /\ ZKVerificationResult.publicOutputs r
     = ZKProof.publicSignals
         (generateFullKYCProof newDate nowAge nowDoc nowMs kycData
            userAddress options)
  /\ ZKVerificationResult.publicOutputs r
     = [ signal (ageCheck newDate nowAge (KYCData.dateOfBirth kycData)
                   (minimumAgeOf options)
                 && documentCheck newDate nowDoc (KYCData.expiryDate kycData)
                 && nationalityCheck options kycData);
         signal (ageCheck newDate nowAge (KYCData.dateOfBirth kycData)
                   (minimumAgeOf options));
         signal (documentCheck newDate nowDoc (KYCData.expiryDate kycData));
         signal (nationalityCheck options kycData);
         intToString (minimumAgeOf options) ]
  /\ ZKVerificationResult.nullifierHash r
     = generateNullifierHash (documentKey kycData) userAddress.
Proof.
  cbv zeta.
  set (p := generateFullKYCProof newDate nowAge nowDoc nowMs kycData
              userAddress options).
  assert (L : String.length (ZKProof.proof p) = 64%nat)
    by apply hashData_length.
  assert (S : ZKProof.publicSignals p <> [])
    by (unfold p; rewrite fullKYC_signals; discriminate).
  destruct (verifyZKProof_wellformed p circuitType L S) as [V O].
  rewrite O, verifyZKProof_nullifier.
  unfold p in *. rewrite fullKYC_signals in *. cbn [nth_error] in V.
  split; [|split; [|split]; reflexivity].
  destruct (ZKVerificationResult.isValid _);
    destruct (ageCheck _ _ _ _ && _ && _); try reflexivity.
  - destruct V as [V _]. specialize (V eq_refl). discriminate.
  - destruct V as [_ V]. specialize (V eq_refl). discriminate.
Qed.

End MoreGeneratorFacts.

Lemma checks_as_time_passes_witness :
  isAdult UTC.newDate (UTC.at_ (2024, 5, 2) 0) "2006-06-01" 16 = true
  /\ isDocumentValid UTC.newDate Sample.today "2024-06-03" = true.
Proof.
  assert (C : notAfter Sample.today (UTC.at_ (2024, 5, 2) 0))
    by (unfold notAfter; cbn; lia).
  assert (T : DateFields.time Sample.today
              <= DateFields.time (UTC.at_ (2024, 5, 2) 0))
    by (cbn; lia).
  assert (M : 16 <= 18) by lia.
  split;
    apply (checks_as_time_passes UTC.newDate Sample.today
             (UTC.at_ (2024, 5, 2) 0) "2006-06-01" "2024-06-03" 18 16 C T M);
    reflexivity.
Defined.

(** ** The checks of the worker *)

Module ValidatorFacts.

Import Worker RegexNotions.

Lemma matchRep_reads_min (cls : ascii -> bool) (min max : nat) (s : string) :
  matchRep cls min max (fun _ => true) s = true
  <-> exists run after,
        s = (run ++ after)%string
        /\ String.length run = min /\ allIn cls run = true.
Proof.
  revert max s. induction min as [|m IH]; intros max s.
  - split; [|intros _; destruct s; reflexivity].
    intros _. exists "", s. repeat split.
  - destruct s as [|c r]; cbn [matchRep].
    + split; [discriminate|].
      intros (run & after & E & L & _). destruct run; discriminate.
    + rewrite andb_true_iff, IH. split.
      * intros (C & run & after & -> & L & A).
        exists (String c run), after. cbn. rewrite C, A, L. auto.
      * intros (run & after & E & L & A).
        destruct run as [|c2 run]; [discriminate|].
        cbn in E, L, A. injection E as -> ->. injection L as L.
        apply andb_prop in A. destruct A as [C A].
        split; [exact C|]. exists run, after. auto.
Qed.

Lemma anywhere_spec (f : string -> bool) (s : string) :
  anywhere f s = true
  <-> exists before rest, s = (before ++ rest)%string /\ f rest = true.
Proof.
  induction s as [|c s IH]; cbn [anywhere].
  - rewrite orb_false_r. split.
    + intros H. exists "", "". auto.
    + intros (before & rest & E & H).
      destruct before; [|discriminate]. cbn in E. now subst rest.
  - rewrite orb_true_iff, IH. split.
    + intros [H | (before & rest & -> & H)].
      * exists "", (String c s). auto.
      * exists (String c before), rest. auto.
    + intros (before & rest & E & H).
      destruct before as [|c2 before]; cbn in E.
      * left. now subst rest.
      * injection E as -> ->. right. exists before, rest. auto.
Qed.

Lemma test_one_class (cls : ascii -> bool) (min max : nat) (data : string) :
  test [(cls, min, max)] data = true <-> hasRun cls min data.
Proof.
  unfold test, hasRun. cbn [matchSeq]. rewrite anywhere_spec. split.
  - intros (before & rest & -> & H). apply matchRep_reads_min in H.
    destruct H as (run & after & -> & L & A).
    exists before, run, after. auto.
  - intros (before & run & after & -> & L & A).
    exists before, (run ++ after)%string. split; [reflexivity|].
    apply matchRep_reads_min. exists run, after. auto.
Qed.

Lemma allIn_append (cls : ascii -> bool) (a b : string) :
  allIn cls (a ++ b) = allIn cls a && allIn cls b.
Proof.
  induction a as [|c a IH]; cbn; [reflexivity|].
  now rewrite IH, andb_assoc.
Qed.

Lemma hasRun_shorter (cls : ascii -> bool) (n m : nat) (data : string) :
  (m <= n)%nat -> hasRun cls n data -> hasRun cls m data.
Proof.
  intros Le (before & run & after & -> & L & A).
  exists before, (String.substring 0 m run),
    (String.substring m (n - m) run ++ after)%string.
  assert (S : run = (String.substring 0 m run
                     ++ String.substring m (n - m) run)%string).
  { clear A. subst n. revert m Le.
    induction run as [|c run IH]; intros [|m] Le; cbn in *.
    - reflexivity.
    - lia.
    - f_equal. clear IH Le.
      induction run as [|c2 run IH]; cbn; [reflexivity|]. f_equal. exact IH.
    - f_equal. apply IH. lia. }
  split; [|split].
  - f_equal. rewrite <- append_assoc. now rewrite <- S.
  - clear A S. subst n. revert m Le.
    induction run as [|c run IH]; intros [|m] Le; cbn in *;
      try reflexivity; try lia.
    f_equal. apply IH. lia.
  - rewrite S, allIn_append in A. apply andb_prop in A. apply A.
Qed.

(** X7. The patterns of the two format validators are not
    anchored, so the upper bounds of their number patterns reject nothing:
    [validatePassportFormat] asks for 6 consecutive capitals or digits
    somewhere, a name and a date, and [validateIdCardFormat] for 8
    consecutive capitals or digits somewhere and a name. A run of 8 or
    more such characters, however long, satisfies both number patterns;
    and a text that passes the identity-card check and holds a date passes
    the passport check. *)
Theorem number_checks_have_no_upper_bound (data : string) :
  (validatePassportFormat data = true
   <-> hasRun upperOrDigit 6 data
       /\ test namePattern data = true
       /\ test [ (digit, 2, 2); (isChar "/", 1, 1); (digit, 2, 2);
                 (isChar "/", 1, 1); (digit, 4, 4) ]%nat data = true)
  /\ (validateIdCardFormat data = true
      <-> hasRun upperOrDigit 8 data /\ test namePattern data = true)
  /\ (forall before run after,
        data = (before ++ run ++ after)%string ->
        allIn upperOrDigit run = true ->
        (8 <= String.length run)%nat ->
        hasRun upperOrDigit 8 data /\ hasRun upperOrDigit 6 data)
  /\ (validateIdCardFormat data = true ->
      test [ (digit, 2, 2); (isChar "/", 1, 1); (digit, 2, 2);
             (isChar "/", 1, 1); (digit, 4, 4) ]%nat data = true ->
      validatePassportFormat data = true).
Proof.
  assert (P : validatePassportFormat data = true
   <-> hasRun upperOrDigit 6 data
       /\ test namePattern data = true
       /\ test [ (digit, 2, 2); (isChar "/", 1, 1); (digit, 2, 2);
                 (isChar "/", 1, 1); (digit, 4, 4) ]%nat data = true).
  { unfold validatePassportFormat. cbv zeta.
    rewrite !andb_true_iff, test_one_class. tauto. }
  assert (I : validateIdCardFormat data = true
      <-> hasRun upperOrDigit 8 data /\ test namePattern data = true).
  { unfold validateIdCardFormat. cbv zeta.
    rewrite !andb_true_iff, test_one_class. tauto. }
  split; [exact P|]. split; [exact I|]. split.
  - intros before run after E A L.
    assert (R : hasRun upperOrDigit (String.length run) data)
      by (exists before, run, after; auto).
    split; apply (hasRun_shorter _ (String.length run));
      try assumption; lia.
  - intros V D. apply I in V. destruct V as [R N]. apply P.
    split; [|split; assumption].
    apply (hasRun_shorter _ 8); [lia | exact R].
Qed.

Lemma number_checks_have_no_upper_bound_witness :
  validatePassportFormat "ID ABCDEFGH12345678 Ada Byron 01/02/1990" = true.
Proof.
  apply (number_checks_have_no_upper_bound
           "ID ABCDEFGH12345678 Ada Byron 01/02/1990"); reflexivity.
Defined.

(** X8. [performKYCVerification] never gives the status ERROR.
    Of the five document types a record of the web application can have,
    only the passport can be verified: each of the others is failed,
    whatever the document says, since the worker's list of types does not
    hold it. A document with empty data or an empty user id is failed. A
    driver's licence or a utility bill, in the worker's spelling, is
    verified as soon as the data and the user id are not empty and the
    hash is the digest of the data: no format is checked. *)
Theorem worker_verdict_by_document_type
    (documentData documentType userId documentHash : string) :
  let verdict :=
    fst (performKYCVerification documentData documentType userId
           documentHash) in
  verdict <> ERROR
  /\ (forall d : DocumentType,
        d <> passport -> documentType = documentTypeString d ->
        verdict = FAILED)
  /\ (documentData = "" \/ userId = "" -> verdict = FAILED)
  /\ (documentType = "drivers_license" \/ documentType = "utility_bill" ->
      documentData <> "" -> userId <> "" ->
      documentHash = hashData documentData ->
      verdict = VERIFIED).
Proof.
  cbv zeta. unfold performKYCVerification. cbv zeta. cbn [fst].
  split; [|split; [|split]].
  - destruct (_ && _ && _ && _ && _); discriminate.
  - intros d N ->. destruct d; try contradiction; cbn;
      now rewrite ?andb_false_r.
  - intros [-> | ->]; cbn; now rewrite ?andb_false_r.
  - intros T D U ->.
    assert (HD : truthy documentData
                 && (0 <? String.length documentData)%nat = true).
    { destruct documentData; [contradiction | reflexivity]. }
    assert (HU : truthy userId && (0 <? String.length userId)%nat = true).
    { destruct userId; [contradiction | reflexivity]. }
    rewrite HD, HU. unfold truthy. rewrite hashData_truthy, hashData_length.
    destruct T as [-> | ->]; reflexivity.
Qed.

Lemma worker_verdict_by_document_type_witness :
  fst (performKYCVerification "any text" "national_id" "0xabc"
         (hashData "any text")) = FAILED
  /\ fst (performKYCVerification "any text" "utility_bill" "0xabc"
            (hashData "any text")) = VERIFIED.
Proof.
  split.
  - apply (worker_verdict_by_document_type "any text" "national_id" "0xabc"
             (hashData "any text")) with (d := national_id);
      [discriminate | reflexivity].
  - apply (worker_verdict_by_document_type "any text" "utility_bill" "0xabc"
             (hashData "any text"));
      [right; reflexivity | discriminate | discriminate | reflexivity].
Defined.

End ValidatorFacts.

(** ** The legacy age proof and the random identifiers *)

Section AgeProofFacts.

Variable newDate : string -> JSDate.

(** X9. [generateAgeProof] compares the difference of the calendar years
    with the minimum age: the month and the day are not looked at. So its
    first signal is "1" whenever [isAdult] holds and whenever the age
    proof of [lib/services/zkproof.ts] gives "1", at the same reading of
    the clock; a birth date that does not parse gives "0". Nothing in the
    artifact depends on who asks: the nullifier is the digest of the proof
    digest followed by ":nullifier", and the artifact has the format the
    verifier checks. *)
Theorem generateAgeProof_counts_years_only
    (now : DateFields.t) (dateOfBirth : string) (minimumAge : Z)
    (userAddress : string) :
  let p := generateAgeProof newDate now dateOfBirth minimumAge in
  let first := nth_error (ZKProof.publicSignals p) 0 in
  (forall birth, newDate dateOfBirth = Some birth ->
     first
     = Some (signal (minimumAge
                     <=? DateFields.fullYear now - DateFields.fullYear birth)))
  /\ (newDate dateOfBirth = None -> first = Some "0")
  /\ (isAdult newDate now dateOfBirth minimumAge = true -> first = Some "1")
  /\ (nth_error
        (ZKProof.publicSignals
           (generateAgeVerificationProof newDate now dateOfBirth minimumAge
              userAddress)) 0 = Some "1" ->
      first = Some "1")
  /\ ZKProof.nullifierHash p = hashData (ZKProof.proof p ++ ":nullifier")
  /\ String.length (ZKProof.proof p) = 64%nat
  /\ ZKVerificationResult.publicOutputs (verifyZKProof p age_verification)
     = ZKProof.publicSignals p.
Proof.
  cbv zeta. unfold generateAgeProof.
  cbn [ZKProof.publicSignals ZKProof.nullifierHash ZKProof.proof nth_error].
  assert (W : ageCheck newDate now dateOfBirth minimumAge = true ->
              num_geb (num_sub (getFullYear (Some now))
                               (getFullYear (newDate dateOfBirth)))
                      (Some minimumAge) = true).
  { unfold ageCheck. destruct (newDate dateOfBirth) as [birth|];
      [|discriminate].
    rewrite ageAt_calendarAge. cbn. unfold calendarAge.
    intros H. apply Z.leb_le in H. apply Z.leb_le.
    destruct (Civil.earlierInYear _ _ _ _); lia. }
  split; [|split; [|split; [|split; [|split; [|split]]]]].
  - intros birth E. rewrite E. reflexivity.
  - intros E. rewrite E. reflexivity.
  - rewrite isAdult_is_ageCheck. intros H. now rewrite (W H).
  - rewrite age_first_signal. cbn [nth_error]. intros H.
    injection H as H. apply signal_eq_one in H. now rewrite (W H).
  - reflexivity.
  - apply hashData_length.
  - apply verifyZKProof_wellformed; [apply hashData_length | discriminate].
Qed.

End AgeProofFacts.

Lemma generateAgeProof_counts_years_only_witness :
  nth_error
    (ZKProof.publicSignals
       (generateAgeProof UTC.newDate Sample.today "2006-12-31" 18)) 0
  = Some "1"
  /\ nth_error
       (ZKProof.publicSignals
          (generateAgeProof UTC.newDate Sample.today "2000-01-01" 18)) 0
     = Some "1".
Proof.
  split.
  - apply (generateAgeProof_counts_years_only UTC.newDate Sample.today
             "2006-12-31" 18 Sample.subject)
      with (birth := UTC.midnight (2006, 11, 31)).
    reflexivity.
  - apply (generateAgeProof_counts_years_only UTC.newDate Sample.today
             "2000-01-01" 18 Sample.subject).
    reflexivity.
Defined.

(** Born on 31 December 2006, seventeen on 1 June 2024: the legacy proof
    says "1", [isAdult] and the age proof say no. *)
Example seventeen_passes_the_legacy_proof :
  nth_error
    (ZKProof.publicSignals
       (generateAgeProof UTC.newDate Sample.today "2006-12-31" 18)) 0
  = Some "1"
  /\ isAdult UTC.newDate Sample.today "2006-12-31" 18 = false
  /\ nth_error
       (ZKProof.publicSignals
          (generateAgeVerificationProof UTC.newDate Sample.today
             "2006-12-31" 18 Sample.subject)) 0
     = Some "0".
Proof. repeat split. Qed.

(** X10. The random identifiers have a fixed shape, whatever the
    random source gives: [generateSalt] is 64 lowercase hexadecimal
    digits, and the transaction hash of [generateMockTransactionHash],
    drawn from a filled buffer of 32 bytes, is "0x" followed by 64
    lowercase hexadecimal digits, 66 characters in all; the call always
    returns. *)
Theorem random_identifiers_have_fixed_width
    (random : nat -> byte) (w : World.t) (b : Browser.t) :
  (String.length (generateSalt random) = 64%nat
   /\ isHex (generateSalt random) = true)
  /\ (List.length (World.getRandomValues w (Browser.calls b)) = 32%nat ->
      exists digits,
        fst (generateMockTransactionHash w b) = Returned ("0x" ++ digits)
        /\ String.length digits = 64%nat
        /\ isHex digits = true
        /\ String.length ("0x" ++ digits) = 66%nat).
Proof.
  split.
  - unfold generateSalt. cbv zeta.
    change (joinMap (fun b0 => padStart (toString16 b0) 2 "0"%char)
              (map random (seq 0 32)))
      with (hexOfBytes (map random (seq 0 32))).
    rewrite hexOfBytes_length, hexOfBytes_isHex, length_map, length_seq.
    split; reflexivity.
  - intros L.
    exists (hexOfBytes (World.getRandomValues w (Browser.calls b))).
    split; [reflexivity|].
    rewrite hexOfBytes_isHex. split; [|split; [reflexivity|]].
    + now rewrite hexOfBytes_length, L.
    + rewrite length_append, hexOfBytes_length, L. reflexivity.
Qed.

Lemma random_identifiers_have_fixed_width_witness :
  exists digits,
    fst (generateMockTransactionHash SampleRun.world SampleRun.fresh)
    = Returned ("0x" ++ digits)
    /\ String.length digits = 64%nat
    /\ isHex digits = true
    /\ String.length ("0x" ++ digits) = 66%nat.
Proof.
  apply (random_identifiers_have_fixed_width (fun _ => x00) SampleRun.world
           SampleRun.fresh).
  reflexivity.
Defined.

(** ** The display of digests *)

Lemma substring_length (n m : nat) (s : string) :
  (n + m <= String.length s)%nat ->
  String.length (String.substring n m s) = m.
Proof.
  revert n m. induction s as [|c s IH]; intros [|n] [|m] L; cbn in *;
    try reflexivity; try lia.
  - f_equal. apply (IH 0%nat). lia.
  - apply IH. lia.
  - apply IH. lia.
Qed.

Lemma substring_split (n m : nat) (s : string) :
  (n + m <= String.length s)%nat ->
  exists before after,
    s = (before ++ String.substring n m s ++ after)%string
    /\ String.length before = n.
Proof.
  revert n m. induction s as [|c s IH]; intros n m L.
  - cbn in L. assert (n = 0%nat) by lia. assert (m = 0%nat) by lia. subst.
    exists "", "". split; reflexivity.
  - destruct n as [|n].
    + destruct m as [|m].
      * exists "", (String c s). split; reflexivity.
      * cbn in L. destruct (IH 0%nat m) as (before & after & E & B); [lia|].
        destruct before; [|discriminate]. cbn [String.append] in E.
        exists "", after. split; [|reflexivity].
        cbn [String.substring String.append]. f_equal. exact E.
    + cbn in L. destruct (IH n m) as (before & after & E & B); [lia|].
      exists (String c before), after. split.
      * cbn [String.substring String.append]. f_equal. exact E.
      * cbn. now rewrite B.
Qed.

Lemma truncateHash_long (hash : string) (chars : nat) :
  (2 * chars < String.length hash)%nat -> (0 < chars)%nat ->
  exists first middle last,
    hash = (first ++ middle ++ last)%string
    /\ truncateHash hash chars = (first ++ "..." ++ last)%string
    /\ String.length first = chars
    /\ String.length last = chars
    /\ String.length (truncateHash hash chars) = (2 * chars + 3)%nat.
Proof.
  intros L P. unfold truncateHash, sliceFirst, sliceFromEnd.
    replace (String.length hash <=? chars * 2)%nat with false
      by (symmetry; apply Nat.leb_gt; lia).
    replace (chars =? 0)%nat with false
      by (symmetry; apply Nat.eqb_neq; lia).
    destruct (substring_split 0 chars hash) as (b0 & rest & E0 & B0); [lia|].
    destruct b0; [|discriminate]. cbn [String.append] in E0.
    destruct (substring_split (String.length hash - chars) chars hash)
      as (before & after & E1 & B1); [lia|].
    assert (LA : String.length after = 0%nat).
    { apply (f_equal String.length) in E1.
      rewrite !length_append, substring_length, B1 in E1 by lia. lia. }
    destruct after; [|discriminate]. clear LA.
    assert (LF : String.length (String.substring 0 chars hash) = chars)
      by (apply substring_length; lia).
    assert (LL : String.length
                   (String.substring (String.length hash - chars) chars hash)
                 = chars)
      by (apply substring_length; lia).
    assert (LB : (chars <= String.length before)%nat) by lia.
    (* the first [chars] characters of [hash] are those of [before] *)
    assert (S : exists middle,
              before = (String.substring 0 chars hash ++ middle)%string).
    { clear - E0 E1 LF LB.
      set (f := String.substring 0 chars hash) in *.
      set (l := String.substring (String.length hash - chars) chars hash) in *.
      assert (E : (f ++ rest = before ++ l ++ "")%string) by congruence.
      clearbody f l. clear E0 E1. subst chars.
      revert before LB E. induction f as [|c f IH]; intros before LB E.
      - exists before. reflexivity.
      - destruct before as [|c2 before]; [cbn in LB; lia|].
        cbn [String.append] in E. injection E as -> E.
        destruct (IH before) as [middle M]; [cbn in LB; lia | exact E |].
        exists middle. cbn [String.append]. now rewrite <- M. }
    destruct S as [middle M].
    exists (String.substring 0 chars hash), middle,
      (String.substring (String.length hash - chars) chars hash).
    split; [|split; [reflexivity | split; [exact LF | split; [exact LL|]]]].
    - rewrite E1 at 1. rewrite M, !append_assoc. f_equal. f_equal.
      clear. induction (String.substring _ _ _) as [|c s IH];
        [reflexivity | cbn [String.append]; now rewrite IH].
    - rewrite !length_append, LF, LL. cbn. lia.
Qed.

(** X11. [truncateHash] leaves a text of at most [2 * chars]
    characters as it is. A longer one becomes its first [chars]
    characters, three dots and its last [chars] characters, [2 * chars + 3]
    characters in all, when [chars] is not 0; so a digest of [hashData] is
    shown, with the default of 8, in 19 characters that start and end as
    the digest does. With [chars] at 0 nothing is cut: the result is the
    three dots followed by the whole text. *)
Theorem truncateHash_keeps_both_ends (hash : string) (chars : nat) :
  ((String.length hash <= 2 * chars)%nat -> truncateHash hash chars = hash)
  /\ ((2 * chars < String.length hash)%nat -> (0 < chars)%nat ->
      exists first middle last,
        hash = (first ++ middle ++ last)%string
        /\ truncateHash hash chars = (first ++ "..." ++ last)%string
        /\ String.length first = chars
        /\ String.length last = chars
        /\ String.length (truncateHash hash chars) = (2 * chars + 3)%nat)
  /\ (hash <> "" -> truncateHash hash 0 = ("..." ++ hash)%string)
  /\ (forall data,
        hash = hashData data ->
        String.length (truncateHash hash 8) = 19%nat).
Proof.
  split; [|split; [apply truncateHash_long | split]].
  - intros L. unfold truncateHash.
    replace (String.length hash <=? chars * 2)%nat with true
      by (symmetry; apply Nat.leb_le; lia).
    reflexivity.
  - intros N. unfold truncateHash, sliceFirst, sliceFromEnd.
    destruct hash as [|c hash]; [contradiction|]. reflexivity.
  - intros data ->.
    destruct (truncateHash_long (hashData data) 8)
      as (f & m & l & _ & _ & _ & _ & R);
      [rewrite hashData_length; lia | lia | exact R].
Qed.

Lemma truncateHash_keeps_both_ends_witness :
  truncateHash "0xabc" 8 = "0xabc"
  /\ truncateHash "0123456789abcdef-" 0 = "...0123456789abcdef-"
  /\ exists first middle last,
       "0123456789abcdef-" = (first ++ middle ++ last)%string
       /\ truncateHash "0123456789abcdef-" 8 = (first ++ "..." ++ last)%string
       /\ String.length first = 8%nat
       /\ String.length last = 8%nat
       /\ String.length (truncateHash "0123456789abcdef-" 8) = 19%nat.
Proof.
  split; [|split].
  - apply (truncateHash_keeps_both_ends "0xabc" 8). cbn. lia.
  - apply (truncateHash_keeps_both_ends "0123456789abcdef-" 0). discriminate.
  - apply (truncateHash_keeps_both_ends "0123456789abcdef-" 8); cbn; lia.
Defined.

(** ** The identity form *)

Module FormFacts.

Import FormNotions.

Section Facts.

Variable newDate : string -> JSDate.

Lemma truthy_nonempty (s : string) : truthy s = true <-> s <> "".
Proof.
  destruct s; cbn; split; intros H; try reflexivity; try discriminate.
  now contradiction H.
Qed.

Lemma keys_zero (e : Form.Errors.t) : Form.keys e = 0%nat <-> e = noErrors.
Proof.
  destruct e as [[?|] [?|] [?|] [?|] [?|] [?|]]; cbn; split; intros H;
    try reflexivity; discriminate.
Qed.

(** X12. [handleSubmit] calls [onSubmit] exactly when
    [validateForm] sets no error, and then with the form as it is. The
    object it hands over has every member of a [KYCData] record, so the
    cast [formData as KYCData] is sound: the document number has at least
    5 characters, the name at least 2, and the date of birth, the
    nationality and the expiry date are not empty; it passes the
    required-field guard of [protectKYCData]. When [onSubmit] is not
    called, at least one error message is set. *)
Theorem submitted_forms_are_complete
    (nowBirth nowExpiry : DateFields.t) (formData : Form.Data.t) :
  let errors := fst (Form.handleSubmit newDate nowBirth nowExpiry formData) in
  let submitted :=
    snd (Form.handleSubmit newDate nowBirth nowExpiry formData) in
  (submitted = Some formData \/ submitted = None)
  /\ (submitted = Some formData <-> errors = noErrors)
  /\ (submitted = None -> (0 < Form.keys errors)%nat)
  /\ (submitted = Some formData ->
      exists k,
        formData = ofKYCData k
        /\ (5 <= String.length (KYCData.documentNumber k))%nat
        /\ (2 <= String.length (KYCData.fullName k))%nat
        /\ KYCData.dateOfBirth k <> ""
        /\ KYCData.nationality k <> ""
        /\ KYCData.expiryDate k <> ""
        /\ missingRequiredField k = false).
Proof.
  cbv zeta. unfold Form.handleSubmit. cbv zeta. cbn [fst snd].
  destruct (Form.validateForm newDate nowBirth nowExpiry formData)
    as [errors ok] eqn:V.
  cbn [fst snd].
  assert (K : ok = (Form.keys errors =? 0)%nat).
  { unfold Form.validateForm in V. cbv zeta in V. now injection V as <- <-. }
  split; [destruct ok; auto|]. split; [|split].
  - destruct ok; split; intros H; try reflexivity; try discriminate.
    + apply keys_zero. apply Nat.eqb_eq. now rewrite <- K.
    + apply keys_zero in H. rewrite H in K. discriminate.
  - destruct ok; [discriminate|]. intros _.
    symmetry in K. apply Nat.eqb_neq in K. lia.
  - destruct ok; [|discriminate]. intros _.
    symmetry in K. apply Nat.eqb_eq, keys_zero in K. subst errors.
    unfold Form.validateForm in V. cbv zeta in V.
    injection V as E1 E2 E3 E4 E5 E6 _.
    destruct formData as [[dt|] dn fn dob nat exp]; cbn in *;
      [|discriminate].
    unfold Form.shorterThan, Form.absent in *.
    destruct dn as [dn|]; [|discriminate].
    destruct fn as [fn|]; [|discriminate].
    destruct dob as [dob|]; [|discriminate].
    destruct nat as [nat|]; [|discriminate].
    destruct exp as [exp|]; [|discriminate].
    destruct (truthy dn) eqn:Tdn; [|discriminate].
    destruct (truthy fn) eqn:Tfn; [|discriminate].
    destruct (truthy dob) eqn:Tdob; [|discriminate].
    destruct (truthy nat) eqn:Tnat; [|discriminate].
    destruct (truthy exp) eqn:Texp; [|discriminate].
    cbn [negb orb] in *.
    destruct (String.length dn <? 5)%nat eqn:Ldn; [discriminate|].
    destruct (String.length fn <? 2)%nat eqn:Lfn; [discriminate|].
    apply Nat.ltb_ge in Ldn, Lfn.
    exists (KYCData.mk dt dn fn dob nat exp None).
    unfold ofKYCData, missingRequiredField.
    cbn [KYCData.documentType KYCData.documentNumber KYCData.fullName
         KYCData.dateOfBirth KYCData.nationality KYCData.expiryDate].
    rewrite Tdn, Tfn, Tdob, Tnat, Texp.
    apply truthy_nonempty in Tdob, Tnat, Texp.
    repeat split; try assumption.
    destruct dt; reflexivity.
Qed.

(** X13. The two date rules of the form are weaker than the
    checks of the local proof, at the same readings of the clock. A
    complete record whose age check and document check pass is submitted
    without an error. The form looks at the calendar years only, so a
    birth year eighteen or more before the current year passes whatever
    the month and the day; and a date that does not parse, which fails
    the proof, passes the form, since a comparison with [NaN] is false. *)
Theorem form_dates_are_weaker_than_proof
    (nowBirth nowExpiry : DateFields.t) (k : KYCData.t) :
  let errors :=
    fst (Form.validateForm newDate nowBirth nowExpiry (ofKYCData k)) in
  KYCData.dateOfBirth k <> "" ->
  KYCData.expiryDate k <> "" ->
  (ageCheck newDate nowBirth (KYCData.dateOfBirth k) 18 = true ->
   Form.Errors.dateOfBirth errors = None)
  /\ (documentCheck newDate nowExpiry (KYCData.expiryDate k) = true ->
      Form.Errors.expiryDate errors = None)
  /\ (forall birth,
        newDate (KYCData.dateOfBirth k) = Some birth ->
        DateFields.fullYear birth + 18 <= DateFields.fullYear nowBirth ->
        Form.Errors.dateOfBirth errors = None)
  /\ (newDate (KYCData.dateOfBirth k) = None ->
      Form.Errors.dateOfBirth errors = None
      /\ ageCheck newDate nowBirth (KYCData.dateOfBirth k) 18 = false)
  /\ (newDate (KYCData.expiryDate k) = None ->
      Form.Errors.expiryDate errors = None
      /\ documentCheck newDate nowExpiry (KYCData.expiryDate k) = false)
  /\ ((5 <= String.length (KYCData.documentNumber k))%nat ->
      (2 <= String.length (KYCData.fullName k))%nat ->
      KYCData.nationality k <> "" ->
      ageCheck newDate nowBirth (KYCData.dateOfBirth k) 18 = true ->
      documentCheck newDate nowExpiry (KYCData.expiryDate k) = true ->
      Form.handleSubmit newDate nowBirth nowExpiry (ofKYCData k)
      = (noErrors, Some (ofKYCData k))).
Proof.
  cbv zeta. intros Nb Ne.
  apply truthy_nonempty in Nb, Ne.
  assert (A : ageCheck newDate nowBirth (KYCData.dateOfBirth k) 18 = true ->
              num_ltb (num_sub (getFullYear (Some nowBirth))
                         (getFullYear (newDate (KYCData.dateOfBirth k))))
                      (Some 18) = false).
  { unfold ageCheck. destruct (newDate (KYCData.dateOfBirth k)) as [birth|];
      [|discriminate].
    rewrite ageAt_calendarAge. cbn. unfold calendarAge.
    intros H. apply Z.leb_le in H. apply Z.ltb_ge.
    destruct (Civil.earlierInYear _ _ _ _); lia. }
  assert (D : documentCheck newDate nowExpiry (KYCData.expiryDate k) = true ->
              num_ltb (getTime (newDate (KYCData.expiryDate k)))
                      (getTime (Some nowExpiry)) = false).
  { unfold documentCheck. destruct (newDate (KYCData.expiryDate k));
      [|discriminate].
    cbn. intros H. apply Z.ltb_lt in H. apply Z.ltb_ge. lia. }
  unfold Form.validateForm, Form.handleSubmit, Form.validateForm, ofKYCData.
  cbv zeta.
  cbn [fst snd Form.Data.dateOfBirth Form.Data.expiryDate
       Form.Data.documentType Form.Data.documentNumber Form.Data.fullName
       Form.Data.nationality Form.Errors.dateOfBirth Form.Errors.expiryDate].
  rewrite Nb, Ne. cbn [negb].
  split; [|split; [|split; [|split; [|split]]]].
  - intros H. now rewrite (A H).
  - intros H. now rewrite (D H).
  - intros birth E Y. rewrite E. cbn.
    replace (DateFields.fullYear nowBirth - DateFields.fullYear birth <? 18)
      with false by (symmetry; apply Z.ltb_ge; lia).
    reflexivity.
  - intros E. unfold ageCheck. rewrite E. split; reflexivity.
  - intros E. unfold documentCheck. rewrite E. split; reflexivity.
  - intros Ldn Lfn Nn Ha Hd. rewrite (A Ha), (D Hd).
    apply truthy_nonempty in Nn.
    unfold Form.shorterThan, Form.absent. rewrite Nn.
    assert (Tdn : truthy (KYCData.documentNumber k) = true).
    { apply truthy_nonempty. intros E. rewrite E in Ldn. cbn in Ldn. lia. }
    assert (Tfn : truthy (KYCData.fullName k) = true).
    { apply truthy_nonempty. intros E. rewrite E in Lfn. cbn in Lfn. lia. }
    rewrite Tdn, Tfn. cbn [negb orb].
    apply Nat.ltb_ge in Ldn, Lfn. rewrite Ldn, Lfn. reflexivity.
Qed.

End Facts.

End FormFacts.

Lemma submitted_forms_are_complete_witness :
  fst (Form.handleSubmit UTC.newDate Sample.today Sample.today
         (FormNotions.ofKYCData Sample.record))
  = FormNotions.noErrors
  /\ (0 < Form.keys
            (fst (Form.handleSubmit UTC.newDate Sample.today Sample.today
                    (FormNotions.ofKYCData SampleRun.minor))))%nat.
Proof.
  split.
  - apply (FormFacts.submitted_forms_are_complete UTC.newDate Sample.today
             Sample.today (FormNotions.ofKYCData Sample.record)).
    reflexivity.
  - apply (FormFacts.submitted_forms_are_complete UTC.newDate Sample.today
             Sample.today (FormNotions.ofKYCData SampleRun.minor)).
    reflexivity.
Defined.

Lemma form_dates_are_weaker_than_proof_witness :
  Form.handleSubmit UTC.newDate Sample.today Sample.today
    (FormNotions.ofKYCData Sample.record)
  = (FormNotions.noErrors, Some (FormNotions.ofKYCData Sample.record)).
Proof.
  apply (FormFacts.form_dates_are_weaker_than_proof UTC.newDate Sample.today
           Sample.today Sample.record);
    first [discriminate | reflexivity | cbn; lia].
Defined.

(** Born on 31 December 2006 with an expiry date that is no date: the form
    submits the record, and the local proof refuses it. *)
Example form_accepts_what_the_proof_refuses :
  let k := KYCData.mk passport "X1234567" "Ada Byron" "2006-12-31" "Canada"
             "some day" None in
  snd (Form.handleSubmit UTC.newDate Sample.today Sample.today
         (FormNotions.ofKYCData k))
  = Some (FormNotions.ofKYCData k)
  /\ ZKProof.publicSignals
       (generateFullKYCProof UTC.newDate Sample.today Sample.today 0 k
          Sample.subject (Options.mk (Some 18) None))
     = ["0"; "0"; "0"; "1"; "18"].
Proof. vm_compute. split; reflexivity. Qed.

(** ** The verification module of the iApp *)

Section VerifyFacts.

Variable newDate : string -> JSDate.
Variable decrypt : string -> Outcome KYCData.t.

(** X14. The exported function of [verify.js] accepts every
    identity that the simulated verification accepts, at the same reading
    of the clock: when [isDocumentValid] and [isAdult], with the minimum
    age 18, both hold, it returns [true]. It is weaker than they are: it
    compares the calendar years only, it accepts a document that expires
    at this very instant, and it accepts a birth date and an expiry date
    that do not parse. What [decrypt] throws, it throws. *)
Theorem verify_accepts_what_simulation_accepts
    (now : DateFields.t) (encryptedData : string) (identity : KYCData.t) :
  decrypt encryptedData = Returned identity ->
  let result := Verify.verify newDate decrypt now encryptedData in
  (exists accepted, result = Returned accepted)
  /\ (isDocumentValid newDate now (KYCData.expiryDate identity) = true ->
      isAdult newDate now (KYCData.dateOfBirth identity) 18 = true ->
      result = Returned true)
  /\ (forall birth expiry,
        newDate (KYCData.dateOfBirth identity) = Some birth ->
        newDate (KYCData.expiryDate identity) = Some expiry ->
        result
        = Returned
            ((18 <=? DateFields.fullYear now - DateFields.fullYear birth)
             && (DateFields.time now <=? DateFields.time expiry)))
  /\ (newDate (KYCData.dateOfBirth identity) = None ->
      newDate (KYCData.expiryDate identity) = None ->
      result = Returned true).
Proof.
  intros E. cbv zeta. unfold Verify.verify. rewrite E. cbv zeta.
  split; [|split; [|split]].
  - destruct (num_ltb _ _); [eexists; reflexivity|].
    destruct (num_ltb _ _); eexists; reflexivity.
  - rewrite isAdult_is_ageCheck. unfold isDocumentValid, ageCheck.
    cbv zeta.
    destruct (newDate (KYCData.dateOfBirth identity)) as [birth|];
      [|discriminate].
    destruct (newDate (KYCData.expiryDate identity)) as [expiry|];
      [|discriminate].
    rewrite ageAt_calendarAge. cbn. unfold calendarAge.
    intros V A. apply Z.ltb_lt in V. apply Z.leb_le in A.
    replace (DateFields.fullYear now - DateFields.fullYear birth <? 18)
      with false
      by (symmetry; apply Z.ltb_ge;
          destruct (Civil.earlierInYear _ _ _ _); lia).
    replace (DateFields.time expiry <? DateFields.time now) with false
      by (symmetry; apply Z.ltb_ge; lia).
    reflexivity.
  - intros birth expiry -> ->. cbn.
    rewrite !Z.leb_antisym.
    destruct (_ <? 18); [reflexivity|].
    destruct (_ <? _); reflexivity.
  - intros -> ->. reflexivity.
Qed.

End VerifyFacts.

Lemma verify_accepts_what_simulation_accepts_witness :
  Verify.verify UTC.newDate (fun _ => Returned Sample.record) Sample.today
    "ciphertext"
  = Returned true.
Proof.
  destruct (verify_accepts_what_simulation_accepts UTC.newDate
              (fun _ => Returned Sample.record) Sample.today "ciphertext"
              Sample.record eq_refl) as [_ [H _]].
  apply H; reflexivity.
Defined.

(** ** Calls to the verifier contract *)

Module ContractFacts.

Import Contract.

(** X15. None of the three functions of [contract.ts] throws,
    whatever the clients do. [submitVerificationProof] asks for one
    [submitProof] write, on the verifier address, with the subject, the
    verdict, the proof digest and the signature each prefixed by "0x", and
    an expiry one year, 31,536,000 seconds, after the current time in whole
    seconds; it waits for the receipt of the hash that the write returned,
    and of no other. It reports success exactly when the write and the wait
    both returned, with the hash of the write; otherwise the hash is
    empty. [checkOnChainVerification] gives [false], and
    [getVerificationDetails] gives [null], when the read throws. *)
Theorem contract_calls_never_throw
    (chain : Chain.t) (userAddress : string)
    (verificationResult : VerificationResult.t) (s : Store.t) :
  let address := KYC_VERIFIER_ADDRESS chain in
  let args :=
    SubmitArgs.mk userAddress (VerificationResult.isValid verificationResult)
      ("0x" ++ VerificationResult.proofHash verificationResult)
      ("0x" ++ VerificationResult.enclaveSignature verificationResult)
      (Chain.dateNow chain (Store.ticks s) / 1000 + 31536000) in
  let written := Chain.writeContract chain address args (Store.requests s) in
  let run := submitVerificationProof chain userAddress verificationResult s in
  (exists submission,
     fst run = Returned submission
     /\ (Submission.success submission = true
         <-> exists hash,
               written = Returned hash
               /\ Chain.waitForTransactionReceipt chain hash
                    (Store.requests s
                     ++ [WriteContract address "submitProof" args])
                  = Returned tt
               /\ Submission.hash submission = hash)
     /\ (Submission.success submission = false
         -> Submission.hash submission = ""))
  /\ Store.requests (snd run)
     = (Store.requests s
        ++ WriteContract address "submitProof" args
           :: match written with
              | Returned hash => [WaitForTransactionReceipt hash]
              | Threw _ => []
              end)%list
  /\ (exists verified,
        fst (checkOnChainVerification chain userAddress s) = Returned verified
        /\ (verified = true ->
            Chain.readIsVerified chain address userAddress (Store.requests s)
            = Returned true))
  /\ (exists details,
        fst (getVerificationDetails chain userAddress s) = Returned details
        /\ (details = None
            <-> exists e,
                  Chain.readVerification chain address userAddress
                    (Store.requests s) = Threw e)
        /\ (forall v, details = Some v ->
              OnChainVerification.userAddress v = userAddress)).
Proof.
  cbv zeta. split; [|split; [|split]].
  - unfold submitVerificationProof, tryCatch, bind, now, request, ret,
      VERIFICATION_VALIDITY_PERIOD.
    cbn [fst snd Store.requests Store.ticks].
    change (365 * 24 * 60 * 60) with 31536000.
    destruct (Chain.writeContract chain _ _ _) as [hash | e].
    + destruct (Chain.waitForTransactionReceipt chain hash _) as [[] | e] eqn:W.
      * eexists. split; [reflexivity|].
        cbn [Submission.success Submission.hash].
        split; [|discriminate]. split; [|reflexivity].
        intros _. exists hash. auto.
      * eexists. split; [reflexivity|].
        cbn [Submission.success Submission.hash].
        split; [|reflexivity]. split; [discriminate|].
        intros (h & E & R & _). injection E as <-. congruence.
    + eexists. split; [reflexivity|].
      cbn [Submission.success Submission.hash]. split; [|reflexivity].
      split; [discriminate|]. intros (h & E & _). discriminate.
  - unfold submitVerificationProof, tryCatch, bind, now, request, ret,
      VERIFICATION_VALIDITY_PERIOD.
    cbn [fst snd Store.requests Store.ticks].
    change (365 * 24 * 60 * 60) with 31536000.
    destruct (Chain.writeContract chain _ _ _) as [hash | e];
      [|reflexivity].
    destruct (Chain.waitForTransactionReceipt chain hash _) as [[] | e];
      cbn [fst snd Store.requests]; rewrite <- app_assoc; reflexivity.
  - unfold checkOnChainVerification, tryCatch, request, ret.
    cbn [fst snd].
    destruct (Chain.readIsVerified chain _ _ _) as [v | e].
    + exists v. split; [reflexivity|]. now intros ->.
    + exists false. split; [reflexivity | discriminate].
  - unfold getVerificationDetails, tryCatch, bind, request, ret.
    cbn [fst snd].
    destruct (Chain.readVerification chain _ _ _)
      as [[[[v t] h] x] | e].
    + eexists. split; [reflexivity|]. split.
      * split; [discriminate|]. intros [e E]. discriminate.
      * intros v0 E. injection E as <-. reflexivity.
    + exists None. split; [reflexivity|]. split.
      * split; [intros _; now exists e | reflexivity].
      * discriminate.
Qed.

End ContractFacts.

(** ** The logger *)

Module LoggerFacts.

Import Logger LoggerNotions.

Lemma lastN_all {A : Type} (n : nat) (l : list A) :
  (List.length l <= n)%nat -> lastN n l = l.
Proof.
  intros L. unfold lastN. replace (List.length l - n)%nat with 0%nat by lia.
  reflexivity.
Qed.

Lemma lastN_length {A : Type} (n : nat) (l : list A) :
  List.length (lastN n l) = Nat.min n (List.length l).
Proof. unfold lastN. rewrite length_skipn. lia. Qed.

Lemma lastN_app_lastN {A : Type} (n : nat) (a b : list A) :
  lastN n (lastN n a ++ b) = lastN n (a ++ b).
Proof.
  unfold lastN. rewrite !length_app, length_skipn.
  destruct (Nat.le_gt_cases (List.length a) n) as [L | L].
  - replace (List.length a - n)%nat with 0%nat by lia. cbn [skipn].
    now rewrite Nat.sub_0_r.
  - replace (List.length a - (List.length a - n) + List.length b - n)%nat
      with (List.length b) by lia.
    replace (List.length a + List.length b - n)%nat
      with (List.length b + (List.length a - n))%nat by lia.
    rewrite <- skipn_skipn. f_equal.
    rewrite skipn_app.
    replace (List.length a - n - List.length a)%nat with 0%nat by lia.
    reflexivity.
Qed.

(** The list [persistLog] stores: the entries with the new one pushed, less
    the oldest when that makes more than a hundred. *)
Lemma pushed_is_lastN (stored : list LogEntry.t) (entry : LogEntry.t) :
  (List.length stored <= 100)%nat ->
  (if (100 <? List.length (stored ++ [entry]))%nat
   then tl (stored ++ [entry]) else (stored ++ [entry])%list)
  = lastN 100 (stored ++ [entry]).
Proof.
  intros L. unfold lastN. rewrite length_app. cbn [List.length].
  destruct (Nat.ltb_spec 100 (List.length stored + 1)) as [G | G].
  - replace (List.length stored + 1 - 100)%nat with 1%nat by lia.
    destruct (stored ++ [entry])%list; reflexivity.
  - replace (List.length stored + 1 - 100)%nat with 0%nat by lia.
    reflexivity.
Qed.

Section Facts.

Variable env : Env.t.

(** One call of [log], by what the storage does. *)
Lemma log_step (level : LogLevel) (message : string) (data : option string)
    (p : Page.t) :
  let entry :=
    LogEntry.mk level message data (Env.toISOString env (Page.ticks p)) in
  let p' := snd (log env level message data p) in
  fst (log env level message data p) = Returned tt
  /\ Page.ticks p' = S (Page.ticks p)
  /\ (Page.item p' = Page.item p
      \/ exists stored,
           entriesOf (Page.item p) = Some stored
           /\ Page.item p'
              = Entries
                  (if (100 <? List.length (stored ++ [entry]))%nat
                   then tl (stored ++ [entry]) else (stored ++ [entry])%list))
  /\ (storageWorks env ->
      forall stored,
        entriesOf (Page.item p) = Some stored ->
        Page.item p'
        = Entries
            (if (100 <? List.length (stored ++ [entry]))%nat
             then tl (stored ++ [entry]) else (stored ++ [entry])%list)
        /\ (Env.isDevelopment env = false ->
            Page.console p' = Page.console p)).
Proof.
  cbv zeta.
  unfold log, persistLog, parseItem, setItem, storageWorks, consoleWrite,
    isoNow, tryCatch, bind, gets, modify, ret, throw, throwError.
  destruct p as [item console ticks].
  cbn [Page.item Page.console Page.ticks fst snd].
  destruct (Env.isDevelopment env);
    cbn [Page.item Page.console Page.ticks fst snd];
    (destruct (Env.storageError env) as [e|];
     cbn [Page.item Page.console Page.ticks fst snd];
     [ split; [reflexivity|]; split; [reflexivity|]; split; [now left|];
       intros [? _]; discriminate |]);
    (destruct item as [| |stored| |];
     cbn [Page.item Page.console Page.ticks fst snd entriesOf];
     try (split; [reflexivity|]; split; [reflexivity|]; split; [now left|];
          intros _ stored0 ?; discriminate));
    cbn [app List.length];
    match goal with
    | |- context [Env.setItemRefused env ?l] =>
        destruct (Env.setItemRefused env l) as [e|] eqn:R
    end;
    cbn [Page.item Page.console Page.ticks fst snd];
    (split; [reflexivity|]; split; [reflexivity|]; split;
     [ first [ now left | right; eexists; split; reflexivity ] |]);
    intros [_ W] stored0 E0; injection E0 as <-;
    try (rewrite W in R; discriminate);
    (split; [reflexivity|]); intros D; first [discriminate | reflexivity].
Qed.

Lemma logAll_steps (calls : list (LogLevel * string * option string))
    (p : Page.t) :
  fst (logAll env calls p) = Returned tt
  /\ (forall stored,
        entriesOf (Page.item p) = Some stored ->
        (List.length stored <= 100)%nat ->
        (exists kept,
           entriesOf (Page.item (snd (logAll env calls p))) = Some kept
           /\ (List.length kept <= 100)%nat)
        /\ (storageWorks env ->
            entriesOf (Page.item (snd (logAll env calls p)))
            = Some (lastN 100
                      (stored ++ entriesFor env (Page.ticks p) calls))
            /\ (Env.isDevelopment env = false ->
                Page.console (snd (logAll env calls p)) = Page.console p))).
Proof.
  revert p. induction calls as [|[[level message] data] rest IH]; intros p.
  - cbn [logAll entriesFor]. split; [reflexivity|].
    intros stored E L. cbn [snd ret]. split; [now exists stored|].
    intros _. rewrite app_nil_r, lastN_all by exact L. auto.
  - cbn [logAll entriesFor]. unfold bind.
    destruct (log_step level message data p) as (R & T & I & W).
    cbv zeta in *.
    destruct (log env level message data p) as [[[]|e] p1];
      cbn [fst snd] in *; [|discriminate].
    destruct (IH p1) as [R1 H1]. split; [exact R1|].
    intros stored E L.
    set (entry := LogEntry.mk level message data
                    (Env.toISOString env (Page.ticks p))) in *.
    assert (B : exists l1,
              entriesOf (Page.item p1) = Some l1
              /\ (List.length l1 <= 100)%nat
              /\ (storageWorks env -> l1 = lastN 100 (stored ++ [entry]))).
    { destruct I as [I | (s0 & E0 & I)].
      - destruct (Env.storageError env) eqn:SE.
        + exists stored. rewrite I. split; [exact E|]. split; [exact L|].
          intros [SW _]. congruence.
        + exists stored. rewrite I. split; [exact E|]. split; [exact L|].
          intros SW. destruct (W SW stored E) as [W1 _].
          rewrite I in W1. rewrite W1 in E. cbn [entriesOf] in E.
          injection E as E.
          rewrite pushed_is_lastN in E by exact L. now rewrite <- E at 1.
      - rewrite E in E0. injection E0 as <-.
        rewrite pushed_is_lastN in I by exact L.
        exists (lastN 100 (stored ++ [entry])). rewrite I.
        split; [reflexivity|]. split; [|reflexivity].
        rewrite lastN_length. lia. }
    destruct B as (l1 & E1 & L1 & S1).
    destruct (H1 l1 E1 L1) as [K1 F1]. split; [exact K1|].
    intros SW. destruct (F1 SW) as [F2 F3]. rewrite F2, T, (S1 SW).
    rewrite lastN_app_lastN, <- app_assoc. split; [reflexivity|].
    intros D. rewrite (F3 D). now apply (W SW stored E).
Qed.

End Facts.

(** X16. A call of [log] never throws, whatever the storage
    does. From a stored array of at most a hundred entries, any sequence
    of calls leaves an array of at most a hundred entries; and when the
    storage works, the entries it holds afterwards are the last hundred of
    the stored ones followed by the new ones, in the order of the calls,
    each with its level, message and data and the time of its call.
    Outside development mode nothing is written to the console then. *)
Theorem log_keeps_the_last_hundred
    (env : Env.t) (calls : list (LogLevel * string * option string))
    (p : Page.t) :
  let p' := snd (logAll env calls p) in
  fst (logAll env calls p) = Returned tt
  /\ (forall stored,
        entriesOf (Page.item p) = Some stored ->
        (List.length stored <= 100)%nat ->
        (exists kept,
           entriesOf (Page.item p') = Some kept
           /\ (List.length kept <= 100)%nat)
        /\ (storageWorks env ->
            entriesOf (Page.item p')
            = Some (lastN 100
                      (stored ++ entriesFor env (Page.ticks p) calls))
            /\ (Env.isDevelopment env = false ->
                Page.console p' = Page.console p))).
Proof. cbv zeta. apply logAll_steps. Qed.

(** X17. [getStoredLogs] never throws and changes nothing. It
    returns the entries of the stored array, and the empty list when
    there is no item, when the item is the empty text or is not JSON, and
    when the storage cannot be reached; a stored value that is not an
    array is returned as it is. After [clearStoredLogs] it returns the
    empty list, and after a call of [log] on a working storage its last
    entry is the one just logged. *)
Theorem stored_logs_are_read_back
    (env : Env.t) (level : LogLevel) (message : string)
    (data : option string) (p : Page.t) :
  (exists parsed,
     getStoredLogs env p = (Returned parsed, p)
     /\ (parsed <> ParsedOther ->
         parsed
         = ParsedEntries
             match Env.storageError env, entriesOf (Page.item p) with
             | None, Some stored => stored
             | _, _ => []
             end)
     /\ (parsed = ParsedOther <->
         Env.storageError env = None /\ Page.item p = OtherJSON))
  /\ (forall cleared,
        clearStoredLogs env p = (Returned tt, cleared) ->
        fst (getStoredLogs env cleared) = Returned (ParsedEntries []))
  /\ (storageWorks env ->
      forall stored,
        entriesOf (Page.item p) = Some stored ->
        exists kept,
          fst (getStoredLogs env (snd (log env level message data p)))
          = Returned (ParsedEntries kept)
          /\ last kept (LogEntry.mk level message data "")
             = LogEntry.mk level message data
                 (Env.toISOString env (Page.ticks p))).
Proof.
  split; [|split].
  - unfold getStoredLogs, parseItem, tryCatch, bind, gets, ret, throw,
      throwError.
    destruct (Env.storageError env) as [e|].
    + eexists. split; [reflexivity|]. split; [reflexivity|].
      split; [discriminate | intros [? _]; discriminate].
    + destruct (Page.item p) eqn:I; cbn [entriesOf];
        (eexists; split; [reflexivity|]);
        (split; [intros N; first [reflexivity | now contradiction N]|]);
        split; try discriminate; try (intros [_ ?]; discriminate);
        try (intros _; split; reflexivity).
  - intros cleared. unfold clearStoredLogs, getStoredLogs, parseItem,
      tryCatch, bind, gets, modify, ret, throw.
    destruct (Env.storageError env) as [e|]; [discriminate|].
    intros H. injection H as <-. reflexivity.
  - intros SW stored E.
    destruct (log_step env level message data p) as (_ & _ & _ & W).
    cbv zeta in W. destruct (W SW stored E) as [I _].
    unfold getStoredLogs, parseItem, tryCatch, bind, gets, ret.
    destruct SW as [SE _]. rewrite SE, I. cbn [fst].
    eexists. split; [reflexivity|].
    match goal with
    | |- context [(100 <? ?n)%nat] => destruct (Nat.ltb_spec 100 n) as [G | G]
    end.
    + destruct stored as [|s0 stored]; [cbn in G; lia|].
      cbn [app tl]. apply last_last.
    + apply last_last.
Qed.

End LoggerFacts.

Lemma log_keeps_the_last_hundred_witness :
  LoggerNotions.entriesOf
    (Logger.Page.item
       (snd (LoggerNotions.logAll LoggerNotions.sampleEnv
               LoggerNotions.sampleCalls LoggerNotions.emptyPage)))
  = Some (LoggerNotions.lastN 100
            ([] ++ LoggerNotions.entriesFor LoggerNotions.sampleEnv 0
                     LoggerNotions.sampleCalls)).
Proof.
  apply (LoggerFacts.log_keeps_the_last_hundred LoggerNotions.sampleEnv
           LoggerNotions.sampleCalls LoggerNotions.emptyPage).
  - reflexivity.
  - cbn. lia.
  - split; reflexivity.
Defined.

Lemma stored_logs_are_read_back_witness :
  fst (Logger.getStoredLogs LoggerNotions.sampleEnv LoggerNotions.emptyPage)
  = Returned (Logger.ParsedEntries []).
Proof.
  destruct (LoggerFacts.stored_logs_are_read_back LoggerNotions.sampleEnv
              Logger.info "" None
              (Logger.Page.mk
                 (Logger.Entries [Logger.LogEntry.mk Logger.warn "w" None "t"])
                 [] 0))
    as [_ [H _]].
  apply H. reflexivity.
Defined.

(** ** The wallet connection *)

Module WalletFacts.

Import Wallet WalletNotions.

Lemma isArbitrum_spec (n : num) :
  isArbitrum n = true <-> n = Some 421614 \/ n = Some 42161.
Proof.
  unfold isArbitrum, ARBITRUM_SEPOLIA_CHAIN_ID, ARBITRUM_MAINNET_CHAIN_ID.
  destruct n as [z|]; cbn [num_eqb].
  - rewrite orb_true_iff, !Z.eqb_eq. split.
    + intros [-> | ->]; auto.
    + intros [[= ->] | [= ->]]; auto.
  - split; [discriminate | intros [H | H]; discriminate].
Qed.

Lemma handle_keeps_flag (ethereum : option Ethereum.t) (e : Event)
    (h : Hook.t) :
  flagMatchesChain (Hook.walletState h) ->
  flagMatchesChain (Hook.walletState (handle ethereum e h)).
Proof.
  intros F. destruct e; cbn [handle].
  - unfold connect. destruct ethereum as [eth|]; [|exact F].
    destruct (Ethereum.eth_requestAccounts eth) as [accounts | code];
      [|destruct (num_eqb code _); exact F].
    destruct (Ethereum.eth_chainId eth) as [chainId | code];
      [|destruct (num_eqb code _); exact F].
    destruct accounts as [l|]; [reflexivity | exact F].
  - unfold checkConnection. destruct ethereum as [eth|]; [|exact F].
    destruct (Ethereum.eth_accounts eth) as [accounts | code]; [|exact F].
    destruct (Ethereum.eth_chainId eth) as [chainId | code]; [|exact F].
    destruct accounts as [[|first rest]|]; first [exact F | reflexivity].
  - reflexivity.
  - unfold handleAccountsChanged.
    destruct (List.length accounts =? 0)%nat; [reflexivity | exact F].
  - reflexivity.
  - unfold switchToArbitrumSepolia. destruct ethereum as [eth|]; [|exact F].
    destruct (Ethereum.wallet_switchEthereumChain eth _) as [[] | code];
      [exact F|].
    destruct (num_eqb code _); [|exact F].
    destruct (Ethereum.wallet_addEthereumChain eth _); exact F.
  - exact F.
Qed.

(** X18. In every state the wallet hook reaches, whatever the
    wallet answers and notifies, [isCorrectNetwork] says what [chainId]
    is: it is true exactly when the chain id is 421614, Arbitrum Sepolia,
    or 42161, Arbitrum mainnet, and false when the chain id is [null] or
    [NaN]. Each of [connect], [checkConnection], [disconnect], the two
    notification handlers, [switchToArbitrumSepolia] and [clearError]
    keeps this. *)
Theorem network_flag_follows_chain_id
    (events : list (option Ethereum.t * Event)) (h : Hook.t) :
  flagMatchesChain (Hook.walletState h) ->
  let s := Hook.walletState (after events h) in
  flagMatchesChain s
  /\ (State.isCorrectNetwork s = true
      <-> State.chainId s = Some (Some 421614)
          \/ State.chainId s = Some (Some 42161)).
Proof.
  intros F. cbv zeta.
  assert (G : flagMatchesChain (Hook.walletState (after events h))).
  { revert h F. induction events as [|[ethereum e] rest IH]; intros h F.
    - exact F.
    - cbn [after]. apply IH. now apply handle_keeps_flag. }
  split; [exact G|]. unfold flagMatchesChain in G. rewrite G.
  destruct (State.chainId _) as [n|].
  - rewrite isArbitrum_spec. split.
    + intros [-> | ->]; auto.
    + intros [[= ->] | [= ->]]; auto.
  - split; [discriminate | intros [H | H]; discriminate].
Qed.

(** X19. [connect] always settles. Without a wallet it only
    sets the error that asks to install one. With a wallet it leaves
    [isConnecting] false. When the two requests are answered and the
    accounts are an array, the error is null and the state is connected,
    with the first account as the address, so with no address at all when
    the wallet grants no account, and with the chain id read from the
    wallet's text. Otherwise the wallet state is what it was, and the
    error is the rejection message when the error code is 4001 and the
    general message if not. *)
Theorem connect_always_settles (ethereum : option Ethereum.t) (h : Hook.t) :
  let h' := connect ethereum h in
  (ethereum = None ->
   h'
   = setError
       (Some "MetaMask or compatible wallet not found. Please install MetaMask.")
       h)
  /\ (forall eth,
        ethereum = Some eth ->
        Hook.isConnecting h' = false
        /\ (forall accounts chainId,
              Ethereum.eth_requestAccounts eth = Resolved (Some accounts) ->
              Ethereum.eth_chainId eth = Resolved chainId ->
              Hook.error h' = None
              /\ Hook.walletState h'
                 = State.mk true (nth_error accounts 0)
                     (Some (parseInt16 chainId))
                     (isArbitrum (parseInt16 chainId)) true
              /\ (accounts = [] ->
                  State.isConnected (Hook.walletState h') = true
                  /\ State.address (Hook.walletState h') = None))
        /\ (Hook.error h' <> None ->
            Hook.walletState h' = Hook.walletState h
            /\ (Hook.error h'
                = Some "Connection rejected. Please approve the connection request."
                \/ Hook.error h'
                   = Some "Failed to connect wallet. Please try again.")
            /\ (Hook.error h'
                = Some "Connection rejected. Please approve the connection request."
                <-> Ethereum.eth_requestAccounts eth = Rejected (Some 4001)
                    \/ (exists accounts,
                          Ethereum.eth_requestAccounts eth = Resolved accounts
                          /\ Ethereum.eth_chainId eth
                             = Rejected (Some 4001))))).
Proof.
  cbv zeta. split; [intros ->; reflexivity|].
  intros eth ->. unfold connect.
  destruct (Ethereum.eth_requestAccounts eth) as [accounts | code] eqn:RA.
  - destruct (Ethereum.eth_chainId eth) as [chainId | code] eqn:RC.
    + destruct accounts as [l|].
      * split; [reflexivity|]. split.
        -- intros accounts c [= <-] [= <-].
           split; [reflexivity|]. split; [reflexivity|].
           intros ->. split; reflexivity.
        -- intros N. now contradiction N.
      * split; [reflexivity|]. split; [intros ? ? ?; discriminate|].
        intros _. cbn. split; [reflexivity|]. split; [now right|].
        split; [discriminate|].
        intros [H | (a & _ & H)]; discriminate.
    + split; [destruct (num_eqb code _); reflexivity|].
      split; [intros ? ? _ ?; discriminate|].
      intros _. destruct code as [c|]; cbn [num_eqb].
      * destruct (Z.eqb_spec c 4001) as [-> | N]; cbn.
        -- split; [reflexivity|]. split; [now left|].
           split; [|reflexivity]. intros _. right. now exists accounts.
        -- split; [reflexivity|]. split; [now right|].
           split; [discriminate|].
           intros [H | (a & _ & H)]; [discriminate|].
           injection H as H. contradiction.
      * cbn. split; [reflexivity|]. split; [now right|].
        split; [discriminate|].
        intros [H | (a & _ & H)]; discriminate.
  - split; [destruct (num_eqb code _); reflexivity|].
    split; [intros ? ? ?; discriminate|].
    intros _. destruct code as [c|]; cbn [num_eqb].
    + destruct (Z.eqb_spec c 4001) as [-> | N]; cbn.
      * split; [reflexivity|]. split; [now left|].
        split; [|reflexivity]. intros _. now left.
      * split; [reflexivity|]. split; [now right|].
        split; [discriminate|].
        intros [H | (a & H & _)]; [|discriminate].
        injection H as H. contradiction.
    + cbn. split; [reflexivity|]. split; [now right|].
      split; [discriminate|].
      intros [H | (a & H & _)]; discriminate.
Qed.

Lemma hexDigitValue_hexDigit (d : Z) :
  0 <= d < 16 -> hexDigitValue (hexDigit d) = Some d.
Proof.
  intros R.
  assert (C : d = 0 \/ d = 1 \/ d = 2 \/ d = 3 \/ d = 4 \/ d = 5 \/ d = 6
              \/ d = 7 \/ d = 8 \/ d = 9 \/ d = 10 \/ d = 11 \/ d = 12
              \/ d = 13 \/ d = 14 \/ d = 15) by lia.
  repeat (destruct C as [-> | C]; [reflexivity|]). subst d. reflexivity.
Qed.

Lemma parseDigits16_append (acc : option Z) (a b : string) :
  RegexNotions.allIn isHexDigit a = true ->
  parseDigits16 acc (a ++ b) = parseDigits16 (parseDigits16 acc a) b.
Proof.
  revert acc. induction a as [|c a IH]; intros acc H; [reflexivity|].
  cbn [RegexNotions.allIn] in H. apply andb_prop in H. destruct H as [C H].
  cbn [String.append parseDigits16]. unfold isHexDigit in C.
  destruct (hexDigitValue c); [|discriminate]. now apply IH.
Qed.

Lemma allIn_append_one (cls : ascii -> bool) (a : string) (c : ascii) :
  RegexNotions.allIn cls (a ++ String c "")
  = RegexNotions.allIn cls a && cls c.
Proof.
  induction a as [|x a IH]; cbn [String.append RegexNotions.allIn].
  - now rewrite andb_true_r.
  - now rewrite IH, andb_assoc.
Qed.

Lemma hexDigitsOf_reads_back (fuel : nat) (n : Z) :
  0 <= n < 16 ^ Z.of_nat fuel -> (0 < fuel)%nat ->
  RegexNotions.allIn isHexDigit (hexDigitsOf fuel n) = true
  /\ parseDigits16 None (hexDigitsOf fuel n) = Some n.
Proof.
  revert n. induction fuel as [|k IH]; intros n R P; [lia|].
  cbn [hexDigitsOf]. destruct (Z.ltb_spec n 16) as [L | L].
  - cbn [RegexNotions.allIn parseDigits16]. unfold isHexDigit.
    rewrite hexDigitValue_hexDigit by lia. split; reflexivity.
  - assert (K : (0 < k)%nat).
    { destruct k; [|lia]. cbn in R. lia. }
    assert (R1 : 0 <= n / 16 < 16 ^ Z.of_nat k).
    { rewrite Nat2Z.inj_succ, Z.pow_succ_r in R by lia.
      split; [apply Z.div_pos; lia|].
      apply Z.div_lt_upper_bound; lia. }
    destruct (IH (n / 16) R1 K) as [A E].
    assert (D : 0 <= n mod 16 < 16) by (apply Z.mod_pos_bound; lia).
    split.
    + rewrite allIn_append_one, A. unfold isHexDigit.
      now rewrite hexDigitValue_hexDigit.
    + rewrite parseDigits16_append, E by exact A.
      cbn [parseDigits16]. rewrite hexDigitValue_hexDigit by exact D.
      f_equal. rewrite (Z.div_mod n 16) at 3 by lia. reflexivity.
Qed.

Lemma numberToString16_reads_back (n : Z) :
  0 <= n ->
  RegexNotions.allIn isHexDigit (numberToString16 n) = true
  /\ parseDigits16 None (numberToString16 n) = Some n.
Proof.
  intros P. unfold numberToString16. apply hexDigitsOf_reads_back; [|lia].
  split; [exact P|].
  rewrite Nat2Z.inj_succ, Z2Nat.id by apply Z.log2_nonneg.
  destruct (Z.eq_dec n 0) as [-> | N]; [reflexivity|].
  apply Z.lt_le_trans with (2 ^ Z.succ (Z.log2 n)).
  - apply Z.log2_spec. lia.
  - apply Z.pow_le_mono_l. pose proof (Z.log2_nonneg n). lia.
Qed.

Lemma parseInt16_prefixed (digits : string) :
  parseInt16 ("0x" ++ digits) = parseDigits16 None digits.
Proof.
  unfold parseInt16. cbn [String.append trimStart].
  change (isWhiteSpace "0") with false. cbv iota.
  change (Ascii.eqb "0" "-") with false.
  change (Ascii.eqb "0" "+") with false. cbv iota.
  cbn [fst snd].
  change (Ascii.eqb "0" "0" && (Ascii.eqb "x" "x" || Ascii.eqb "x" "X"))
    with true.
  cbv iota. destruct (parseDigits16 None digits) as [v|]; [|reflexivity].
  cbn [option_map]. f_equal. lia.
Qed.

(** X20. The chain id goes to the wallet and comes back
    unchanged: for a chain id that is a safe integer and not negative, the
    text "0x" followed
    by [toString(16)] is read by [parseInt(_, 16)] as the same number. So
    the parameter that [switchToArbitrumSepolia] sends, "0x66eee", is
    exactly a text that [handleChainChanged] reads as 421614, for which it
    sets the network flag; and a chain id the wallet notifies this way is
    stored as it is, with the flag set exactly for 421614 and 42161. *)
Theorem chain_id_survives_the_round_trip (n : Z) (h : Hook.t) :
  0 <= n < 2 ^ 53 ->
  let notified :=
    Hook.walletState (handleChainChanged ("0x" ++ numberToString16 n) h) in
  parseInt16 ("0x" ++ numberToString16 n) = Some n
  /\ State.chainId notified = Some (Some n)
  /\ (State.isCorrectNetwork notified = true <-> n = 421614 \/ n = 42161)
  /\ sepoliaChainIdHex = "0x66eee"
  /\ State.chainId (Hook.walletState (handleChainChanged sepoliaChainIdHex h))
     = Some (Some 421614)
  /\ State.isCorrectNetwork
       (Hook.walletState (handleChainChanged sepoliaChainIdHex h))
     = true.
Proof.
  intros P. cbv zeta.
  assert (E : parseInt16 ("0x" ++ numberToString16 n) = Some n).
  { rewrite parseInt16_prefixed.
    apply numberToString16_reads_back. lia. }
  unfold handleChainChanged. cbv zeta.
  cbn [setWalletState Hook.walletState State.chainId State.isCorrectNetwork].
  rewrite E. split; [reflexivity|]. split; [reflexivity|]. split.
  - rewrite isArbitrum_spec. split.
    + intros [[= ->] | [= ->]]; auto.
    + intros [-> | ->]; auto.
  - repeat split.
Qed.

End WalletFacts.

Lemma network_flag_follows_chain_id_witness :
  Wallet.State.isCorrectNetwork
    (Wallet.Hook.walletState
       (WalletNotions.after
          [ (Some WalletNotions.mainnetWallet, WalletNotions.Connect);
            (None, WalletNotions.ChainChanged "0x1") ]
          Wallet.initial))
  = false.
Proof.
  destruct (WalletFacts.network_flag_follows_chain_id
              [ (Some WalletNotions.mainnetWallet, WalletNotions.Connect);
                (None, WalletNotions.ChainChanged "0x1") ]
              Wallet.initial eq_refl) as [F _].
  exact F.
Defined.

Lemma connect_always_settles_witness :
  Wallet.Hook.isConnecting
    (Wallet.connect (Some WalletNotions.mainnetWallet) Wallet.initial)
  = false.
Proof.
  apply (WalletFacts.connect_always_settles
           (Some WalletNotions.mainnetWallet) Wallet.initial)
    with (eth := WalletNotions.mainnetWallet).
  reflexivity.
Defined.

Lemma chain_id_survives_the_round_trip_witness :
  parseInt16 ("0x" ++ numberToString16 42161) = Some 42161.
Proof.
  apply (WalletFacts.chain_id_survives_the_round_trip 42161 Wallet.initial).
  lia.
Defined.

(** ** More on the sessions *)

#[local] Arguments String.append : simpl never.
#[local] Arguments strIncludes : simpl never.
#[local] Arguments truthy : simpl never.
#[local] Arguments strictEq : simpl never.
#[local] Arguments documentTypeString : simpl never.
#[local] Arguments isAdult : simpl never.
#[local] Arguments isDocumentValid : simpl never.

Module SessionFacts.

Import SessionNotions FormNotions.

(** A run of [simulateVerification], in full. *)
Lemma simulateVerification_run
    (newDate : string -> JSDate) (w : World.t) (kycData : KYCData.t)
    (userAddress : string) (b : Browser.t) :
  simulateVerification newDate w kycData userAddress b
  = (Returned (simulated newDate w (Browser.ticks b) kycData userAddress),
     tick (tick (tick (tick (logCall Call_simulateVerification b))))).
Proof. reflexivity. Qed.

(** Every run of the earlier [startVerification] returns, and leaves the
    session either completed, after the eight updates of the successful
    path, or failed, by an update that leaves the step index as it was. *)
Lemma Rev1_startVerification_runs
    (newDate : string -> JSDate) (w : World.t) (b0 : Browser.t)
    (userAddress : option string) (kycData : KYCData.t)
    (o : Outcome unit) (b1 : Browser.t) :
  Rev1.startVerification newDate w userAddress kycData b0 = (o, b1) ->
  o = Returned tt
  /\ exists before,
       Browser.renders b1
       = (Browser.renders b0 ++ before ++ [Browser.session b1])%list
       /\ Forall (fun s => KYCVerificationState.totalSteps s
                          = KYCVerificationState.totalSteps (Browser.session b0))
                 (before ++ [Browser.session b1])
       /\ ((KYCVerificationState.status (Browser.session b1) = completed
            /\ map phase (before ++ [Browser.session b1])
               = [ (encrypting, 2); (encrypting, 2); (computing, 3);
                   (computing, 3); (verifying, 4); (verifying, 4);
                   (submitting, 5); (completed, 6) ])
           \/ (KYCVerificationState.status (Browser.session b1) = failed
               /\ KYCVerificationState.currentStep (Browser.session b1)
                  = KYCVerificationState.currentStep
                      (last before (Browser.session b0))
               /\ (before = []
                   \/ In (phase (last before (Browser.session b0)))
                         [(encrypting, 2); (computing, 3); (verifying, 4)]))).
Proof.
  follow.
  all: conclude.
  all: split; [reflexivity|].
  all: pick_before.
  all: split; [repeat constructor|].
  all: first [ left; split; reflexivity
             | right; cbn; split; [reflexivity|]; split; [reflexivity|];
               first [ left; reflexivity | right; cbn; tauto ] ].
Qed.

(** X21. Without a wallet address, absent or empty,
    [startVerification] of either revision does nothing but report it: it
    returns after one update that sets the error "Please connect your
    wallet first" and the status failed, and leaves the step index and
    every artifact of the session as they were; no call is made and the
    clock is not read. *)
Theorem no_wallet_no_verification
    (newDate : string -> JSDate) (w : World.t) (b : Browser.t)
    (userAddress : option string) (provider : option Provider.t)
    (chainId : option Z) (kycData : KYCData.t) :
  userAddress = None \/ userAddress = Some "" ->
  forall r,
    r = Rev2.startVerification newDate w userAddress provider chainId
          kycData b
    \/ r = Rev1.startVerification newDate w userAddress kycData b ->
    let before := Browser.session b in
    let after := Browser.session (snd r) in
    fst r = Returned tt
    /\ Browser.calls (snd r) = Browser.calls b
    /\ Browser.ticks (snd r) = Browser.ticks b
    /\ Browser.renders (snd r) = (Browser.renders b ++ [after])%list
    /\ after
       = KYCVerificationState.mk failed
           (KYCVerificationState.currentStep before)
           (KYCVerificationState.totalSteps before)
           (KYCVerificationState.protectedData before)
           (KYCVerificationState.zkProof before)
           (KYCVerificationState.verificationResult before)
           (KYCVerificationState.transactionHash before)
           (Some "Please connect your wallet first").
Proof.
  intros U r R. cbv zeta.
  assert (E : r = updateState
                    [ErrorIs "Please connect your wallet first"; Status failed]
                    b).
  { destruct R as [-> | ->], U as [-> | ->]; reflexivity. }
  rewrite E. repeat split.
Qed.

(** X30. The earlier revision of [startVerification] keeps the
    step discipline of the later one. Every run returns: no exception
    leaves the hook. It leaves the session completed, after the eight
    updates whose statuses and step indices are encrypting 2, twice,
    computing 3, twice, verifying 4, twice, submitting 5 and completed 6;
    or it leaves it failed, by an update that keeps the step index of the
    state before it, which is the state the run started from or one at
    step 2, 3 or 4. No update changes the number of steps. *)
Theorem earlier_sessions_keep_the_step_discipline
    (newDate : string -> JSDate) (w : World.t) (b0 : Browser.t)
    (userAddress : option string) (kycData : KYCData.t) :
  let r := Rev1.startVerification newDate w userAddress kycData b0 in
  fst r = Returned tt
  /\ exists before,
       Browser.renders (snd r)
       = (Browser.renders b0 ++ before ++ [Browser.session (snd r)])%list
       /\ Forall (fun s => KYCVerificationState.totalSteps s
                          = KYCVerificationState.totalSteps (Browser.session b0))
                 (before ++ [Browser.session (snd r)])
       /\ ((KYCVerificationState.status (Browser.session (snd r)) = completed
            /\ map phase (before ++ [Browser.session (snd r)])
               = [ (encrypting, 2); (encrypting, 2); (computing, 3);
                   (computing, 3); (verifying, 4); (verifying, 4);
                   (submitting, 5); (completed, 6) ])
           \/ (KYCVerificationState.status (Browser.session (snd r)) = failed
               /\ KYCVerificationState.currentStep (Browser.session (snd r))
                  = KYCVerificationState.currentStep
                      (last before (Browser.session b0))
               /\ (before = []
                   \/ In (phase (last before (Browser.session b0)))
                         [(encrypting, 2); (computing, 3); (verifying, 4)]))).
Proof.
  cbv zeta.
  destruct (Rev1.startVerification newDate w userAddress kycData b0)
    as [o b1] eqn:Run.
  exact (Rev1_startVerification_runs _ _ _ _ _ _ _ Run).
Qed.

Ltac terminal_states :=
  follow;
  conclude;
  (split; [|first [ discriminate | intros _; eexists; reflexivity ]]);
  try discriminate;
  intros _;
  repeat match goal with
         | H : negb _ = false |- _ => apply negb_false_iff in H
         end;
  do 5 eexists;
  (split; [reflexivity|]);
  repeat (split; [reflexivity|]);
  unfold localProof;
  (split; [eassumption|]);
  (split; [eassumption|]);
  eexists; reflexivity.

Lemma Rev2_terminal_states
    (newDate : string -> JSDate) (w : World.t) (b0 : Browser.t)
    (userAddress : option string) (provider : option Provider.t)
    (chainId : option Z) (kycData : KYCData.t)
    (o : Outcome unit) (b1 : Browser.t) :
  Rev2.startVerification newDate w userAddress provider chainId kycData b0
  = (o, b1) ->
  (KYCVerificationState.status (Browser.session b1) = completed ->
   exists address pd zk vr tx,
     userAddress = Some address
     /\ phase (Browser.session b1) = (completed, 6)
     /\ KYCVerificationState.protectedData (Browser.session b1) = Some pd
     /\ KYCVerificationState.zkProof (Browser.session b1) = Some zk
     /\ KYCVerificationState.verificationResult (Browser.session b1)
        = Some vr
     /\ KYCVerificationState.transactionHash (Browser.session b1) = Some tx
     /\ KYCVerificationState.error (Browser.session b1)
        = KYCVerificationState.error (Browser.session b0)
     /\ ProtectedData.address pd = address
     /\ ProtectedData.dataHash pd = createCommitment kycData
     /\ zk = localProof newDate w (Browser.ticks b0) kycData address
     /\ ZKVerificationResult.isValid (verifyZKProof zk full_kyc) = true
     /\ VerificationResult.isValid vr = true
     /\ (exists log,
           tx = ("0x" ++ hexOfBytes (World.getRandomValues w log))%string))
  /\ (KYCVerificationState.status (Browser.session b1) = failed ->
      exists message,
        KYCVerificationState.error (Browser.session b1) = Some message).
Proof. terminal_states. Qed.

Lemma Rev1_terminal_states
    (newDate : string -> JSDate) (w : World.t) (b0 : Browser.t)
    (userAddress : option string) (kycData : KYCData.t)
    (o : Outcome unit) (b1 : Browser.t) :
  Rev1.startVerification newDate w userAddress kycData b0 = (o, b1) ->
  (KYCVerificationState.status (Browser.session b1) = completed ->
   exists address pd zk vr tx,
     userAddress = Some address
     /\ phase (Browser.session b1) = (completed, 6)
     /\ KYCVerificationState.protectedData (Browser.session b1) = Some pd
     /\ KYCVerificationState.zkProof (Browser.session b1) = Some zk
     /\ KYCVerificationState.verificationResult (Browser.session b1)
        = Some vr
     /\ KYCVerificationState.transactionHash (Browser.session b1) = Some tx
     /\ KYCVerificationState.error (Browser.session b1)
        = KYCVerificationState.error (Browser.session b0)
     /\ ProtectedData.address pd = address
     /\ ProtectedData.dataHash pd = createCommitment kycData
     /\ zk = localProof newDate w (Browser.ticks b0) kycData address
     /\ ZKVerificationResult.isValid (verifyZKProof zk full_kyc) = true
     /\ VerificationResult.isValid vr = true
     /\ (exists log,
           tx = ("0x" ++ hexOfBytes (World.getRandomValues w log))%string))
  /\ (KYCVerificationState.status (Browser.session b1) = failed ->
      exists message,
        KYCVerificationState.error (Browser.session b1) = Some message).
Proof. terminal_states. Qed.

(** X22. A run of [startVerification], of either revision, that
    leaves the session completed leaves it at step 6 with every artifact
    set: the protected data carry the wallet address and the commitment of
    the record; the proof is the one generated locally, and it passed the
    local verification; the verification result is valid; the transaction
    hash is "0x" followed by random bytes in hexadecimal; and the error is
    what it was before the run. A run that leaves the session failed
    leaves an error message. *)
Theorem completed_sessions_hold_every_artifact
    (newDate : string -> JSDate) (w : World.t) (b0 : Browser.t)
    (userAddress : option string) (provider : option Provider.t)
    (chainId : option Z) (kycData : KYCData.t) :
  forall r,
    r = Rev2.startVerification newDate w userAddress provider chainId
          kycData b0
    \/ r = Rev1.startVerification newDate w userAddress kycData b0 ->
    (KYCVerificationState.status (Browser.session (snd r)) = completed ->
     exists address pd zk vr tx,
       userAddress = Some address
       /\ phase (Browser.session (snd r)) = (completed, 6)
       /\ KYCVerificationState.protectedData (Browser.session (snd r))
          = Some pd
       /\ KYCVerificationState.zkProof (Browser.session (snd r)) = Some zk
       /\ KYCVerificationState.verificationResult (Browser.session (snd r))
          = Some vr
       /\ KYCVerificationState.transactionHash (Browser.session (snd r))
          = Some tx
       /\ KYCVerificationState.error (Browser.session (snd r))
          = KYCVerificationState.error (Browser.session b0)
       /\ ProtectedData.address pd = address
       /\ ProtectedData.dataHash pd = createCommitment kycData
       /\ zk = localProof newDate w (Browser.ticks b0) kycData address
       /\ ZKVerificationResult.isValid (verifyZKProof zk full_kyc) = true
       /\ VerificationResult.isValid vr = true
       /\ (exists log,
             tx = ("0x" ++ hexOfBytes (World.getRandomValues w log))%string))
    /\ (KYCVerificationState.status (Browser.session (snd r)) = failed ->
        exists message,
          KYCVerificationState.error (Browser.session (snd r))
          = Some message).
Proof.
  intros r [-> | ->].
  - destruct (Rev2.startVerification newDate w userAddress provider chainId
                kycData b0) as [o b1] eqn:Run.
    exact (Rev2_terminal_states _ _ _ _ _ _ _ _ _ Run).
  - destruct (Rev1.startVerification newDate w userAddress kycData b0)
      as [o b1] eqn:Run.
    exact (Rev1_terminal_states _ _ _ _ _ _ _ Run).
Qed.


(** The outcome of a run of [startVerification] whose verification step
    is the simulation, started with [t] readings of the clock taken. *)
Ltac simulated_outcome :=
  unfold localProof;
  unfold_hook;
  repeat (cbn; autorewrite with store;
          rewrite ?simulateVerification_run; autorewrite with store;
          split_path);
  conclude;
  unfold simulated in *; cbn [VerificationResult.isValid] in *;
  repeat match goal with
         | H : negb _ = true |- _ => apply negb_true_iff in H
         | H : negb _ = false |- _ => apply negb_false_iff in H
         end;
  (split;
    [ split;
      [ first [ intros D; discriminate D
              | intros _; do 2 eexists;
                split; [reflexivity|]; split; [eassumption|];
                split; [first [reflexivity | eassumption]|];
                split; eassumption ]
      | intros (a' & e' & Ha & Ht & He & Hv & Hs);
        first [ reflexivity | exfalso; congruence ] ]
    | eexists; split;
      [ first [ symmetry; apply app_nil_r | reflexivity ]
      | split; [ reflexivity | first [ intros D; discriminate D | reflexivity ] ] ] ]).

Lemma Rev2_simulated_session_outcome
    (newDate : string -> JSDate) (w : World.t) (b0 : Browser.t)
    (userAddress : option string) (chainId : option Z) (kycData : KYCData.t)
    (o : Outcome unit) (b1 : Browser.t) :
  Rev2.startVerification newDate w userAddress None chainId kycData b0
  = (o, b1) ->
  (KYCVerificationState.status (Browser.session b1) = completed <->
   exists address encrypted,
     userAddress = Some address
     /\ truthy address = true
     /\ World.encryptForTEE w kycData (Browser.calls b0) = Returned encrypted
     /\ ZKVerificationResult.isValid
          (verifyZKProof
             (localProof newDate w (Browser.ticks b0) kycData address)
             full_kyc) = true
     /\ VerificationResult.isValid
          (simulated newDate w (5 + Browser.ticks b0) kycData address)
        = true)
  /\ exists made,
       Browser.calls b1 = (Browser.calls b0 ++ made)%list
       /\ forallb isLocalCall made = true
       /\ (KYCVerificationState.status (Browser.session b1) = completed ->
           made = [ Call_encryptForTEE; Call_simulateVerification;
                    Call_generateMockTransactionHash ]).
Proof. simulated_outcome. Qed.

Lemma Rev1_simulated_session_outcome
    (newDate : string -> JSDate) (w : World.t) (b0 : Browser.t)
    (userAddress : option string) (kycData : KYCData.t)
    (o : Outcome unit) (b1 : Browser.t) :
  Rev1.startVerification newDate w userAddress kycData b0 = (o, b1) ->
  (KYCVerificationState.status (Browser.session b1) = completed <->
   exists address encrypted,
     userAddress = Some address
     /\ truthy address = true
     /\ World.encryptForTEE w kycData (Browser.calls b0) = Returned encrypted
     /\ ZKVerificationResult.isValid
          (verifyZKProof
             (localProof newDate w (Browser.ticks b0) kycData address)
             full_kyc) = true
     /\ VerificationResult.isValid
          (simulated newDate w (4 + Browser.ticks b0) kycData address)
        = true)
  /\ exists made,
       Browser.calls b1 = (Browser.calls b0 ++ made)%list
       /\ forallb isLocalCall made = true
       /\ (KYCVerificationState.status (Browser.session b1) = completed ->
           made = [ Call_encryptForTEE; Call_simulateVerification;
                    Call_generateMockTransactionHash ]).
Proof. simulated_outcome. Qed.

(** X24. Without a provider (always, in the earlier revision) a
    run of [startVerification] completes exactly when there is a non-empty
    wallet address, the encryption returns, the local proof passes its
    verification, and the simulated verification is valid. The simulation
    starts after four readings of the clock in the earlier revision and
    after five in the later one, whose logger reads the clock for its
    warning before the simulation. Whatever the outcome, the only calls
    made are among the encryption, the simulation and the mock transaction
    hash: nothing is asked of the wallet or of the iExec SDK; and a
    completed run made exactly these three, in this order. *)
Theorem simulated_sessions_complete_iff_checks_pass
    (newDate : string -> JSDate) (w : World.t) (b0 : Browser.t)
    (userAddress : option string) (chainId : option Z)
    (kycData : KYCData.t) :
  forall r t,
    (r = Rev2.startVerification newDate w userAddress None chainId kycData b0
     /\ t = (5 + Browser.ticks b0)%nat)
    \/ (r = Rev1.startVerification newDate w userAddress kycData b0
        /\ t = (4 + Browser.ticks b0)%nat) ->
    (KYCVerificationState.status (Browser.session (snd r)) = completed <->
     exists address encrypted,
       userAddress = Some address
       /\ truthy address = true
       /\ World.encryptForTEE w kycData (Browser.calls b0)
          = Returned encrypted
       /\ ZKVerificationResult.isValid
            (verifyZKProof
               (localProof newDate w (Browser.ticks b0) kycData address)
               full_kyc) = true
       /\ VerificationResult.isValid
            (simulated newDate w t kycData address)
          = true)
    /\ exists made,
         Browser.calls (snd r) = (Browser.calls b0 ++ made)%list
         /\ forallb isLocalCall made = true
         /\ (KYCVerificationState.status (Browser.session (snd r))
             = completed ->
             made = [ Call_encryptForTEE; Call_simulateVerification;
                      Call_generateMockTransactionHash ]).
Proof.
  intros r t [[-> ->] | [-> ->]].
  - destruct (Rev2.startVerification newDate w userAddress None chainId
                kycData b0) as [o b1] eqn:Run.
    exact (Rev2_simulated_session_outcome _ _ _ _ _ _ _ _ Run).
  - destruct (Rev1.startVerification newDate w userAddress kycData b0)
      as [o b1] eqn:Run.
    exact (Rev1_simulated_session_outcome _ _ _ _ _ _ _ Run).
Qed.

Ltac unfold_client :=
  unfold Rev2.remoteVerification, Rev2.executeVerificationTask,
    Rev2.grantVerificationAccess, Rev2.protectKYCData,
    Rev2.initializeDataProtector, Rev2.providerRequest, dateNow, readClock,
    tryCatch, bind, external, consult, logged, enter, lift, throwError, throw,
    ret, modify.





(** X26. [initializeDataProtector] never throws: it returns the SDK
    instance or null and leaves the session as it was. It reads the clock
    only for its logger, between two and five times. It returns an
    instance exactly when there is a provider with a [request] method,
    [eth_accounts] answers a non-empty list, the import of the SDK
    returns, and the constructor of the SDK returns an instance that has
    a [core] with a [protectData] method; then it asked [eth_accounts]
    once, constructed the SDK once and read the clock five times. Every
    other case, a failure of the wallet, of the import or of the
    constructor included, gives null. *)
Theorem initializeDataProtector_never_throws
    (w : World.t) (provider : option Provider.t) (isTestnet : bool)
    (b : Browser.t) :
  let run := Rev2.initializeDataProtector w provider isTestnet b in
  exists answer made,
    fst run = Returned answer
    /\ Browser.calls (snd run)
       = (Browser.calls b ++ Call_initializeDataProtector :: made)%list
    /\ Browser.session (snd run) = Browser.session b
    /\ (2 + Browser.ticks b <= Browser.ticks (snd run)
        <= 5 + Browser.ticks b)%nat
    /\ (forall dataProtector,
          answer = Some dataProtector <->
          exists p accounts,
            provider = Some p
            /\ Provider.hasRequest p = true
            /\ World.ethAccounts w
                 (Browser.calls b ++ [Call_initializeDataProtector])
               = Returned (Some accounts)
            /\ accounts <> []
            /\ World.importDataProtector w
                 (Browser.calls b
                  ++ [Call_initializeDataProtector; Call_providerRequest])
               = Returned tt
            /\ World.newIExecDataProtector w
                 (Browser.calls b
                  ++ [Call_initializeDataProtector; Call_providerRequest])
               = Returned dataProtector
            /\ DataProtector.hasCore dataProtector = true
            /\ DataProtector.hasProtectData dataProtector = true)
    /\ (answer <> None ->
        made = [Call_providerRequest; Call_newIExecDataProtector]
        /\ Browser.ticks (snd run) = (5 + Browser.ticks b)%nat).
Proof.
  cbv zeta. unfold_client.
  repeat (cbn; autorewrite with store; split_path).
  all: do 2 eexists; cbn [fst snd]; autorewrite with store.
  all: rewrite <- ?app_assoc in *; cbn [app] in *.
  all: repeat match goal with
       | H : negb _ = true |- _ => apply negb_true_iff in H
       | H : negb _ = false |- _ => apply negb_false_iff in H
       end.
  all: repeat match goal with
       | H : (List.length ?l =? 0)%nat = _ |- _ =>
           destruct l; cbn in H; try discriminate H; clear H
       end.
  all: repeat match goal with
       | u : unit |- _ => destruct u
       end.
  all: split; [reflexivity|]; split; [reflexivity|]; split; [reflexivity|];
    split; [lia|]; split;
    [ intros dp; split;
      [ first [ intros D; discriminate D
              | intros D; injection D as <-; do 2 eexists;
                split; [reflexivity|]; split; [assumption|];
                split; [reflexivity|]; split; [discriminate|];
                split; [assumption|];
                split; [assumption|]; split; assumption ]
      | intros (p & acc & Hp & Hr & Ha & Hn & Hi & Hd & Hc & Hpd);
        exfalso + idtac; congruence ]
    | first [ split; reflexivity | intros N; now contradiction N ] ].
Qed.

(** X27. What [protectKYCData] asks of the SDK does not depend on
    the document number, the name, the date of birth, the nationality or
    the expiry date: for two records with the same document type, both
    complete or both incomplete, the two runs from the same store make
    the same calls with the same arguments, read the clock as often, and
    both throw the same value or both return, with the same address and
    timestamp and no ciphertext; only the commitment differs, which is
    [createCommitment] of the record. An incomplete record, one with an
    empty required field, throws "Missing required KYC data fields" before
    anything is asked of the SDK, after the two readings of the clock of
    the logger, one at the start and one for the error. (The entries of
    the logger are not part of the store; its readings of the clock
    are.) *)
Theorem protectKYCData_sends_no_identity_field
    (w : World.t) (dataProtector : DataProtector.t) (userAddress : string)
    (b : Browser.t) (k1 k2 : KYCData.t) :
  KYCData.documentType k1 = KYCData.documentType k2 ->
  missingRequiredField k1 = missingRequiredField k2 ->
  let r1 := Rev2.protectKYCData w dataProtector k1 userAddress b in
  let r2 := Rev2.protectKYCData w dataProtector k2 userAddress b in
  snd r1 = snd r2
  /\ match fst r1, fst r2 with
     | Returned p1, Returned p2 =>
         ProtectedData.address p1 = ProtectedData.address p2
         /\ ProtectedData.timestamp p1 = ProtectedData.timestamp p2
         /\ ProtectedData.encryptedData p1 = None
         /\ ProtectedData.encryptedData p2 = None
         /\ ProtectedData.dataHash p1 = createCommitment k1
         /\ ProtectedData.dataHash p2 = createCommitment k2
     | Threw e1, Threw e2 => e1 = e2
     | _, _ => False
     end
  /\ (missingRequiredField k1 = true ->
      r1 = (Threw (ErrorObject "Missing required KYC data fields"),
            tick (tick (logCall Call_protectKYCData b)))).
Proof.
  intros Hd Hm. cbv zeta.
  assert (J : Rev2.dataToProtectJSON k2 userAddress
              = Rev2.dataToProtectJSON k1 userAddress).
  { unfold Rev2.dataToProtectJSON. now rewrite Hd. }
  unfold missingRequiredField in Hm |- *.
  unfold_client. rewrite J, <- Hm.
  repeat (cbn; autorewrite with store; split_path).
  all: cbn; repeat split; try reflexivity; try (intros D; discriminate D).
Qed.

End SessionFacts.


Lemma no_wallet_no_verification_witness :
  Browser.calls
    (snd (Rev2.startVerification UTC.newDate SampleRun.world None None None
            Sample.record SampleRun.fresh))
  = Browser.calls SampleRun.fresh.
Proof.
  apply (SessionFacts.no_wallet_no_verification UTC.newDate SampleRun.world
           SampleRun.fresh None None None Sample.record (or_introl eq_refl)
           (Rev2.startVerification UTC.newDate SampleRun.world None None None
              Sample.record SampleRun.fresh)).
  left. reflexivity.
Defined.

Lemma completed_sessions_hold_every_artifact_witness :
  exists message,
    KYCVerificationState.error (Browser.session SampleRun.minorRun)
    = Some message.
Proof.
  apply (SessionFacts.completed_sessions_hold_every_artifact UTC.newDate
           SampleRun.world SampleRun.fresh (Some Sample.subject) None None
           SampleRun.minor
           (Rev2.startVerification UTC.newDate SampleRun.world
              (Some Sample.subject) None None SampleRun.minor
              SampleRun.fresh)).
  - left. reflexivity.
  - vm_compute. reflexivity.
Defined.


Lemma simulated_sessions_complete_iff_checks_pass_witness :
  exists made,
    Browser.calls SampleRun.adultRun
    = (Browser.calls SampleRun.fresh ++ made)%list
    /\ forallb SessionNotions.isLocalCall made = true
    /\ (KYCVerificationState.status (Browser.session SampleRun.adultRun)
        = completed ->
        made = [ Call_encryptForTEE; Call_simulateVerification;
                 Call_generateMockTransactionHash ]).
Proof.
  apply (SessionFacts.simulated_sessions_complete_iff_checks_pass UTC.newDate
           SampleRun.world SampleRun.fresh (Some Sample.subject) None
           Sample.record
           (Rev2.startVerification UTC.newDate SampleRun.world
              (Some Sample.subject) None None Sample.record
              SampleRun.fresh)
           (5 + Browser.ticks SampleRun.fresh)%nat).
  left. split; reflexivity.
Defined.


Lemma protectKYCData_sends_no_identity_field_witness :
  snd (Rev2.protectKYCData SampleRun.world (DataProtector.mk true true)
         Sample.record Sample.subject SampleRun.fresh)
  = snd (Rev2.protectKYCData SampleRun.world (DataProtector.mk true true)
           Sample.otherDocument Sample.subject SampleRun.fresh).
Proof.
  apply (SessionFacts.protectKYCData_sends_no_identity_field SampleRun.world
           (DataProtector.mk true true) Sample.subject SampleRun.fresh
           Sample.record Sample.otherDocument).
  - reflexivity.
  - reflexivity.
Defined.

Lemma earlier_sessions_keep_the_step_discipline_witness :
  fst (Rev1.startVerification UTC.newDate SampleRun.world
         (Some Sample.subject) Sample.record SampleRun.fresh)
  = Returned tt.
Proof.
  apply (SessionFacts.earlier_sessions_keep_the_step_discipline UTC.newDate
           SampleRun.world SampleRun.fresh (Some Sample.subject)
           Sample.record).
Defined.

(** ** More on the worker *)

Module ReportFacts.

Import Worker WorkerNotions ReportNotions WorkerFacts.

Lemma reportsWritten_record o s :
  reportsWritten (record o s) = (reportsWritten s ++ reportOf o)%list.
Proof.
  unfold reportsWritten, record. cbn [Store.ops].
  rewrite flat_map_app. cbn [flat_map]. now rewrite app_nil_r.
Qed.

Ltac reports_kept :=
  unfold reportsWritten; cbn; rewrite ?flat_map_app; cbn;
  rewrite ?app_nil_r; reflexivity.

Section Facts.

Variable env : Env.t.

Lemma keeps_reports_processDocument i :
  preserves reportsWritten (processDocument env i).
Proof.
  intros s. unfold processDocument, tryCatch, bind, deserialize.
  destruct (Env.dataset env i) as [[[documentData documentType] userId] | e];
    reports_kept.
Qed.

Lemma keeps_reports_processInputFile i :
  preserves reportsWritten (processInputFile env i).
Proof.
  intros s. unfold processInputFile, bind, readFile, copyFile. cbv zeta.
  destruct (Env.readFile env _); cbn; [|reports_kept].
  destruct (Env.copyRefused env _ _); reports_kept.
Qed.

Lemma keeps_reports_descriptor c :
  preserves reportsWritten (writeFile env (computedPath env) (ComputedJSON c)).
Proof.
  intros s. unfold writeFile.
  destruct (Env.writeRefused env _ _); reports_kept.
Qed.

(** The outcome of [processInputFile] does not depend on the store. *)
Lemma processInputFile_outcome i s :
  (inputRefused env i = false -> fst (processInputFile env i s) = Returned tt)
  /\ (inputRefused env i = true ->
      exists e, fst (processInputFile env i s) = Threw e).
Proof.
  unfold inputRefused, inputFilePath, processedFilePath, processInputFile,
    bind, readFile, copyFile. cbv zeta.
  destruct (Env.readFile env _); cbn.
  - destruct (Env.copyRefused env _ _); cbn; split; intros H;
      try discriminate H; [eexists|]; reflexivity.
  - split; intros H; [discriminate H | eexists; reflexivity].
Qed.

Lemma input_loop_outcome (l : list Z) s :
  (existsb (inputRefused env) l = false ->
   fst (forEach l (processInputFile env) s) = Returned tt)
  /\ (existsb (inputRefused env) l = true ->
      exists e, fst (forEach l (processInputFile env) s) = Threw e).
Proof.
  revert s. induction l as [|i l IH]; intros s; cbn [existsb forEach].
  - split; [reflexivity | discriminate].
  - unfold bind. destruct (processInputFile_outcome i s) as [Hok Hno].
    destruct (inputRefused env i); cbn [orb].
    + split; [discriminate|]. intros _.
      destruct (Hno eq_refl) as [e He].
      destruct (processInputFile env i s) as [[u | e'] s1];
        cbn [fst] in He; [discriminate|]. now exists e'.
    + specialize (Hok eq_refl).
      destruct (processInputFile env i s) as [[[] | e'] s1];
        cbn [fst] in Hok; [|discriminate]. apply IH.
Qed.

Lemma bulk_part_returns s o s1 :
  (if num_gtb (Env.IEXEC_BULK_SLICE_SIZE env) (Some 0)
   then forEach (upTo (Env.IEXEC_BULK_SLICE_SIZE env)) (processDocument env)
   else ret tt) s = (o, s1) ->
  o = Returned tt
  /\ exists entries,
       Forall2 (entryOf env) (upTo (Env.IEXEC_BULK_SLICE_SIZE env)) entries
       /\ Store.verificationResults s1
          = (Store.verificationResults s ++ entries)%list
       /\ reportsWritten s1 = reportsWritten s.
Proof.
  destruct (bulk_loop_returns env (upTo (Env.IEXEC_BULK_SLICE_SIZE env)) s)
    as [entries [He [Hr Hv]]].
  destruct (num_gtb (Env.IEXEC_BULK_SLICE_SIZE env) (Some 0)) eqn:G.
  - intros L. rewrite L in Hr, Hv. cbn [fst snd] in Hr, Hv.
    split; [exact Hr|]. exists entries. split; [exact He|].
    split; [exact Hv|].
    change s1 with (snd (o, s1)). rewrite <- L.
    apply preserves_forEach. intros i. apply keeps_reports_processDocument.
  - intros L. injection L as <- <-. split; [reflexivity|].
    exists []. rewrite (no_documents _ G). split; [constructor|].
    rewrite app_nil_r. split; reflexivity.
Qed.

Lemma input_part_outcome s1 o s2 :
  forEach (upTo (Env.IEXEC_INPUT_FILES_NUMBER env)) (processInputFile env) s1
  = (o, s2) ->
  Store.verificationResults s2 = Store.verificationResults s1
  /\ reportsWritten s2 = reportsWritten s1
  /\ ((o = Returned tt
       /\ existsb (inputRefused env)
            (upTo (Env.IEXEC_INPUT_FILES_NUMBER env)) = false)
      \/ ((exists e, o = Threw e)
          /\ existsb (inputRefused env)
               (upTo (Env.IEXEC_INPUT_FILES_NUMBER env)) = true)).
Proof.
  intros L.
  pose proof (input_loop_outcome (upTo (Env.IEXEC_INPUT_FILES_NUMBER env)) s1)
    as [Hok Hno].
  pose proof (preserves_forEach reportsWritten
                (upTo (Env.IEXEC_INPUT_FILES_NUMBER env))
                (processInputFile env) keeps_reports_processInputFile s1)
    as Kw.
  pose proof (preserves_forEach Store.verificationResults
                (upTo (Env.IEXEC_INPUT_FILES_NUMBER env))
                (processInputFile env) (keeps_results_processInputFile env) s1)
    as Kv.
  rewrite L in Hok, Hno, Kw, Kv. cbn [fst snd] in *.
  split; [exact Kv|]. split; [exact Kw|].
  destruct (existsb (inputRefused env)
              (upTo (Env.IEXEC_INPUT_FILES_NUMBER env))).
  - right. split; [apply Hno|]; reflexivity.
  - left. split; [apply Hok|]; reflexivity.
Qed.

Lemma mainBody_reports s :
  exists entries,
    Forall2 (entryOf env) (upTo (Env.IEXEC_BULK_SLICE_SIZE env)) entries
    /\ ((existsb (inputRefused env) (upTo (Env.IEXEC_INPUT_FILES_NUMBER env))
         = true
         /\ reportsWritten (snd (mainBody env s)) = reportsWritten s
         /\ exists e, fst (mainBody env s) = Threw e)
        \/ (existsb (inputRefused env)
              (upTo (Env.IEXEC_INPUT_FILES_NUMBER env)) = false
            /\ exists r,
                 reportsWritten (snd (mainBody env s))
                 = (reportsWritten s ++ [r])%list
                 /\ countedFromEntries r
                 /\ KycReport.verificationResults r
                    = (Store.verificationResults s ++ entries)%list)).
Proof.
  destruct (mainBody env s) as [o sB] eqn:B. cbn [fst snd]. revert B.
  unfold mainBody, bind.
  match goal with
  | |- context [match ?x with _ => _ end] =>
      lazymatch x with
      | (if _ then _ else _) s => destruct x as [o1 s1] eqn:L1
      end
  end.
  apply bulk_part_returns in L1. destruct L1 as [-> (entries & He & Hv & Hw)].
  destruct (forEach (upTo (Env.IEXEC_INPUT_FILES_NUMBER env))
              (processInputFile env) s1) as [o2 s2] eqn:L2.
  apply input_part_outcome in L2.
  destruct L2 as [Kv [Kw [[-> X] | [[e ->] X]]]]; rewrite X.
  - unfold gets, isoNow, writeFile, setComputed, modify. cbn.
    destruct (Env.writeRefused env (reportPath env) (Store.ops s2));
      cbn; intros B; injection B as <- <-;
      exists entries; (split; [exact He|]); right;
      (split; [reflexivity|]); eexists;
      (split;
       [ unfold reportsWritten; cbn; rewrite flat_map_app; cbn;
         fold (reportsWritten s2); rewrite Kw, Hw; reflexivity
       | split; [repeat split | cbn; rewrite Kv, Hv; reflexivity] ]).
  - intros B. injection B as <- <-.
    exists entries. split; [exact He|]. left.
    split; [reflexivity|]. split; [now rewrite Kw, Hw|]. now exists e.
Qed.

Lemma guarded_reports s :
  reportsWritten (snd (guarded env s))
  = reportsWritten (snd (mainBody env s)).
Proof.
  unfold guarded.
  rewrite preserved_after_tryFinally.
  2:{ apply preserves_bind; [apply preserves_gets|].
      intros c. apply keeps_reports_descriptor. }
  apply preserved_after_tryCatch. intros e s0. reflexivity.
Qed.

Lemma guarded_descriptor s :
  Store.computedJsonObj (snd (guarded env s))
  = descriptorFor env (fst (mainBody env s)).
Proof.
  unfold guarded. fold (attempt env).
  rewrite preserved_after_tryFinally.
  - apply attempt_returns.
  - apply preserves_bind; [apply preserves_gets|].
    intros c s0. unfold writeFile.
    destruct (Env.writeRefused env _ _); reflexivity.
Qed.

(** An entry is of exactly one kind: verified, failed, or an error. *)
Lemma entry_kinds i entry :
  entryOf env i entry ->
  (if hasStatus VERIFIED entry then 1 else 0)
  + (if hasStatus FAILED entry then 1 else 0)
  + (if isErrored entry then 1 else 0) = 1.
Proof.
  unfold entryOf.
  destruct (Env.dataset env i) as [[[documentData documentType] userId] | e];
    intros [timestamp ->]; [|reflexivity].
  unfold performKYCVerification. cbn [fst].
  match goal with |- context [if ?c then VERIFIED else FAILED] =>
    destruct c end; reflexivity.
Qed.

Lemma countWhere_cons (p : Entry -> bool) entry l :
  countWhere p (entry :: l) = (if p entry then 1 else 0) + countWhere p l.
Proof.
  unfold countWhere. cbn [filter]. destruct (p entry); cbn [List.length]; lia.
Qed.

Lemma entries_add_up l entries :
  Forall2 (entryOf env) l entries ->
  countWhere (hasStatus VERIFIED) entries
  + countWhere (hasStatus FAILED) entries
  + countWhere isErrored entries
  = Z.of_nat (List.length entries).
Proof.
  induction 1 as [|i entry l entries He _ IH]; [reflexivity|].
  rewrite !countWhere_cons. pose proof (entry_kinds i entry He).
  cbn [List.length]. lia.
Qed.

End Facts.

Lemma countWhere_bounds (p : Entry -> bool) l :
  0 <= countWhere p l <= Z.of_nat (List.length l).
Proof.
  unfold countWhere. pose proof (filter_length_le p l). lia.
Qed.

Lemma all_iff_count (p : Entry -> bool) l :
  forallb p l = true <-> countWhere p l = Z.of_nat (List.length l).
Proof.
  induction l as [|entry l IH]; [split; reflexivity|].
  rewrite countWhere_cons. cbn [forallb List.length].
  pose proof (countWhere_bounds p l).
  destruct (p entry); cbn [andb].
  - rewrite IH. lia.
  - split; [discriminate | lia].
Qed.

(** X28. An invocation of the worker asks for at most one report
    to be written, and the counters of that report add up: its entries are
    those of the documents of the batch, in order; [totalDocuments] is
    their number; every entry is verified, failed or the record of an
    error, so that [verifiedDocuments], [failedDocuments] and the number of
    error entries sum to [totalDocuments]; the overall status is
    [ALL_VERIFIED] exactly when every document is verified; and a batch
    with no document is reported [ALL_VERIFIED]. *)
Theorem report_counters_add_up (env : Env.t) (r : KycReport.t) :
  In r (reportsWritten (snd (main env start))) ->
  reportsWritten (snd (main env start)) = [r]
  /\ Forall2 (entryOf env) (upTo (Env.IEXEC_BULK_SLICE_SIZE env))
       (KycReport.verificationResults r)
  /\ KycReport.totalDocuments r
     = Z.of_nat (List.length (upTo (Env.IEXEC_BULK_SLICE_SIZE env)))
  /\ KycReport.verifiedDocuments r + KycReport.failedDocuments r
     + countWhere isErrored (KycReport.verificationResults r)
     = KycReport.totalDocuments r
  /\ 0 <= KycReport.verifiedDocuments r
  /\ 0 <= KycReport.failedDocuments r
  /\ (KycReport.overallStatus r = ALL_VERIFIED
      <-> KycReport.verifiedDocuments r = KycReport.totalDocuments r)
  /\ (KycReport.totalDocuments r = 0 ->
      KycReport.overallStatus r = ALL_VERIFIED).
Proof.
  destruct (fst (setUp env start)) as [[] | e] eqn:U.
  2:{ rewrite (main_without_setUp env start e U). intros I.
      contradiction I. }
  rewrite (main_after_setUp env start U), guarded_reports.
  destruct (mainBody_reports env start)
    as [entries [He [[_ [W _]] | [_ [r0 [W [C V]]]]]]];
    rewrite W; cbn [reportsWritten start Store.ops flat_map app];
    intros I; [contradiction I|].
  destruct I as [<- | []].
  change (Store.verificationResults start ++ entries)%list with entries in V.
  rewrite <- V in He.
  destruct C as [Ct [Cv [Cf Co]]].
  pose proof (entries_add_up env _ _ He) as A.
  pose proof (countWhere_bounds (hasStatus VERIFIED)
                (KycReport.verificationResults r0)) as Bv.
  pose proof (countWhere_bounds (hasStatus FAILED)
                (KycReport.verificationResults r0)) as Bf.
  pose proof (all_iff_count (hasStatus VERIFIED)
                (KycReport.verificationResults r0)) as Q.
  split; [reflexivity|]. split; [exact He|].
  split; [rewrite Ct, (Forall2_length He); reflexivity|].
  split; [rewrite Cv, Cf, Ct; exact A|].
  split; [lia|]. split; [lia|].
  rewrite Co, Cv, Ct. split.
  - destruct (forallb _ _); split; intros H;
      [ now apply Q | reflexivity | discriminate H
      | apply Q in H; discriminate H ].
  - intros Z0.
    destruct (KycReport.verificationResults r0); [reflexivity|].
    cbn [List.length] in Z0. lia.
Qed.

(** X29. An invocation of the worker whose set-up returns asks
    for no report to be written exactly when one of the additional input
    files cannot be read or cannot be copied to the output directory. The
    [try] block of [main] then throws, whatever the documents of the batch
    were, and the completion descriptor holds the output directory and
    the message "Oops something went wrong". An invocation whose set-up
    throws, because [IEXEC_OUT] is unset or the logger cannot be created,
    asks for no report either: it throws before the [try] and leaves the
    store as it was. So no report is asked for exactly when the set-up
    throws or an input file is refused. *)
Theorem report_needs_every_input_file (env : Env.t) :
  (reportsWritten (snd (main env start)) = []
   <-> (exists e, fst (setUp env start) = Threw e)
       \/ exists i,
            In i (upTo (Env.IEXEC_INPUT_FILES_NUMBER env))
            /\ inputRefused env i = true)
  /\ (fst (setUp env start) = Returned tt ->
      reportsWritten (snd (main env start)) = [] ->
      (exists e, fst (mainBody env start) = Threw e)
      /\ Store.computedJsonObj (snd (main env start))
         = Computed.mk (Env.IEXEC_OUT env)
             (Some "Oops something went wrong"))
  /\ (forall e,
        fst (setUp env start) = Threw e ->
        main env start = (Threw e, start)).
Proof.
  destruct (fst (setUp env start)) as [[] | e0] eqn:U.
  - rewrite (main_after_setUp env start U), guarded_reports,
      guarded_descriptor.
    destruct (mainBody_reports env start)
      as [entries [He [[X [W [e T]]] | [X [r0 [W [C V]]]]]]];
      rewrite W; cbn [reportsWritten start Store.ops flat_map app].
    + split; [|split].
      * split; [intros _; right; now apply existsb_exists | reflexivity].
      * intros _ _. rewrite T. split; [now exists e | reflexivity].
      * intros e1 D. discriminate D.
    + split; [|split].
      * split; [intros D; discriminate D|].
        intros [[e1 D] | H]; [discriminate D|].
        apply existsb_exists in H. rewrite X in H. discriminate H.
      * intros _ D. discriminate D.
      * intros e1 D. discriminate D.
  - rewrite (main_without_setUp env start e0 U). split; [|split].
    + split; [intros _; left; now exists e0 | reflexivity].
    + intros D. discriminate D.
    + intros e1 D. injection D as <-. reflexivity.
Qed.

End ReportFacts.

Lemma report_counters_add_up_witness :
  ReportNotions.reportsWritten
    (snd (Worker.main SampleWorker.batch Worker.start))
  = [ReportNotions.sampleReport]
  /\ Worker.KycReport.verifiedDocuments ReportNotions.sampleReport
     + Worker.KycReport.failedDocuments ReportNotions.sampleReport
     + Worker.countWhere ReportNotions.isErrored
         (Worker.KycReport.verificationResults ReportNotions.sampleReport)
     = Worker.KycReport.totalDocuments ReportNotions.sampleReport.
Proof.
  destruct (ReportFacts.report_counters_add_up SampleWorker.batch
              ReportNotions.sampleReport) as [U [_ [_ [A _]]]].
  - vm_compute. left. reflexivity.
  - split; [exact U | exact A].
Defined.

Lemma report_needs_every_input_file_witness :
  ReportNotions.reportsWritten
    (snd (Worker.main SampleWorker.missingInput Worker.start)) = [].
Proof.
  apply (ReportFacts.report_needs_every_input_file SampleWorker.missingInput).
  right. exists 1. split; [left|]; reflexivity.
Defined.
